(** * build.py: the cross-platform build script of the 3D HUD rendering engine

    A shallow embedding of [build.py] and the properties of its behaviour.

    The script is a sequence of interactions with its host: it prints,
    reads the process environment, probes and changes the file system, and
    runs external programs (Conan and CMake).  The embedding is a state and
    exception monad over an explicit host state (the file system and the
    chronological trace of what the script did), parameterised by a
    [World] that answers what the script cannot decide by itself: the
    host's name, the environment variables, the CPU count, the directory
    of the script, and what every external program does when it is run. *)

From Stdlib Require Import ZArith Ascii.
From stdpp Require Import base option list strings gmap pretty.

Local Open Scope Z_scope.

(** ** Python values *)

(** The errors of the operating system that reach the script, as the
    subclasses of [OSError] Python raises for them. *)
Inductive OSError : Type :=
  | FileNotFoundError
  | FileExistsError
  | NotADirectoryError
  | PermissionError.

(** The exceptions that can travel through the script. [SystemExit] is the
    one [sys.exit] raises. *)
Inductive PyExc : Type :=
  | OSErr (e : OSError)
  | IndexError
  | SystemExit (code : Z).

(** [isinstance(e, FileNotFoundError)], the test of the [except] clauses. *)
Definition is_FileNotFoundError (e : PyExc) : bool :=
  match e with OSErr FileNotFoundError => true | _ => false end.

(** Truth value of an [Optional[str]]: [None] and the empty string are
    false. *)
Definition truthy (o : option string) : bool :=
  match o with
  | None => false
  | Some s => negb (bool_decide (s = ""))
  end.

(** [str(x)] of an [Optional[str]], as an f-string formats it. *)
Definition py_str (o : option string) : string :=
  match o with
  | None => "None"
  | Some s => s
  end.

(** [str.lower()] on the ASCII range. *)
Definition ascii_lower (c : ascii) : ascii :=
  let n := Ascii.N_of_ascii c in
  if ((65 <=? n) && (n <=? 90))%N then Ascii.ascii_of_N (n + 32) else c.

Fixpoint lower (s : string) : string :=
  match s with
  | EmptyString => EmptyString
  | String c r => String (ascii_lower c) (lower r)
  end.

(** The white space of [str.strip()], a string being the UTF-8 encoding
    of a text: the characters for which [str.isspace()] holds, which are
    U+0009 to U+000D, U+001C to U+0020, U+0085, U+00A0, U+1680, U+2000 to
    U+200A, U+2028, U+2029, U+202F, U+205F and U+3000, in one, two or three
    bytes. *)
Definition space1 (c : ascii) : bool :=
  let n := Ascii.N_of_ascii c in
  (((9 <=? n) && (n <=? 13)) || ((28 <=? n) && (n <=? 32)))%N.

Definition space2 (c1 c2 : ascii) : bool :=
  let n1 := Ascii.N_of_ascii c1 in
  let n2 := Ascii.N_of_ascii c2 in
  ((n1 =? 194) && ((n2 =? 133) || (n2 =? 160)))%N.

Definition space3 (c1 c2 c3 : ascii) : bool :=
  let n1 := Ascii.N_of_ascii c1 in
  let n2 := Ascii.N_of_ascii c2 in
  let n3 := Ascii.N_of_ascii c3 in
  (((n1 =? 225) && (n2 =? 154) && (n3 =? 128))
   || ((n1 =? 226) && (n2 =? 128)
       && (((128 <=? n3) && (n3 <=? 138)) || (n3 =? 168) || (n3 =? 169) || (n3 =? 175)))
   || ((n1 =? 226) && (n2 =? 129) && (n3 =? 159))
   || ((n1 =? 227) && (n2 =? 128) && (n3 =? 128)))%N.

(** A string that is one character of white space. *)
Definition white (s : string) : bool :=
  match s with
  | String c EmptyString => space1 c
  | String c1 (String c2 EmptyString) => space2 c1 c2
  | String c1 (String c2 (String c3 EmptyString)) => space3 c1 c2 c3
  | _ => false
  end.

(** [str.strip()]: leading and trailing white space removed. *)
Fixpoint lstrip (s : string) : string :=
  match s with
  | String c1 r1 =>
      if space1 c1 then lstrip r1
      else match r1 with
           | String c2 r2 =>
               if space2 c1 c2 then lstrip r2
               else match r2 with
                    | String c3 r3 => if space3 c1 c2 c3 then lstrip r3 else s
                    | EmptyString => s
                    end
           | EmptyString => s
           end
  | EmptyString => EmptyString
  end.

Fixpoint rstrip (s : string) : string :=
  match s with
  | EmptyString => EmptyString
  | String c r =>
      let t := String c (rstrip r) in
      if white t then EmptyString else t
  end.

Definition strip (s : string) : string := rstrip (lstrip s).

(** [s.split(' ')]: split at every single space, empty fields kept. *)
Fixpoint split_space (s : string) : list string :=
  match s with
  | EmptyString => [EmptyString]
  | String c r =>
      if bool_decide (c = " "%char) then EmptyString :: split_space r
      else match split_space r with
           | [] => [String c EmptyString]
           | f :: fs => String c f :: fs
           end
  end.

(** [c * n] for a one-character string. *)
Fixpoint repeat_char (c : ascii) (n : nat) : string :=
  match n with
  | O => EmptyString
  | S k => String c (repeat_char c k)
  end.

(** [sep.join(l)]. *)
Fixpoint join (sep : string) (l : list string) : string :=
  match l with
  | [] => ""
  | [x] => x
  | x :: r => x +:+ sep +:+ join sep r
  end.

(** ** Paths *)

(** A [pathlib] path: the anchor (drive and root) and the components
    below it. *)
Record Path : Type := mkPath {
  anchor : string;
  parts : list string
}.

(** [p / name]. *)
Definition path_div (p : Path) (name : string) : Path :=
  {| anchor := anchor p; parts := parts p ++ [name] |}.

Infix "//" := path_div (at level 40, left associativity).

(** [p.parent]. *)
Definition parent (p : Path) : Path :=
  {| anchor := anchor p; parts := removelast (parts p) |}.

(** [str(p)], with the separator of the host's path flavour. *)
Definition path_str (sep : string) (p : Path) : string :=
  anchor p +:+ join sep (parts p).

(** ** The host *)

Inductive EntryKind : Type := File | Dir.

(** The file system: what exists at each path, keyed by the path's text. *)
Abbreviation FS := (gmap string EntryKind).

(** What [subprocess.run] gives: a [CompletedProcess] with its return code
    and captured standard output, or an exception (the program is not
    found, may not be executed, ...). *)
Record CompletedProcess : Type := mkCompleted {
  returncode : Z;
  stdout : string
}.

Inductive ProcResult : Type :=
  | Completed (result : CompletedProcess)
  | Failed (e : OSError).

(** What the script does to its host, in the order it does it. *)
Inductive Event : Type :=
  | EPrint (line : string)
  | ERun (cmd : list string) (cwd : option string) (capture : bool) (r : ProcResult)
  | EMkdir (path : string)
  | ERmtree (path : string).

Record State : Type := mkState {
  fs : FS;
  trace : list Event
}.

Record World : Type := mkWorld {
  (** [platform.system()] *)
  platform_system : string;
  (** [os.environ] *)
  environ : gmap string string;
  (** [multiprocessing.cpu_count()] *)
  cpu_count : N;
  (** [Path(__file__).parent.absolute()] *)
  script_dir : Path;
  (** [os.sep] *)
  os_sep : string;
  (** an external program, run with a command line and a working
      directory in a given host state: its result and the file system it
      leaves behind *)
  proc : State -> list string -> option string -> ProcResult * FS
}.

(** ** The monad of the script *)

Inductive Res (A : Type) : Type :=
  | Val (a : A)
  | Raise (e : PyExc).
Arguments Val {A} a.
Arguments Raise {A} e.

Definition M (A : Type) : Type := State -> Res A * State.

Definition ret {A} (a : A) : M A := fun st => (Val a, st).

Definition bind {A B} (m : M A) (f : A -> M B) : M B :=
  fun st =>
    match m st with
    | (Val a, st') => f a st'
    | (Raise e, st') => (Raise e, st')
    end.

Definition raise {A} (e : PyExc) : M A := fun st => (Raise e, st).

(** [try: body  except <handles>: handler] *)
Definition try_except {A} (body : M A) (handles : PyExc -> bool) (handler : M A) : M A :=
  fun st =>
    match body st with
    | (Raise e, st') => if handles e then handler st' else (Raise e, st')
    | r => r
    end.

Declare Scope py_scope.
Delimit Scope py_scope with py.
Notation "x <- m ;; k" := (bind m (fun x => k))
  (at level 100, m at next level, right associativity) : py_scope.
Notation "m ;; k" := (bind m (fun _ => k))
  (at level 100, right associativity) : py_scope.
Local Open Scope py_scope.

Definition emit (e : Event) : M unit :=
  fun st => (Val tt, {| fs := fs st; trace := trace st ++ [e] |}).

(** [print(line)] *)
Definition print (line : string) : M unit := emit (EPrint line).

(** [os.path.exists(p)] and [Path.exists()]. *)
Definition path_exists (p : string) : M bool :=
  fun st => (Val (bool_decide (is_Some (fs st !! p))), st).

(** [l[i]] on a list. *)
Definition index {A} (l : list A) (i : nat) : M A :=
  match l !! i with
  | Some x => ret x
  | None => raise IndexError
  end.

(** How a block of statements ends: with a [return] of the enclosing
    function, or by falling through to the next statement with the
    variables it has set. *)
Inductive Flow (R V : Type) : Type :=
  | Return (r : R)
  | Next (v : V).
Arguments Return {R V} r.
Arguments Next {R V} v.

(** [sys.exit(code)] *)
Definition sys_exit {A} (code : Z) : M A := raise (SystemExit code).

(** Whether [q] is [p] or lies below the directory [p]. *)
Definition under (sep p q : string) : bool :=
  bool_decide (q = p) || String.prefix (p +:+ sep) q.

(** [Path.mkdir(exist_ok=True)]: an existing directory is left as it is, a
    missing one is created inside its parent, which must be a directory. *)
Definition mkdir (sep : string) (p : Path) : M unit :=
  fun st =>
    let st' := {| fs := fs st; trace := trace st ++ [EMkdir (path_str sep p)] |} in
    match fs st !! path_str sep p with
    | Some Dir => (Val tt, st')
    | Some File => (Raise (OSErr FileExistsError), st')
    | None =>
        match fs st !! path_str sep (parent p) with
        | Some Dir =>
            (Val tt, {| fs := <[path_str sep p := Dir]> (fs st); trace := trace st' |})
        | Some File => (Raise (OSErr NotADirectoryError), st')
        | None => (Raise (OSErr FileNotFoundError), st')
        end
    end.

(** [shutil.rmtree(p)]: the directory and everything below it is removed. *)
Definition rmtree (sep : string) (p : Path) : M unit :=
  fun st =>
    let st' := {| fs := fs st; trace := trace st ++ [ERmtree (path_str sep p)] |} in
    match fs st !! path_str sep p with
    | Some Dir =>
        (Val tt, {| fs := filter (fun kv => under sep (path_str sep p) kv.1 = false) (fs st);
                    trace := trace st' |})
    | Some File => (Raise (OSErr NotADirectoryError), st')
    | None => (Raise (OSErr FileNotFoundError), st')
    end.

(** [if not arch: arch = d]: the value of [arch] afterwards. *)
Definition default_to (arch : option string) (d : string) : string :=
  match arch with
  | Some s => if bool_decide (s = "") then d else s
  | None => d
  end.

(** [cmd.append("--verbose")] under [if verbose:]. *)
Definition append_verbose (verbose : bool) (cmd : list string) : list string :=
  if verbose then cmd ++ ["--verbose"] else cmd.

(** The dictionary [arch_to_abi] of [build_for_android]. *)
Definition arch_to_abi : gmap string string :=
  list_to_map [("armv7", "armeabi-v7a"); ("armv8", "arm64-v8a");
               ("x86", "x86"); ("x86_64", "x86_64")].

(** ** The script *)

Section Script.

Variable w : World.

(** [subprocess.run(cmd, cwd=cwd, capture_output=capture)] *)
Definition subprocess_run (cmd : list string) (cwd : option string) (capture : bool)
  : M CompletedProcess :=
  fun st =>
    let '(r, fs') := proc w st cmd cwd in
    let st' := {| fs := fs'; trace := trace st ++ [ERun cmd cwd capture r] |} in
    match r with
    | Completed result => (Val result, st')
    | Failed e => (Raise (OSErr e), st')
    end.

(** [os.environ.get(name)] *)
Definition environ_get (name : string) : option string := environ w !! name.

Definition str_path (p : Path) : string := path_str (os_sep w) p.

Definition detect_platform : string :=
  let system := lower (platform_system w) in
  if bool_decide (system = "windows") then "windows"
  else if bool_decide (system = "linux") then "linux"
  else if bool_decide (system = "darwin") then "macos"
  else "unknown".

Definition check_android_prerequisites : M bool :=
  let android_ndk_home := environ_get "ANDROID_NDK_HOME" in
  if negb (truthy android_ndk_home) then
    print "Error: Please set ANDROID_NDK_HOME environment variable";;
    ret false
  else
    e <- path_exists (py_str android_ndk_home);;
    if negb e then
      print "Error: ANDROID_NDK_HOME path does not exist";;
      ret false
    else
      print ("Android NDK path: " +:+ py_str android_ndk_home);;
      ret true.

Definition check_qnx_prerequisites : M bool :=
  let qnx_sdp_home := environ_get "QNX_SDP_HOME" in
  if negb (truthy qnx_sdp_home) then
    print "Error: Please set QNX_SDP_HOME environment variable";;
    ret false
  else
    e <- path_exists (py_str qnx_sdp_home);;
    if negb e then
      print "Error: QNX_SDP_HOME path does not exist";;
      ret false
    else
      print ("QNX SDP path: " +:+ py_str qnx_sdp_home);;
      ret true.

Definition check_prerequisites (target_platform : option string) : M bool :=
  print "Checking build prerequisites...";;
  (* Check Conan *)
  r <- try_except
         (result <- subprocess_run ["conan"; "--version"] None true;;
          if negb (returncode result =? 0) then
            print "Error: Conan not installed or not in PATH";;
            ret (Return false)
          else
            print ("Conan version: " +:+ strip (stdout result));;
            ret (Next tt))
         is_FileNotFoundError
         (print "Error: Conan not installed";;
          ret (Return false));;
  match r with
  | Return b => ret b
  | Next _ =>
  (* Check CMake *)
  r <- try_except
         (result <- subprocess_run ["cmake"; "--version"] None true;;
          if negb (returncode result =? 0) then
            print "Error: CMake not installed or not in PATH";;
            ret (Return false)
          else
            v <- index (split_space (stdout result)) 2;;
            print ("CMake version: " +:+ strip v);;
            ret (Next tt))
         is_FileNotFoundError
         (print "Error: CMake not installed";;
          ret (Return false));;
  match r with
  | Return b => ret b
  | Next _ =>
  (* Platform-specific checks *)
  ok <- (if bool_decide (target_platform = Some "android") then
           check_android_prerequisites
         else if bool_decide (target_platform = Some "qnx") then
           check_qnx_prerequisites
         else ret true);;
  if negb ok then ret false
  else
    print "Prerequisites check completed";;
    ret true
  end end.

Definition build_for_windows (project_root conan_dir build_dir : Path)
    (build_type : string) (arch : option string) (verbose : bool) : M bool :=
  print ("Building Windows version... " +:+ str_path conan_dir);;
  let arch := default_to arch "x86_64" in
  (* Install dependencies using conanfile.txt *)
  let cmd := ["conan"; "install"; "."; "--output-folder"; str_path conan_dir;
              "--build"; "missing";
              "-s"; "os=Windows";
              "-s"; "arch=" +:+ arch;
              "-s"; "compiler=msvc";
              "-s"; "compiler.version=195";
              "-s"; "compiler.cppstd=17"] in
  let cmd := append_verbose verbose cmd in
  result <- subprocess_run cmd (Some (str_path project_root)) false;;
  if negb (returncode result =? 0) then
    print "Error: Conan installation failed";;
    ret false
  else
  (* Configure CMake project *)
  let cmd := ["cmake"; "-S"; "."; "-B"; "build"; "-G"; "Visual Studio 18 2026";
              "-DCMAKE_TOOLCHAIN_FILE=" +:+ str_path conan_dir
                +:+ "/build/generators/conan_toolchain.cmake";
              "-DCMAKE_PREFIX_PATH=" +:+ str_path conan_dir;
              "-DCMAKE_BUILD_TYPE=" +:+ build_type] in
  let cmd :=
    if bool_decide (arch = "x86") then cmd ++ ["-A"; "Win32"]
    else if bool_decide (arch = "x86_64") then cmd ++ ["-A"; "x64"]
    else if bool_decide (arch = "armv8") then cmd ++ ["-A"; "ARM64"]
    else cmd in
  let cmd := append_verbose verbose cmd in
  result <- subprocess_run cmd (Some (str_path project_root)) false;;
  if negb (returncode result =? 0) then
    print "Error: CMake configuration failed";;
    ret false
  else
  (* Build project *)
  let cmd := ["cmake"; "--build"; "build"; "--config"; build_type] in
  let cmd := append_verbose verbose cmd in
  result <- subprocess_run cmd (Some (str_path project_root)) false;;
  if negb (returncode result =? 0) then
    print "Error: Build failed";;
    ret false
  else
    ret true.

Definition build_for_linux (project_root conan_dir build_dir : Path)
    (build_type : string) (arch : option string) (verbose : bool) : M bool :=
  print "Building Linux version...";;
  let arch := default_to arch "x86_64" in
  (* Install dependencies using conanfile.txt *)
  let cmd := ["conan"; "install"; "."; "--output-folder"; str_path conan_dir;
              "--build"; "missing";
              "-s"; "os=Linux";
              "-s"; "arch=" +:+ arch;
              "-s"; "compiler=gcc";
              "-s"; "compiler.version=11";
              "-s"; "compiler.cppstd=17"] in
  let cmd := append_verbose verbose cmd in
  result <- subprocess_run cmd (Some (str_path project_root)) false;;
  if negb (returncode result =? 0) then
    print "Error: Conan installation failed";;
    ret false
  else
  (* Configure CMake project *)
  let cmd := ["cmake"; "-S"; "."; "-B"; "build";
              "-DCMAKE_BUILD_TYPE=" +:+ build_type;
              "-DCMAKE_PREFIX_PATH=" +:+ str_path conan_dir;
              "-DCMAKE_TOOLCHAIN_FILE=" +:+ str_path conan_dir
                +:+ "/build/generators/conan_toolchain.cmake"] in
  (* Set cross-compilation toolchain (if non-x86_64 architecture is specified) *)
  let cmd :=
    if negb (bool_decide (arch = "x86_64")) then
      if bool_decide (arch = "x86") then
        cmd ++ ["-DCMAKE_C_FLAGS=-m32"; "-DCMAKE_CXX_FLAGS=-m32"]
      else if bool_decide (arch = "armv7") then
        cmd ++ ["-DCMAKE_TOOLCHAIN_FILE=cmake/arm-linux-gnueabihf.cmake"]
      else if bool_decide (arch = "armv8") then
        cmd ++ ["-DCMAKE_TOOLCHAIN_FILE=cmake/aarch64-linux-gnu.cmake"]
      else cmd
    else cmd in
  let cmd := append_verbose verbose cmd in
  result <- subprocess_run cmd (Some (str_path project_root)) false;;
  if negb (returncode result =? 0) then
    print "Error: CMake configuration failed";;
    ret false
  else
  (* Build project *)
  let jobs := cpu_count w in
  let cmd := ["cmake"; "--build"; "build"; "-j"; pretty jobs] in
  let cmd := append_verbose verbose cmd in
  result <- subprocess_run cmd (Some (str_path project_root)) false;;
  if negb (returncode result =? 0) then
    print "Error: Build failed";;
    ret false
  else
    ret true.

Definition build_for_android (project_root conan_dir build_dir : Path)
    (build_type : string) (arch : option string) (verbose : bool) : M bool :=
  print "Building Android version...";;
  let android_ndk_home := environ_get "ANDROID_NDK_HOME" in
  let android_build_dir := build_dir // "android" in
  mkdir (os_sep w) android_build_dir;;
  let arch := default_to arch "armv8" in
  (* Map architecture to Android ABI *)
  match arch_to_abi !! arch with
  | None =>
      print ("Error: Unsupported Android architecture: " +:+ arch);;
      ret false
  | Some android_abi =>
  (* Install dependencies using conanfile.txt *)
  let cmd := ["conan"; "install"; "."; "--output-folder"; str_path conan_dir;
              "--build"; "missing";
              "-s"; "os=Android";
              "-s"; "arch=" +:+ arch;
              "-s"; "compiler=clang";
              "-s"; "compiler.version=12";
              "-s"; "compiler.cppstd=17"] in
  let cmd := append_verbose verbose cmd in
  result <- subprocess_run cmd (Some (str_path project_root)) false;;
  if negb (returncode result =? 0) then
    print "Error: Conan installation failed";;
    ret false
  else
  (* Configure Android project *)
  let cmd := ["cmake"; "-S"; "."; "-B"; "build/android";
              "-DCMAKE_TOOLCHAIN_FILE=" +:+ py_str android_ndk_home
                +:+ "/build/cmake/android.toolchain.cmake";
              "-DANDROID_ABI=" +:+ android_abi;
              "-DANDROID_PLATFORM=android-24";
              "-DCMAKE_BUILD_TYPE=" +:+ build_type;
              "-DHUD_ENGINE_PLATFORM_ANDROID=ON";
              "-DHUD_ENGINE_USE_EGL=ON";
              "-DCMAKE_PREFIX_PATH=" +:+ str_path conan_dir;
              "-DCMAKE_TOOLCHAIN_FILE=" +:+ str_path conan_dir
                +:+ "/build/generators/conan_toolchain.cmake"] in
  let cmd := append_verbose verbose cmd in
  result <- subprocess_run cmd (Some (str_path project_root)) false;;
  if negb (returncode result =? 0) then
    print "Error: Android CMake configuration failed";;
    ret false
  else
  (* Build Android project *)
  let cmd := ["cmake"; "--build"; "build/android"; "-j"; "4"] in
  let cmd := append_verbose verbose cmd in
  result <- subprocess_run cmd (Some (str_path project_root)) false;;
  if negb (returncode result =? 0) then
    print "Error: Android build failed";;
    ret false
  else
    ret true
  end.

Definition build_for_qnx (project_root conan_dir build_dir : Path)
    (build_type : string) (arch : option string) (verbose : bool) : M bool :=
  print "构建QNX版本...";;
  let qnx_sdp_home := environ_get "QNX_SDP_HOME" in
  let qnx_build_dir := build_dir // "qnx" in
  mkdir (os_sep w) qnx_build_dir;;
  let arch := default_to arch "armv7" in
  (* Install dependencies using conanfile.txt *)
  let cmd := ["conan"; "install"; "."; "--output-folder"; str_path conan_dir;
              "--build"; "missing";
              "-s"; "os=Neutrino";
              "-s"; "arch=" +:+ arch;
              "-s"; "compiler=qcc";
              "-s"; "compiler.version=5.4";
              "-s"; "compiler.cppstd=17"] in
  let cmd := append_verbose verbose cmd in
  result <- subprocess_run cmd (Some (str_path project_root)) false;;
  if negb (returncode result =? 0) then
    print "Error: Conan installation failed";;
    ret false
  else
  (* Configure QNX project *)
  let cmd := ["cmake"; "-S"; "."; "-B"; "build/qnx";
              "-DCMAKE_TOOLCHAIN_FILE=" +:+ py_str qnx_sdp_home
                +:+ "/qnx710/cmake/toolchain.cmake";
              "-DCMAKE_BUILD_TYPE=" +:+ build_type;
              "-DHUD_ENGINE_PLATFORM_QNX=ON";
              "-DHUD_ENGINE_USE_EGL=ON";
              "-DCMAKE_PREFIX_PATH=" +:+ str_path conan_dir;
              "-DCMAKE_TOOLCHAIN_FILE=" +:+ str_path conan_dir
                +:+ "/build/generators/conan_toolchain.cmake"] in
  (* Set QNX architecture specific configuration *)
  let cmd :=
    if bool_decide (arch = "x86") then cmd ++ ["-DQNX_TARGET_CPU=x86"]
    else if bool_decide (arch = "armv7") then cmd ++ ["-DQNX_TARGET_CPU=armv7"]
    else if bool_decide (arch = "armv8") then cmd ++ ["-DQNX_TARGET_CPU=aarch64le"]
    else cmd in
  let cmd := append_verbose verbose cmd in
  result <- subprocess_run cmd (Some (str_path project_root)) false;;
  if negb (returncode result =? 0) then
    print "Error: QNX CMake configuration failed";;
    ret false
  else
  (* Build QNX project *)
  let cmd := ["cmake"; "--build"; "build/qnx"; "-j"; "4"] in
  let cmd := append_verbose verbose cmd in
  result <- subprocess_run cmd (Some (str_path project_root)) false;;
  if negb (returncode result =? 0) then
    print "Error: QNX build failed";;
    ret false
  else
    ret true.

Definition build_project (target_platform arch : option string)
    (clean verbose : bool) (build_type : string) : M bool :=
  let project_root := script_dir w in
  let build_dir := project_root // "build" in
  let conan_dir := project_root // "conan" in
  let target_platform := default_to target_platform detect_platform in
  let arch :=
    if negb (truthy arch) then
      if bool_decide (target_platform = "windows") then Some "x86_64"
      else if bool_decide (target_platform = "linux") then Some "x86_64"
      else if bool_decide (target_platform = "android") then Some "armv8"
      else if bool_decide (target_platform = "qnx") then Some "armv7"
      else arch
    else arch in
  print (repeat_char "=" 60);;
  print "3D HUD Rendering Engine - Cross-Platform Build Script";;
  print (repeat_char "=" 60);;
  print ("Target platform: " +:+ target_platform);;
  print ("Target architecture: " +:+ py_str arch);;
  print ("Build type: " +:+ build_type);;
  print ("Build directory: " +:+ str_path build_dir);;
  print ("Conan directory: " +:+ str_path conan_dir);;
  print (repeat_char "-" 60);;
  (* Clean old build *)
  (if clean then
     e <- path_exists (str_path build_dir);;
     (if e then
        rmtree (os_sep w) build_dir;;
        print "Cleaned old build directory"
      else ret tt);;
     e <- path_exists (str_path conan_dir);;
     (if e then
        rmtree (os_sep w) conan_dir;;
        print "Cleaned old Conan directory"
      else ret tt)
   else ret tt);;
  mkdir (os_sep w) build_dir;;
  mkdir (os_sep w) conan_dir;;
  (* Platform-specific build *)
  r <- (if bool_decide (target_platform = "windows") then
          success <- build_for_windows project_root conan_dir build_dir build_type arch verbose;;
          ret (Next success)
        else if bool_decide (target_platform = "linux") then
          success <- build_for_linux project_root conan_dir build_dir build_type arch verbose;;
          ret (Next success)
        else if bool_decide (target_platform = "android") then
          success <- build_for_android project_root conan_dir build_dir build_type arch verbose;;
          ret (Next success)
        else if bool_decide (target_platform = "qnx") then
          success <- build_for_qnx project_root conan_dir build_dir build_type arch verbose;;
          ret (Next success)
        else
          print ("Error: Unsupported platform: " +:+ target_platform);;
          ret (Return false));;
  match r with
  | Return b => ret b
  | Next success =>
      (if success : bool then
         print (String "010" (repeat_char "=" 60));;
         print "Build completed successfully!";;
         print (repeat_char "=" 60)
       else ret tt);;
      ret success
  end.

(** The namespace [parse_args] gives. *)
Record Args : Type := mkArgs {
  arg_platform : option string;
  arg_arch : option string;
  arg_build_type : string;
  arg_verbose : bool;
  arg_clean : bool
}.

(** [main], after [parser.parse_args()] gave [args]. *)
Definition main (args : Args) : M unit :=
  ok <- check_prerequisites (arg_platform args);;
  if negb ok then sys_exit 1
  else
    success <- build_project (arg_platform args) (arg_arch args)
                 (arg_clean args) (arg_verbose args) (arg_build_type args);;
    sys_exit (if success : bool then 0 else 1).

End Script.

(** The exit status of the interpreter: the code of [sys.exit], 1 for any
    other exception that nothing caught, 0 at the end of the script. *)
Definition exit_status {A} (r : Res A) : Z :=
  match r with
  | Val _ => 0
  | Raise (SystemExit code) => code
  | Raise _ => 1
  end.

(** ** The command line *)

(** What an option does when it is met on the command line: store the
    word given with it (the default action), store [True], or print the
    help and exit. *)
Inductive Action : Type := Store | StoreTrue | Help.

(** An option of a parser: its option strings, the attribute of the
    namespace it is stored in, its action, the values it accepts, if they
    are restricted, and its default. *)
Record Argument : Type := mkArgument {
  option_strings : list string;
  dest : string;
  action : Action;
  choices : option (list string);
  default_value : option string
}.

(** A long option string: one whose second character is a dash too. *)
Definition is_long (s : string) : bool :=
  match s with
  | String _ (String "-" _) => true
  | _ => false
  end.

(** [s.lstrip('-')] *)
Fixpoint lstrip_dash (s : string) : string :=
  match s with
  | String "-" r => lstrip_dash r
  | _ => s
  end.

(** [s.replace('-', '_')] *)
Fixpoint dash_to_underscore (s : string) : string :=
  match s with
  | EmptyString => EmptyString
  | String c r => String (if bool_decide (c = "-"%char) then "_"%char else c)
                    (dash_to_underscore r)
  end.

(** The attribute an option is stored in: its first long option string,
    or the first of all if none is long, without the leading dashes and
    with every other dash turned into an underscore. *)
Definition dest_of (flags : list string) : string :=
  dash_to_underscore
    (lstrip_dash (default (default EmptyString (head flags)) (head (List.filter is_long flags)))).

(** [argparse.ArgumentParser(description=...)]: a new parser has the option
    [-h], [--help], which argparse adds itself. *)
Definition ArgumentParser : list Argument :=
  [ {| option_strings := ["-h"; "--help"]; dest := "help"; action := Help;
       choices := None; default_value := None |} ].

(** [parser.add_argument] with the option strings [flags], and with its
    [action], [choices] and [default]. *)
Definition add_argument (parser : list Argument) (flags : list string) (act : Action)
    (values : option (list string)) (value : option string) : list Argument :=
  parser ++ [ {| option_strings := flags; dest := dest_of flags; action := act;
                 choices := values; default_value := value |} ].

(** The parser [main] builds. *)
Definition parser : list Argument :=
  let parser := ArgumentParser in
  let parser := add_argument parser ["--platform"] Store
                  (Some ["windows"; "linux"; "android"; "qnx"]) None in
  let parser := add_argument parser ["--arch"] Store
                  (Some ["x86"; "x86_64"; "armv7"; "armv8"]) None in
  let parser := add_argument parser ["--build-type"] Store
                  (Some ["Debug"; "Release"; "RelWithDebInfo"]) (Some "Release") in
  let parser := add_argument parser ["--verbose"; "-v"] StoreTrue None None in
  add_argument parser ["--clean"] StoreTrue None None.

(** The value of an attribute of the namespace [parse_args] returns. *)
Inductive Value : Type :=
  | VNone
  | VStr (s : string)
  | VBool (b : bool).

Abbreviation Namespace := (gmap string Value).














(** ** Observations on a run *)

(** The command line of an event that runs an external program. *)
Definition command_of (e : Event) : option (list string) :=
  match e with
  | ERun cmd _ _ _ => Some cmd
  | _ => None
  end.

(** The external command lines of a trace, in order. *)
Definition commands (tr : list Event) : list (list string) := omap command_of tr.

(** The events a computation adds to the trace of the state it starts in. *)
Definition new_events {A} (m : M A) (st : State) : list Event :=
  drop (length (trace st)) (trace (m st).2).

(** An external program failed: it could not be run, or it returned a
    code other than zero. *)
Definition failed (r : ProcResult) : Prop :=
  match r with
  | Completed result => returncode result <> 0
  | Failed _ => True
  end.

(** The events by which the script itself changes the file system. *)
Definition changes_fs (e : Event) : Prop :=
  match e with
  | EMkdir _ | ERmtree _ => True
  | _ => False
  end.

(** A whole run of the script: [main] from an empty trace. *)
Definition run_main (w : World) (args : Args) (fs0 : FS) : Res unit * State :=
  main w args {| fs := fs0; trace := [] |}.


(** ** The table of command lines *)

Inductive Target : Type := Windows | Linux | Android | QNX.

Definition target_name (t : Target) : string :=
  match t with
  | Windows => "windows"
  | Linux => "linux"
  | Android => "android"
  | QNX => "qnx"
  end.

Definition default_arch (t : Target) : string :=
  match t with
  | Windows => "x86_64"
  | Linux => "x86_64"
  | Android => "armv8"
  | QNX => "armv7"
  end.

(** The target-specific build function of each target. *)
Definition build_for (w : World) (t : Target) :=
  match t with
  | Windows => build_for_windows w
  | Linux => build_for_linux w
  | Android => build_for_android w
  | QNX => build_for_qnx w
  end.

(** The Conan settings of a target: [os], [compiler], [compiler.version]. *)
Definition conan_settings (t : Target) : string * string * string :=
  match t with
  | Windows => ("Windows", "msvc", "195")
  | Linux => ("Linux", "gcc", "11")
  | Android => ("Android", "clang", "12")
  | QNX => ("Neutrino", "qcc", "5.4")
  end.

(** The configure flags that depend on the architecture, by target and
    architecture. A pair that is not listed has none. *)
Definition arch_flags (t : Target) : list (string * list string) :=
  match t with
  | Windows =>
      [("x86", ["-A"; "Win32"]); ("x86_64", ["-A"; "x64"]); ("armv8", ["-A"; "ARM64"])]
  | Linux =>
      [("x86", ["-DCMAKE_C_FLAGS=-m32"; "-DCMAKE_CXX_FLAGS=-m32"]);
       ("armv7", ["-DCMAKE_TOOLCHAIN_FILE=cmake/arm-linux-gnueabihf.cmake"]);
       ("armv8", ["-DCMAKE_TOOLCHAIN_FILE=cmake/aarch64-linux-gnu.cmake"])]
  | Android =>
      [("armv7", ["-DANDROID_ABI=armeabi-v7a"]); ("armv8", ["-DANDROID_ABI=arm64-v8a"]);
       ("x86", ["-DANDROID_ABI=x86"]); ("x86_64", ["-DANDROID_ABI=x86_64"])]
  | QNX =>
      [("x86", ["-DQNX_TARGET_CPU=x86"]); ("armv7", ["-DQNX_TARGET_CPU=armv7"]);
       ("armv8", ["-DQNX_TARGET_CPU=aarch64le"])]
  end.

Fixpoint assoc {V} (k : string) (l : list (string * V)) : option V :=
  match l with
  | [] => None
  | (k', v) :: r => if bool_decide (k = k') then Some v else assoc k r
  end.

Definition flags_of (t : Target) (arch : string) : list string :=
  default [] (assoc arch (arch_flags t)).

(** What the command lines depend on besides the target, the
    architecture and the build type. *)
Record Setting : Type := mkSetting {
  set_verbose : bool;
  (** the text of the project's [conan] directory *)
  set_conan_dir : string;
  (** the CPU count of the host *)
  set_jobs : N;
  (** [ANDROID_NDK_HOME] and [QNX_SDP_HOME] *)
  set_ndk : option string;
  set_sdp : option string
}.

Definition install_command (t : Target) (arch : string) (s : Setting) : list string :=
  let '(os, compiler, version) := conan_settings t in
  append_verbose (set_verbose s)
    ["conan"; "install"; "."; "--output-folder"; set_conan_dir s;
     "--build"; "missing";
     "-s"; "os=" +:+ os;
     "-s"; "arch=" +:+ arch;
     "-s"; "compiler=" +:+ compiler;
     "-s"; "compiler.version=" +:+ version;
     "-s"; "compiler.cppstd=17"].

Definition toolchain_flag (s : Setting) : string :=
  "-DCMAKE_TOOLCHAIN_FILE=" +:+ set_conan_dir s +:+ "/build/generators/conan_toolchain.cmake".

Definition configure_command (t : Target) (arch build_type : string) (s : Setting)
  : list string :=
  append_verbose (set_verbose s)
    match t with
    | Windows =>
        ["cmake"; "-S"; "."; "-B"; "build"; "-G"; "Visual Studio 18 2026";
         toolchain_flag s;
         "-DCMAKE_PREFIX_PATH=" +:+ set_conan_dir s;
         "-DCMAKE_BUILD_TYPE=" +:+ build_type]
        ++ flags_of Windows arch
    | Linux =>
        ["cmake"; "-S"; "."; "-B"; "build";
         "-DCMAKE_BUILD_TYPE=" +:+ build_type;
         "-DCMAKE_PREFIX_PATH=" +:+ set_conan_dir s;
         toolchain_flag s]
        ++ flags_of Linux arch
    | Android =>
        ["cmake"; "-S"; "."; "-B"; "build/android";
         "-DCMAKE_TOOLCHAIN_FILE=" +:+ py_str (set_ndk s)
           +:+ "/build/cmake/android.toolchain.cmake"]
        ++ flags_of Android arch
        ++ ["-DANDROID_PLATFORM=android-24";
            "-DCMAKE_BUILD_TYPE=" +:+ build_type;
            "-DHUD_ENGINE_PLATFORM_ANDROID=ON";
            "-DHUD_ENGINE_USE_EGL=ON";
            "-DCMAKE_PREFIX_PATH=" +:+ set_conan_dir s;
            toolchain_flag s]
    | QNX =>
        ["cmake"; "-S"; "."; "-B"; "build/qnx";
         "-DCMAKE_TOOLCHAIN_FILE=" +:+ py_str (set_sdp s)
           +:+ "/qnx710/cmake/toolchain.cmake";
         "-DCMAKE_BUILD_TYPE=" +:+ build_type;
         "-DHUD_ENGINE_PLATFORM_QNX=ON";
         "-DHUD_ENGINE_USE_EGL=ON";
         "-DCMAKE_PREFIX_PATH=" +:+ set_conan_dir s;
         toolchain_flag s]
        ++ flags_of QNX arch
    end.

Definition compile_command (t : Target) (build_type : string) (s : Setting) : list string :=
  append_verbose (set_verbose s)
    match t with
    | Windows => ["cmake"; "--build"; "build"; "--config"; build_type]
    | Linux => ["cmake"; "--build"; "build"; "-j"; pretty (set_jobs s)]
    | Android => ["cmake"; "--build"; "build/android"; "-j"; "4"]
    | QNX => ["cmake"; "--build"; "build/qnx"; "-j"; "4"]
    end.

(** The architectures a target's build function accepts: all of them,
    but for Android only those of [arch_to_abi]. *)
Definition arch_accepted (t : Target) (arch : string) : bool :=
  match t with
  | Android => bool_decide (is_Some (assoc arch (arch_flags Android)))
  | _ => true
  end.

(** The message a build function prints when its n-th command returns a
    code other than zero. *)
Definition step_errors (t : Target) : list string :=
  match t with
  | Windows | Linux =>
      ["Error: Conan installation failed"; "Error: CMake configuration failed";
       "Error: Build failed"]
  | Android =>
      ["Error: Conan installation failed"; "Error: Android CMake configuration failed";
       "Error: Android build failed"]
  | QNX =>
      ["Error: Conan installation failed"; "Error: QNX CMake configuration failed";
       "Error: QNX build failed"]
  end.

(** The command lines of a build, in order. *)
Definition command_table (t : Target) (arch build_type : string) (s : Setting)
  : list (list string) :=
  if arch_accepted t arch then
    [install_command t arch s; configure_command t arch build_type s;
     compile_command t build_type s]
  else [].

(** The setting the script builds in. *)
Definition setting_of (w : World) (conan_dir : Path) (verbose : bool) : Setting :=
  {| set_verbose := verbose;
     set_conan_dir := str_path w conan_dir;
     set_jobs := cpu_count w;
     set_ndk := environ w !! "ANDROID_NDK_HOME";
     set_sdp := environ w !! "QNX_SDP_HOME" |}.

(** The two version probes of [check_prerequisites]. *)
Definition probes : list (list string) := [["conan"; "--version"]; ["cmake"; "--version"]].

(** ** A build as a sequence of steps *)

Section Steps.

Variable w : World.
Variable cwd : option string.

(** One step of a build function: run a command, and return [False]
    with a message when its return code is not zero. *)
Definition step (cmd : list string) (err : string) (k : M bool) : M bool :=
  result <- subprocess_run w cmd cwd false;;
  if negb (returncode result =? 0) then
    print err;;
    ret false
  else k.

Fixpoint run_steps (l : list (list string * string)) : M bool :=
  match l with
  | [] => ret true
  | (cmd, err) :: r => step cmd err (run_steps r)
  end.

(** The events and the result of a sequence of steps. *)
Inductive Steps : list (list string * string) -> list Event -> Res bool -> Prop :=
  | Steps_done : Steps [] [] (Val true)
  | Steps_raise cmd err l e :
      Steps ((cmd, err) :: l) [ERun cmd cwd false (Failed e)] (Raise (OSErr e))
  | Steps_stop cmd err l result :
      returncode result <> 0 ->
      Steps ((cmd, err) :: l) [ERun cmd cwd false (Completed result); EPrint err] (Val false)
  | Steps_next cmd err l result evs r :
      returncode result = 0 ->
      Steps l evs r ->
      Steps ((cmd, err) :: l) (ERun cmd cwd false (Completed result) :: evs) r.

End Steps.

(** The steps of a target's build function: its command lines, each with
    the message of its failure. *)
Definition steps_of (t : Target) (arch build_type : string) (s : Setting)
  : list (list string * string) :=
  zip (command_table t arch build_type s) (step_errors t).

(** What a build function does before its first command. *)
Definition header (w : World) (t : Target) (conan_dir build_dir : Path) : list Event :=
  match t with
  | Windows => [EPrint ("Building Windows version... " +:+ str_path w conan_dir)]
  | Linux => [EPrint "Building Linux version..."]
  | Android => [EPrint "Building Android version...";
                EMkdir (str_path w (build_dir // "android"))]
  | QNX => [EPrint "构建QNX版本..."; EMkdir (str_path w (build_dir // "qnx"))]
  end.

(** The events and the result of a target's build function. *)
Inductive BuildRun (w : World) (t : Target) (project_root conan_dir build_dir : Path)
    (build_type : string) (arch : option string) (verbose : bool)
  : list Event -> Res bool -> Prop :=
  | Build_mkdir_raises e :
      t = Android \/ t = QNX ->
      BuildRun w t project_root conan_dir build_dir build_type arch verbose
        (header w t conan_dir build_dir) (Raise (OSErr e))
  | Build_unsupported :
      arch_accepted t (default_to arch (default_arch t)) = false ->
      BuildRun w t project_root conan_dir build_dir build_type arch verbose
        (header w t conan_dir build_dir ++
         [EPrint ("Error: Unsupported Android architecture: "
                  +:+ default_to arch (default_arch t))])
        (Val false)
  | Build_steps evs r :
      arch_accepted t (default_to arch (default_arch t)) = true ->
      Steps (Some (str_path w project_root))
        (steps_of t (default_to arch (default_arch t)) build_type
           (setting_of w conan_dir verbose)) evs r ->
      BuildRun w t project_root conan_dir build_dir build_type arch verbose
        (header w t conan_dir build_dir ++ evs) r.

(** ** What a run may be observed to do *)

(** An event that runs no program, or one that returned zero. *)
Definition run_ok (e : Event) : Prop :=
  match e with
  | ERun _ _ _ r => ~ failed r
  | _ => True
  end.

(** The messages of [check_prerequisites] and the two functions it calls. *)
Definition prerequisite_errors : list string :=
  ["Error: Conan not installed or not in PATH"; "Error: Conan not installed";
   "Error: CMake not installed or not in PATH"; "Error: CMake not installed";
   "Error: Please set ANDROID_NDK_HOME environment variable";
   "Error: ANDROID_NDK_HOME path does not exist";
   "Error: Please set QNX_SDP_HOME environment variable";
   "Error: QNX_SDP_HOME path does not exist"].

(** The environment variable [check_prerequisites] looks at for a target. *)
Definition platform_variable (target_platform : option string) : option string :=
  if bool_decide (target_platform = Some "android") then Some "ANDROID_NDK_HOME"
  else if bool_decide (target_platform = Some "qnx") then Some "QNX_SDP_HOME"
  else None.

(** The variable of the target, if it has one, is set, not empty, and
    names something that exists in the file system [f]. *)
Definition env_ok (w : World) (target_platform : option string) (f : FS) : Prop :=
  match platform_variable target_platform with
  | None => True
  | Some name => exists p, environ w !! name = Some p /\ p <> "" /\ is_Some (f !! p)
  end.

(** What holds of the events [evs] and the result [r] of
    [check_prerequisites], and of the file system [f] it ends in. *)
Record CheckFacts (w : World) (tp : option string) (f : FS)
    (evs : list Event) (r : Res bool) : Prop := {
  cf_commands : commands evs = take 1 probes \/ commands evs = probes;
  cf_second : commands evs = probes <->
              exists result, ERun ["conan"; "--version"] None true (Completed result) ∈ evs
                             /\ returncode result = 0;
  cf_no_fs : Forall (fun e => ~ changes_fs e) evs;
  cf_false : r = Val false ->
             exists msg, last evs = Some (EPrint msg) /\ msg ∈ prerequisite_errors;
  cf_true : r = Val true <->
            commands evs = probes /\ Forall run_ok evs /\ r <> Raise IndexError
            /\ env_ok w tp f;
  cf_result : r <> Val false -> r <> Val true ->
              r = Raise IndexError \/ exists e, r = Raise (OSErr e);
  cf_nonzero : forall cmd cwd capture result,
      ERun cmd cwd capture (Completed result) ∈ evs -> returncode result <> 0 ->
      r = Val false
}.

(** The kinds of failure the script reports. *)
Inductive FailureKind : Type :=
  | PrerequisiteMissing
  | Unsupported
  | SubprocessFailed.

(** The error messages of the script, by kind. *)
Inductive ErrorMessage : FailureKind -> string -> Prop :=
  | Error_prerequisite msg :
      msg ∈ prerequisite_errors -> ErrorMessage PrerequisiteMissing msg
  | Error_platform target_platform :
      ErrorMessage Unsupported ("Error: Unsupported platform: " +:+ target_platform)
  | Error_arch arch :
      ErrorMessage Unsupported ("Error: Unsupported Android architecture: " +:+ arch)
  | Error_step t msg :
      msg ∈ step_errors t -> ErrorMessage SubprocessFailed msg.

(** The directories the script creates, and those [--clean] removes. *)
Definition own_dirs (w : World) : list string :=
  str_path w <$> [script_dir w // "build"; script_dir w // "conan";
                  script_dir w // "build" // "android"; script_dir w // "build" // "qnx"].

Definition cleaned_dirs (w : World) : list string :=
  str_path w <$> [script_dir w // "build"; script_dir w // "conan"].

(** The changes of the file system [build_project] may make. *)
Definition fs_allowed (w : World) (clean : bool) (e : Event) : Prop :=
  match e with
  | EMkdir p => p ∈ own_dirs w
  | ERmtree p => clean = true /\ p ∈ cleaned_dirs w
  | _ => True
  end.

(** ** The stages of [build_project] *)

(** The architecture [build_project] passes on. *)
Definition resolved_arch (target_platform : string) (arch : option string)
  : option string :=
  if negb (truthy arch) then
    if bool_decide (target_platform = "windows") then Some "x86_64"
    else if bool_decide (target_platform = "linux") then Some "x86_64"
    else if bool_decide (target_platform = "android") then Some "armv8"
    else if bool_decide (target_platform = "qnx") then Some "armv7"
    else arch
  else arch.

(** [build_project] up to the platform-specific build, which is [k]. *)
Definition prepare (w : World) (target_platform : string) (arch : option string)
    (clean : bool) (build_type : string) (k : M bool) : M bool :=
  let project_root := script_dir w in
  let build_dir := project_root // "build" in
  let conan_dir := project_root // "conan" in
  print (repeat_char "=" 60);;
  print "3D HUD Rendering Engine - Cross-Platform Build Script";;
  print (repeat_char "=" 60);;
  print ("Target platform: " +:+ target_platform);;
  print ("Target architecture: " +:+ py_str arch);;
  print ("Build type: " +:+ build_type);;
  print ("Build directory: " +:+ str_path w build_dir);;
  print ("Conan directory: " +:+ str_path w conan_dir);;
  print (repeat_char "-" 60);;
  (if clean then
     e <- path_exists (str_path w build_dir);;
     (if e then
        rmtree (os_sep w) build_dir;;
        print "Cleaned old build directory"
      else ret tt);;
     e <- path_exists (str_path w conan_dir);;
     (if e then
        rmtree (os_sep w) conan_dir;;
        print "Cleaned old Conan directory"
      else ret tt)
   else ret tt);;
  mkdir (os_sep w) build_dir;;
  mkdir (os_sep w) conan_dir;;
  k.

(** The platform-specific build of [build_project] and what follows it. *)
Definition dispatch (w : World) (target_platform : string) (arch : option string)
    (verbose : bool) (build_type : string) : M bool :=
  let project_root := script_dir w in
  let build_dir := project_root // "build" in
  let conan_dir := project_root // "conan" in
  r <- (if bool_decide (target_platform = "windows") then
          success <- build_for_windows w project_root conan_dir build_dir build_type arch verbose;;
          ret (Next success)
        else if bool_decide (target_platform = "linux") then
          success <- build_for_linux w project_root conan_dir build_dir build_type arch verbose;;
          ret (Next success)
        else if bool_decide (target_platform = "android") then
          success <- build_for_android w project_root conan_dir build_dir build_type arch verbose;;
          ret (Next success)
        else if bool_decide (target_platform = "qnx") then
          success <- build_for_qnx w project_root conan_dir build_dir build_type arch verbose;;
          ret (Next success)
        else
          print ("Error: Unsupported platform: " +:+ target_platform);;
          ret (Return false));;
  match r with
  | Return b => ret b
  | Next success =>
      (if success : bool then
         print (String "010" (repeat_char "=" 60));;
         print "Build completed successfully!";;
         print (repeat_char "=" 60)
       else ret tt);;
      ret success
  end.

(** The end of [build_project] after the build function [build]. *)
Definition finish (build : M bool) : M bool :=
  r <- (success <- build;; ret (Next success));;
  match r with
  | Return b => ret b
  | Next success =>
      (if success : bool then
         print (String "010" (repeat_char "=" 60));;
         print "Build completed successfully!";;
         print (repeat_char "=" 60)
       else ret tt);;
      ret success
  end.

(** The three lines [build_project] prints after a build that succeeded. *)
Definition success_banner : list Event :=
  [EPrint (String "010" (repeat_char "=" 60));
   EPrint "Build completed successfully!";
   EPrint (repeat_char "=" 60)].

(** What holds of the events [evs] and the result [r] of [build_project]
    for a target platform and an architecture as given. *)
Record ProjectFacts (w : World) (target_platform : string) (arch : option string)
    (clean verbose : bool) (build_type : string)
    (evs : list Event) (r : Res bool) : Prop := {
  pf_commands : forall t, target_platform = target_name t ->
    let table := command_table t (default_to arch (default_arch t)) build_type
                   (setting_of w (script_dir w // "conan") verbose) in
    commands evs `prefix_of` table /\ (r = Val true -> commands evs = table);
  pf_unsupported : (forall t, target_platform <> target_name t) ->
    commands evs = [] /\ r <> Val true;
  pf_fs : Forall (fs_allowed w clean) evs;
  pf_false : r = Val false ->
    exists msg kind, last evs = Some (EPrint msg) /\ ErrorMessage kind msg
                     /\ kind <> PrerequisiteMissing;
  pf_true : r = Val true -> Forall run_ok evs;
  pf_result : r = Val true \/ r = Val false \/ exists e, r = Raise (OSErr e);
  pf_nonzero : forall cmd cwd capture result,
      ERun cmd cwd capture (Completed result) ∈ evs -> returncode result <> 0 ->
      r = Val false
}.

(** What [main] raises after [check_prerequisites] or [build_project]
    gave [r]. *)
Definition exit_of (r : Res bool) : Res unit :=
  match r with
  | Val b => Raise (SystemExit (if b then 0 else 1))
  | Raise e => Raise e
  end.

(** ** Hosts to run the script on *)

(** External programs that change nothing and return 1 for the command
    lines [bad] selects, 0 for the others. *)
Definition programs (bad : list string -> bool)
  : State -> list string -> option string -> ProcResult * FS :=
  fun st cmd _ =>
    (Completed {| returncode := if bad cmd then 1 else 0;
                  stdout := "cmake version 3.28.1" |}, fs st).

Definition none : list string -> bool := fun _ => false.

(** The command lines that start with the words [ws]. *)
Definition starts_with (ws : list string) : list string -> bool :=
  fun cmd => bool_decide (take (length ws) cmd = ws).

(** A POSIX host with the script in [/proj]. *)
Definition posix_host (system : string) (env : gmap string string) (cpus : N)
    (bad : list string -> bool) : World :=
  {| platform_system := system;
     environ := env;
     cpu_count := cpus;
     script_dir := {| anchor := "/"; parts := ["proj"] |};
     os_sep := "/";
     proc := programs bad |}.

(** A file system with the project directory, an NDK archive that is a
    file, and the remains of an earlier build. *)
Definition disk : FS :=
  {[ "/" := Dir; "/proj" := Dir; "/opt" := Dir; "/opt/ndk.zip" := File;
     "/proj/build" := Dir; "/proj/build/old.o" := File ]}.

(** The state a run on [disk] starts in. *)
Definition start : State := {| fs := disk; trace := [] |}.

Definition linux_release (clean : bool) : Args :=
  {| arg_platform := Some "linux"; arg_arch := Some "x86_64";
     arg_build_type := "Release"; arg_verbose := false; arg_clean := clean |}.

(** ** Proof automation *)

(** The scrutinee a stuck computation waits for. *)
Ltac scrutinee t :=
  lazymatch t with
  | match ?x with _ => _ end => scrutinee x
  | (match ?x with _ => _ end) _ => scrutinee x
  | negb ?x => scrutinee x
  | truthy ?x => scrutinee x
  | _ => t
  end.

Ltac case_on x :=
  lazymatch x with
  | Z.eqb ?a ?b => destruct (Z.eqb_spec a b)
  | bool_decide ?P => destruct (bool_decide_reflect P)
  | _ => destruct x eqn:?
  end.

(** One step of the symbolic execution of [H : m st = (r, st')]. *)
Ltac exec1 H :=
  cbn in H;
  lazymatch type of H with
  | match ?x with _ => _ end = _ => let y := scrutinee x in case_on y
  | (match ?x with _ => _ end) _ = _ => let y := scrutinee x in case_on y
  end.

Ltac exec H := repeat exec1 H.

(** The end of a symbolic execution: the result and the final state. *)
Ltac exec_end H :=
  lazymatch type of H with
  | (_, _) = (_, _) => inversion H; subst; clear H
  | _ => idtac
  end.

(** Case analysis on an architecture: one of the four names, or none. *)
Ltac by_arch a :=
  destruct (decide (a = "x86")) as [->|?];
  [|destruct (decide (a = "x86_64")) as [->|?];
    [|destruct (decide (a = "armv7")) as [->|?];
      [|destruct (decide (a = "armv8")) as [->|?]]]];
  rewrite ?(bool_decide_eq_false_2 (a = "x86")),
          ?(bool_decide_eq_false_2 (a = "x86_64")),
          ?(bool_decide_eq_false_2 (a = "armv7")),
          ?(bool_decide_eq_false_2 (a = "armv8")) by done.

Ltac find_elem := repeat first [apply list_elem_of_here | apply list_elem_of_further].

Ltac invert_elem H :=
  repeat (apply elem_of_cons in H as [H|H];
          [try discriminate H; try (injection H as ?); try subst|]);
  try (apply elem_of_nil in H; destruct H).

Ltac invert_Forall H :=
  repeat (apply Forall_cons in H as [? H]).

(** ** Further observations *)

(** The line [build_project] prints when the build has succeeded. *)
Definition success_line : string := "Build completed successfully!".

(** The number of spaces of a string. *)
Fixpoint count_spaces (s : string) : nat :=
  match s with
  | EmptyString => 0
  | String c r => (if bool_decide (c = " "%char) then 1 else 0) + count_spaces r
  end.

(** What [check_prerequisites] may do: print anything but the line of
    success, and run a version probe, capturing its output, in the
    working directory of the caller. *)
Definition check_event (e : Event) : Prop :=
  match e with
  | EPrint line => line <> success_line
  | ERun cmd cwd capture _ => cmd ∈ probes /\ cwd = None /\ capture = true
  | _ => False
  end.

(** External programs that leave the file system as it is. *)
Definition read_only (w : World) : Prop :=
  forall st cmd cwd, (proc w st cmd cwd).2 = fs st.

(** What a version probe gives on the host, whenever it is run. *)
Definition probe_gives (w : World) (cmd : list string) (P : ProcResult -> Prop) : Prop :=
  forall st, P (proc w st cmd None).1.

(** The probe completes with return code zero. *)
Definition probe_succeeds (r : ProcResult) : Prop :=
  exists result, r = Completed result /\ returncode result = 0.

(** External programs that always raise the same error of the operating
    system for the command lines [bad] selects, and return 0 for the
    others. *)
Definition faulty_programs (bad : list string -> bool) (e : OSError)
  : State -> list string -> option string -> ProcResult * FS :=
  fun st cmd _ =>
    (if bad cmd then Failed e
     else Completed {| returncode := 0; stdout := "cmake version 3.28.1" |}, fs st).

(** A POSIX host on which some programs cannot be run. *)
Definition faulty_host (bad : list string -> bool) (e : OSError) : World :=
  {| platform_system := "Linux";
     environ := ∅;
     cpu_count := 8;
     script_dir := {| anchor := "/"; parts := ["proj"] |};
     os_sep := "/";
     proc := faulty_programs bad e |}.

(** A POSIX host on which every program prints [out] and returns 0. *)
Definition terse_host (out : string) : World :=
  {| platform_system := "Linux";
     environ := ∅;
     cpu_count := 8;
     script_dir := {| anchor := "/"; parts := ["proj"] |};
     os_sep := "/";
     proc := fun st _ _ => (Completed {| returncode := 0; stdout := out |}, fs st) |}.

(** A symbolic execution to its end. *)
Ltac exec_all H := exec H; cbn in H; exec_end H.

(** What [build_project] may do before the lines of success: print
    anything but the line of success, create and remove directories, and
    run a program, without capturing its output, in the directory of the
    script. *)
Definition build_event (w : World) (e : Event) : Prop :=
  match e with
  | EPrint line => line <> success_line
  | ERun _ cwd capture _ => cwd = Some (str_path w (script_dir w)) /\ capture = false
  | _ => True
  end.

(** What the steps of a build may do. *)
Definition step_event (cwd : option string) (errors : list string) (e : Event) : Prop :=
  match e with
  | EPrint line => line ∈ errors
  | ERun _ cwd' capture _ => cwd' = cwd /\ capture = false
  | _ => False
  end.

(** What [build_project] may do before the platform-specific build. *)
Definition prepare_event (e : Event) : Prop :=
  match e with
  | EPrint line => line <> success_line
  | ERun _ _ _ _ => False
  | _ => True
  end.

(** A line that differs from the line of success within its first seven
    characters. *)
Ltac other_line :=
  let H := fresh in
  intros H; apply (f_equal (String.substring 0 7)) in H; lazy in H; discriminate H.

(** The state [build_project] has reached when the platform-specific
    build starts, from a file system [f0] to a file system [f1] with the
    events [evs]: the two directories exist and were asked for; without
    [--clean] nothing that existed has changed; with [--clean], nothing
    of what lay below an existing build directory is left. *)
Record Prepared (w : World) (clean : bool) (f0 f1 : FS) (evs : list Event) : Prop := {
  prep_build : f1 !! str_path w (script_dir w // "build") = Some Dir;
  prep_conan : f1 !! str_path w (script_dir w // "conan") = Some Dir;
  prep_mkdir_build : EMkdir (str_path w (script_dir w // "build")) ∈ evs;
  prep_mkdir_conan : EMkdir (str_path w (script_dir w // "conan")) ∈ evs;
  prep_keep : clean = false -> f0 ⊆ f1;
  prep_clean : clean = true ->
    is_Some (f0 !! str_path w (script_dir w // "build")) ->
    forall q, under (os_sep w) (str_path w (script_dir w // "build")) q = true ->
              q <> str_path w (script_dir w // "build") ->
              q <> str_path w (script_dir w // "conan") ->
              f1 !! q = None
}.

(** The directory a build function creates below the build directory. *)
Definition platform_subdir (t : Target) : option string :=
  match t with
  | Android => Some "android"
  | QNX => Some "qnx"
  | _ => None
  end.

(** The lines [build_project] starts with. *)
Definition banner (w : World) (target_platform : string) (arch : option string)
    (build_type : string) : list Event :=
  [EPrint (repeat_char "=" 60);
   EPrint "3D HUD Rendering Engine - Cross-Platform Build Script";
   EPrint (repeat_char "=" 60);
   EPrint ("Target platform: " +:+ target_platform);
   EPrint ("Target architecture: " +:+ py_str arch);
   EPrint ("Build type: " +:+ build_type);
   EPrint ("Build directory: " +:+ str_path w (script_dir w // "build"));
   EPrint ("Conan directory: " +:+ str_path w (script_dir w // "conan"));
   EPrint (repeat_char "-" 60)].



(** * Properties *)

(** ** The build functions as sequences of steps *)

Lemma run_steps_Steps w cwd l st r st' :
  run_steps w cwd l st = (r, st') ->
  exists evs, trace st' = trace st ++ evs /\ Steps cwd l evs r.
Proof.
  revert st. induction l as [|[cmd err] l IH]; intros st H; simpl in H.
  - inversion H; subst. exists []. rewrite app_nil_r. split; [done | constructor].
  - unfold step, bind, subprocess_run in H.
    destruct (proc w st cmd cwd) as [[result|e] fs1].
    + destruct (Z.eqb_spec (returncode result) 0) as [Hz|Hz]; simpl in H.
      * apply IH in H as (evs & Htr & Hs). simpl in Htr.
        exists (ERun cmd cwd false (Completed result) :: evs).
        rewrite Htr, <- app_assoc. split; [done | by constructor].
      * inversion H; subst; simpl. rewrite <- app_assoc.
        eexists; split; [done | by constructor].
    + inversion H; subst; simpl. eexists; split; [done | constructor].
Qed.

Lemma windows_steps w project_root conan_dir build_dir build_type arch verbose :
  build_for_windows w project_root conan_dir build_dir build_type arch verbose =
  (print ("Building Windows version... " +:+ str_path w conan_dir);;
   run_steps w (Some (str_path w project_root))
     (steps_of Windows (default_to arch "x86_64") build_type
        (setting_of w conan_dir verbose))).
Proof.
  unfold build_for_windows, steps_of, command_table, configure_command, flags_of.
  generalize (default_to arch "x86_64") as a. intros a.
  cbv zeta. cbn [arch_flags assoc]. by_arch a; reflexivity.
Qed.

Lemma linux_steps w project_root conan_dir build_dir build_type arch verbose :
  build_for_linux w project_root conan_dir build_dir build_type arch verbose =
  (print "Building Linux version...";;
   run_steps w (Some (str_path w project_root))
     (steps_of Linux (default_to arch "x86_64") build_type
        (setting_of w conan_dir verbose))).
Proof.
  unfold build_for_linux, steps_of, command_table, configure_command, flags_of.
  generalize (default_to arch "x86_64") as a. intros a.
  cbv zeta. cbn [arch_flags assoc]. by_arch a; reflexivity.
Qed.

Lemma qnx_steps w project_root conan_dir build_dir build_type arch verbose :
  build_for_qnx w project_root conan_dir build_dir build_type arch verbose =
  (print "构建QNX版本...";;
   mkdir (os_sep w) (build_dir // "qnx");;
   run_steps w (Some (str_path w project_root))
     (steps_of QNX (default_to arch "armv7") build_type
        (setting_of w conan_dir verbose))).
Proof.
  unfold build_for_qnx, steps_of, command_table, configure_command, flags_of.
  generalize (default_to arch "armv7") as a. intros a.
  cbv zeta. cbn [arch_flags assoc]. by_arch a; reflexivity.
Qed.

Lemma android_steps w project_root conan_dir build_dir build_type arch verbose :
  build_for_android w project_root conan_dir build_dir build_type arch verbose =
  (print "Building Android version...";;
   mkdir (os_sep w) (build_dir // "android");;
   if arch_accepted Android (default_to arch "armv8") then
     run_steps w (Some (str_path w project_root))
       (steps_of Android (default_to arch "armv8") build_type
          (setting_of w conan_dir verbose))
   else
     print ("Error: Unsupported Android architecture: " +:+ default_to arch "armv8");;
     ret false).
Proof.
  unfold build_for_android, steps_of, command_table, configure_command, flags_of,
    arch_accepted.
  generalize (default_to arch "armv8") as a. intros a.
  cbv zeta. cbn [arch_flags assoc]. by_arch a; try reflexivity.
  unfold arch_to_abi. cbn [list_to_map foldr uncurry].
  rewrite !lookup_insert_ne by done. rewrite lookup_empty. reflexivity.
Qed.

Lemma build_for_BuildRun w t project_root conan_dir build_dir build_type arch verbose
    st r st' :
  build_for w t project_root conan_dir build_dir build_type arch verbose st = (r, st') ->
  exists evs, trace st' = trace st ++ evs /\
    BuildRun w t project_root conan_dir build_dir build_type arch verbose evs r.
Proof.
  intros H. destruct t; unfold build_for in H.
  - rewrite windows_steps in H. unfold bind, print, emit in H.
    apply run_steps_Steps in H as (evs & Htr & Hs). cbn in Htr.
    eexists. rewrite Htr, <- app_assoc. split; [done|].
    by apply (Build_steps _ Windows).
  - rewrite linux_steps in H. unfold bind, print, emit in H.
    apply run_steps_Steps in H as (evs & Htr & Hs). cbn in Htr.
    eexists. rewrite Htr, <- app_assoc. split; [done|].
    by apply (Build_steps _ Linux).
  - rewrite android_steps in H. unfold bind, print, emit, mkdir, ret in H.
    destruct (arch_accepted Android (default_to arch "armv8")) eqn:Ha.
    + remember (run_steps _ _ _) as k eqn:Hk. exec H.
      all: try (inversion H; subst; clear H; cbn; rewrite <- ?app_assoc;
                eexists; split; [done|]; apply (Build_mkdir_raises _ Android); auto; fail).
      all: subst k; apply run_steps_Steps in H as (evs & Htr & Hs); cbn in Htr;
           eexists; rewrite Htr, <- !app_assoc; (split; [done|]);
           by apply (Build_steps _ Android _ _ _ _ _ _ evs).
    + exec H.
      all: inversion H; subst; clear H; cbn; rewrite <- ?app_assoc;
           eexists; (split; [done|]).
      all: first [ by apply (Build_unsupported _ Android)
                 | apply (Build_mkdir_raises _ Android); auto ].
  - rewrite qnx_steps in H. unfold bind, print, emit, mkdir, ret in H.
    remember (run_steps _ _ _) as k eqn:Hk. exec H.
    all: try (inversion H; subst; clear H; cbn; rewrite <- ?app_assoc;
              eexists; split; [done|]; apply (Build_mkdir_raises _ QNX); auto; fail).
    all: subst k; apply run_steps_Steps in H as (evs & Htr & Hs); cbn in Htr;
         eexists; rewrite Htr, <- !app_assoc; (split; [done|]);
         by apply (Build_steps _ QNX _ _ _ _ _ _ evs).
Qed.

(** ** What a sequence of steps does *)

Lemma commands_app evs1 evs2 : commands (evs1 ++ evs2) = commands evs1 ++ commands evs2.
Proof. apply omap_app. Qed.

Lemma commands_run cmd cwd capture r evs :
  commands (ERun cmd cwd capture r :: evs) = cmd :: commands evs.
Proof. done. Qed.

Lemma Steps_commands cwd l evs r :
  Steps cwd l evs r ->
  commands evs `prefix_of` l.*1 /\ (r = Val true -> commands evs = l.*1).
Proof.
  induction 1 as [|cmd err l e|cmd err l result Hz|cmd err l result evs r Hz Hs [IHp IHt]].
  - split; [apply prefix_nil | done].
  - split; [apply prefix_cons, prefix_nil | done].
  - split; [apply prefix_cons, prefix_nil | done].
  - rewrite commands_run, fmap_cons.
    split; [by apply prefix_cons | intros Hr; by rewrite IHt].
Qed.

Lemma Steps_short_circuit cwd l evs r pre cmd cwd' capture result post :
  Steps cwd l evs r ->
  evs = pre ++ ERun cmd cwd' capture (Completed result) :: post ->
  returncode result <> 0 ->
  commands post = [] /\ r = Val false.
Proof.
  intros Hs. revert pre.
  induction Hs as [|c err l e|c err l result0 Hz|c err l result0 evs r Hz Hs IH];
    intros pre Heq Hne.
  - by destruct pre.
  - destruct pre as [|? [|? ?]]; discriminate.
  - destruct pre as [|? [|? [|? ?]]]; try discriminate.
    by injection Heq as <- <- <- <- <-.
  - destruct pre as [|? pre]; injection Heq as ? Heq; simplify_eq; eauto.
Qed.

Lemma Steps_false cwd l evs :
  Steps cwd l evs (Val false) ->
  exists msg, last evs = Some (EPrint msg) /\ msg ∈ l.*2.
Proof.
  remember (Val false) as r eqn:Hr. induction 1 as [| | |c err l result evs r Hz Hs IH];
    try discriminate.
  - eexists; split; [done | cbn; left].
  - destruct (IH Hr) as (msg & Hl & Hin). exists msg. split.
    + destruct evs; [done | by rewrite last_cons_cons].
    + cbn; by right.
Qed.

Lemma Steps_true cwd l evs :
  Steps cwd l evs (Val true) -> Forall run_ok evs.
Proof.
  remember (Val true) as r eqn:Hr. induction 1; try discriminate.
  - constructor.
  - constructor; [cbn; tauto | auto].
Qed.

Lemma Steps_no_fs cwd l evs r :
  Steps cwd l evs r -> Forall (fun e => ~ changes_fs e) evs.
Proof. induction 1; repeat constructor; cbn; auto. Qed.

Lemma Steps_result cwd l evs r :
  Steps cwd l evs r -> r = Val true \/ r = Val false \/ exists e, r = Raise (OSErr e).
Proof. induction 1; eauto. Qed.

(** ** What a build function does *)

Lemma steps_of_commands t arch build_type s :
  (steps_of t arch build_type s).*1 = command_table t arch build_type s.
Proof.
  unfold steps_of. apply fst_zip. unfold command_table.
  destruct (arch_accepted t arch), t; cbn; lia.
Qed.

Lemma steps_of_errors t arch build_type s msg :
  msg ∈ (steps_of t arch build_type s).*2 -> msg ∈ step_errors t.
Proof.
  unfold steps_of. intros Hin.
  apply list_elem_of_fmap in Hin as ([c m] & -> & Hin).
  by apply elem_of_zip_r in Hin.
Qed.

Lemma header_commands w t conan_dir build_dir : commands (header w t conan_dir build_dir) = [].
Proof. by destruct t. Qed.

Section BuildRunFacts.

Context {w : World} {t : Target} {project_root conan_dir build_dir : Path}
  {build_type : string} {arch : option string} {verbose : bool}
  {evs : list Event} {r : Res bool}.
Hypothesis Hrun :
  BuildRun w t project_root conan_dir build_dir build_type arch verbose evs r.

Lemma BuildRun_commands :
  let table := command_table t (default_to arch (default_arch t)) build_type
                 (setting_of w conan_dir verbose) in
  commands evs `prefix_of` table /\ (r = Val true -> commands evs = table).
Proof.
  destruct Hrun as [e Ht|Ha|evs' r' Ha Hs]; rewrite ?commands_app, header_commands; cbn.
  - split; [apply prefix_nil | done].
  - split; [apply prefix_nil | done].
  - rewrite <- steps_of_commands. by apply Steps_commands in Hs.
Qed.

Lemma BuildRun_short_circuit pre cmd cwd capture result post :
  evs = pre ++ ERun cmd cwd capture (Completed result) :: post ->
  returncode result <> 0 ->
  commands post = [] /\ r = Val false.
Proof.
  intros Heq Hne. destruct Hrun as [e Ht|Ha|evs' r' Ha Hs].
  - exfalso. destruct Ht as [-> | ->]; cbn in Heq;
      destruct pre as [|? [|? [|? ?]]]; discriminate.
  - exfalso. destruct t; try discriminate; cbn in Heq;
      destruct pre as [|? [|? [|? [|? ?]]]]; discriminate.
  - destruct t; cbn in Heq.
    + destruct pre as [|? pre]; [discriminate|]. injection Heq as _ Heq.
      eapply Steps_short_circuit; eauto.
    + destruct pre as [|? pre]; [discriminate|]. injection Heq as _ Heq.
      eapply Steps_short_circuit; eauto.
    + destruct pre as [|? [|? pre]]; try discriminate. injection Heq as _ _ Heq.
      eapply Steps_short_circuit; eauto.
    + destruct pre as [|? [|? pre]]; try discriminate. injection Heq as _ _ Heq.
      eapply Steps_short_circuit; eauto.
Qed.

Lemma BuildRun_false :
  r = Val false ->
  exists msg, last evs = Some (EPrint msg) /\
    (msg ∈ step_errors t \/
     msg = "Error: Unsupported Android architecture: " +:+ default_to arch (default_arch t)).
Proof.
  intros ->. inversion Hrun as [e Ht|Ha|evs' r' Ha Hs]; subst.
  - eexists. rewrite last_snoc. eauto.
  - apply Steps_false in Hs as (msg & Hl & Hin). exists msg. split.
    + rewrite last_app, Hl. done.
    + left. by eapply steps_of_errors.
Qed.

Lemma BuildRun_true : r = Val true -> Forall run_ok evs.
Proof.
  intros ->. inversion Hrun as [e Ht|Ha|evs' r' Ha Hs]; subst.
  apply Forall_app. split; [destruct t; repeat constructor | by eapply Steps_true].
Qed.

Lemma BuildRun_fs :
  Forall (fun e => changes_fs e ->
                   e = EMkdir (str_path w (build_dir // "android")) \/
                   e = EMkdir (str_path w (build_dir // "qnx"))) evs.
Proof.
  assert (Hh : Forall (fun e => changes_fs e ->
                   e = EMkdir (str_path w (build_dir // "android")) \/
                   e = EMkdir (str_path w (build_dir // "qnx")))
                 (header w t conan_dir build_dir)).
  { destruct t; repeat (apply Forall_cons; split); try apply Forall_nil; cbn; tauto. }
  destruct Hrun as [e Ht|Ha|evs' r' Ha Hs]; [done|..]; apply Forall_app; (split; [done|]).
  - apply Forall_singleton. cbn. tauto.
  - apply Steps_no_fs in Hs. eapply Forall_impl; [exact Hs | cbn; tauto].
Qed.

Lemma BuildRun_nonzero cmd cwd capture result :
  ERun cmd cwd capture (Completed result) ∈ evs -> returncode result <> 0 -> r = Val false.
Proof.
  intros Hin Hne. apply list_elem_of_split in Hin as (pre & post & Heq).
  by destruct (BuildRun_short_circuit _ _ _ _ _ _ Heq Hne).
Qed.

Lemma BuildRun_result :
  r = Val true \/ r = Val false \/ exists e, r = Raise (OSErr e).
Proof.
  destruct Hrun as [e Ht|Ha|evs' r' Ha Hs]; eauto. by eapply Steps_result.
Qed.

End BuildRunFacts.

(** ** What [check_prerequisites] does *)

Lemma check_prerequisites_facts w tp st r st' :
  check_prerequisites w tp st = (r, st') ->
  exists evs, trace st' = trace st ++ evs /\ CheckFacts w tp (fs st') evs r.
Proof.
  unfold check_prerequisites, check_android_prerequisites, check_qnx_prerequisites,
    try_except, bind, subprocess_run, print, emit, ret, index, raise, path_exists, environ_get.
  intros H. exec H.
  all: inversion H; subst; clear H; cbn; rewrite <- ?app_assoc; eexists; split; [reflexivity|].
  all: cbn [app]; split.
  (* the commands *)
  all: try (cbn; auto; fail).
  all: try (split;
            [ intros Hc; first [discriminate Hc | eexists; split; [find_elem | done]]
            | intros (? & Hin & ?); first [reflexivity | exfalso; invert_elem Hin; done] ]; fail).
  (* no change of the file system *)
  all: try (repeat constructor; cbn; auto; fail).
  (* the message of a failure *)
  all: try (intros ?; first [discriminate | eexists; split; [reflexivity|]; set_solver]).
  (* the exceptions *)
  all: try (intros ? ?; eauto; congruence).
  (* a return code other than zero *)
  all: try (intros ? ? ? ? Hin Hne; invert_elem Hin; first [done | congruence]; fail).
  (* success *)
  all: split; [ try discriminate | ].
  all: try (intros _; split; [reflexivity|]; split; [repeat constructor; cbn; intuition|];
            split; [done|];
            unfold env_ok, platform_variable; repeat case_bool_decide; simplify_eq; eauto; fail).
  all: intros [Hc [Hr [Hi He]]]; try discriminate Hc; try congruence; exfalso.
  all: try (invert_Forall Hr; cbn in *; tauto).
  all: unfold env_ok, platform_variable in He; repeat case_bool_decide; simplify_eq;
       destruct He as (p & Hp & Hne & Hs); simplify_eq; done.
Qed.

(** ** What [build_project] does *)

Lemma build_project_stages w target_platform arch clean verbose build_type :
  build_project w target_platform arch clean verbose build_type =
  let target := default_to target_platform (detect_platform w) in
  prepare w target (resolved_arch target arch) clean build_type
    (dispatch w target (resolved_arch target arch) verbose build_type).
Proof. reflexivity. Qed.

Lemma prepare_facts w target arch clean build_type k st r st' :
  prepare w target arch clean build_type k st = (r, st') ->
  exists evs, Forall (fs_allowed w clean) evs /\ commands evs = [] /\ Forall run_ok evs /\
    ((exists e, r = Raise (OSErr e) /\ trace st' = trace st ++ evs) \/
     (exists st1, trace st1 = trace st ++ evs /\ k st1 = (r, st'))).
Proof.
  unfold prepare, bind, print, emit, ret, path_exists, rmtree, mkdir.
  intros H. exec H.
  all: exec_end H.
  all: cbn; rewrite <- ?app_assoc; eexists.
  all: split; [|split; [|split]];
       [..| first [ left; eexists; split; reflexivity
                  | right; eexists; split; [|exact H]; cbn; rewrite <- ?app_assoc; reflexivity ] ].
  all: cbn [app].
  all: try reflexivity.
  all: try (repeat (apply Forall_cons; split); try apply Forall_nil; cbn; try tauto;
            try (split; [done|]); unfold own_dirs, cleaned_dirs; cbn; find_elem; fail).
Qed.

Lemma target_name_cases target :
  (exists t, target = target_name t) \/ (forall t, target <> target_name t).
Proof.
  destruct (decide (target = "windows")) as [->|?]; [left; by exists Windows|].
  destruct (decide (target = "linux")) as [->|?]; [left; by exists Linux|].
  destruct (decide (target = "android")) as [->|?]; [left; by exists Android|].
  destruct (decide (target = "qnx")) as [->|?]; [left; by exists QNX|].
  right. by intros [].
Qed.

Lemma dispatch_supported w t arch verbose build_type :
  dispatch w (target_name t) arch verbose build_type =
  finish (build_for w t (script_dir w) (script_dir w // "conan") (script_dir w // "build")
            build_type arch verbose).
Proof. by destruct t. Qed.

Lemma dispatch_unsupported w target arch verbose build_type :
  (forall t, target <> target_name t) ->
  dispatch w target arch verbose build_type =
  (print ("Error: Unsupported platform: " +:+ target);; ret false).
Proof.
  intros Hn. unfold dispatch.
  rewrite (bool_decide_eq_false_2 (target = "windows")) by apply (Hn Windows).
  rewrite (bool_decide_eq_false_2 (target = "linux")) by apply (Hn Linux).
  rewrite (bool_decide_eq_false_2 (target = "android")) by apply (Hn Android).
  rewrite (bool_decide_eq_false_2 (target = "qnx")) by apply (Hn QNX).
  reflexivity.
Qed.

Lemma finish_facts build st r st' :
  finish build st = (r, st') ->
  exists st1, build st = (r, st1) /\
    ((r = Val true /\ trace st' = trace st1 ++ success_banner) \/
     (r <> Val true /\ st' = st1)).
Proof.
  unfold finish, bind, print, emit, ret. intros H.
  destruct (build st) as [[b|e] st1]; [destruct b|]; cbn in H; inversion H; subst; clear H;
    eexists; (split; [reflexivity|]).
  - left. split; [done|]. cbn. by rewrite <- !app_assoc.
  - by right.
  - by right.
Qed.

Lemma resolved_arch_default t arch :
  default_to (resolved_arch (target_name t) arch) (default_arch t) =
  default_to arch (default_arch t).
Proof.
  unfold resolved_arch, truthy. destruct arch as [a|]; [|by destruct t].
  destruct (decide (a = "")) as [->|Ha]; [by destruct t|].
  by rewrite (bool_decide_eq_false_2 (a = "")).
Qed.

Lemma own_android w : str_path w (script_dir w // "build" // "android") ∈ own_dirs w.
Proof. unfold own_dirs. cbn. find_elem. Qed.

Lemma own_qnx w : str_path w (script_dir w // "build" // "qnx") ∈ own_dirs w.
Proof. unfold own_dirs. cbn. find_elem. Qed.

Lemma last_app_last {A} (l1 l2 : list A) x : last l2 = Some x -> last (l1 ++ l2) = Some x.
Proof. intros H. by rewrite last_app, H. Qed.

Lemma build_project_facts w target_platform arch clean verbose build_type st r st' :
  build_project w target_platform arch clean verbose build_type st = (r, st') ->
  exists evs, trace st' = trace st ++ evs /\
    ProjectFacts w (default_to target_platform (detect_platform w)) arch
      clean verbose build_type evs r.
Proof.
  rewrite build_project_stages. cbv zeta.
  set (target := default_to target_platform (detect_platform w)).
  intros H. apply prepare_facts in H as (evs1 & Hfs1 & Hc1 & Hok1 & [(e & -> & Htr)|(st1 & Htr1 & H)]).
  assert (Hnz1 : forall cmd cwd capture result,
             ERun cmd cwd capture (Completed result) ∈ evs1 -> returncode result <> 0 -> False).
  { intros cmd cwd capture result Hin Hne.
    apply (proj1 (Forall_forall _ _) Hok1) in Hin. by apply Hin. }
  { (* a directory could not be removed or created *)
    exists evs1. split; [done|]. split; rewrite ?Hc1; try done.
    - intros; split; [apply prefix_nil | done].
    - eauto.
    - intros. exfalso. eauto. }
  assert (Hnz1 : forall cmd cwd capture result,
             ERun cmd cwd capture (Completed result) ∈ evs1 -> returncode result <> 0 -> False).
  { intros cmd cwd capture result Hin Hne.
    apply (proj1 (Forall_forall _ _) Hok1) in Hin. by apply Hin. }
  destruct (target_name_cases target) as [[t Ht]|Hn].
  - (* one of the four targets *)
    rewrite Ht, dispatch_supported in H.
    apply finish_facts in H as (st2 & Hb & Hfin).
    apply build_for_BuildRun in Hb as (evsb & Htr2 & Hrun).
    pose proof (BuildRun_commands Hrun) as [Hpre Heq]. cbv zeta in Hpre, Heq.
    rewrite resolved_arch_default in Hpre, Heq.
    assert (Hfsb : Forall (fs_allowed w clean) evsb).
    { eapply Forall_impl; [apply (BuildRun_fs Hrun)|]. intros [] Hev; cbn; try done.
      - destruct Hev as [Hev|Hev]; [done|..]; injection Hev as ->;
          [apply own_android | apply own_qnx].
      - destruct Hev as [Hev|Hev]; [done|..]; discriminate. }
    destruct Hfin as [[-> Htr3]|[Hnt ->]].
    + exists (evs1 ++ evsb ++ success_banner).
      split; [by rewrite Htr3, Htr2, Htr1, <- !app_assoc|].
      split; rewrite ?commands_app, ?Hc1, ?app_nil_r; cbn [app]; try done.
      * intros t' Ht'. rewrite Ht in Ht'. assert (t' = t) as -> by (by destruct t, t').
        cbv zeta. split; [by rewrite Heq | auto].
      * intros Hn. by destruct (Hn t).
      * rewrite !Forall_app. repeat split; try done. repeat constructor.
      * intros _. rewrite !Forall_app. repeat split; try done.
        -- by apply (BuildRun_true Hrun).
        -- repeat constructor.
      * auto.
      * intros cmd cwd capture result Hin Hne. exfalso.
        rewrite !elem_of_app in Hin. destruct Hin as [Hin|[Hin|Hin]].
        -- eauto.
        -- by pose proof (BuildRun_nonzero Hrun _ _ _ _ Hin Hne).
        -- invert_elem Hin.
    + exists (evs1 ++ evsb).
      split; [by rewrite Htr2, Htr1, <- !app_assoc|].
      split; rewrite ?commands_app, ?Hc1; cbn [app]; try done.
      * intros t' Ht'. rewrite Ht in Ht'. assert (t' = t) as -> by (by destruct t, t').
        cbv zeta. split; [done | auto].
      * intros Hn. by destruct (Hn t).
      * by rewrite Forall_app.
      * intros ->. destruct (BuildRun_false Hrun eq_refl) as (msg & Hl & Hmsg).
        exists msg. destruct Hmsg as [Hin| ->].
        -- exists SubprocessFailed. split; [by apply last_app_last|].
           split; [by apply (Error_step t) | done].
        -- exists Unsupported. split; [by apply last_app_last|].
           split; [constructor | done].
      * apply (BuildRun_result Hrun).
      * intros cmd cwd capture result Hin Hne.
        rewrite !elem_of_app in Hin. destruct Hin as [Hin|Hin].
        -- exfalso. eauto.
        -- apply (BuildRun_nonzero Hrun _ _ _ _ Hin Hne).
  - (* any other platform *)
    rewrite dispatch_unsupported in H by done.
    unfold bind, print, emit, ret in H. cbn in H. inversion H; subst; clear H. cbn.
    exists (evs1 ++ [EPrint ("Error: Unsupported platform: " +:+ target)]).
    split; [by rewrite Htr1, <- app_assoc|].
    split; rewrite ?commands_app, ?Hc1; cbn; try done.
    + intros t Ht. by destruct (Hn t).
    + rewrite Forall_app. split; [done | by repeat constructor].
    + intros _. eexists _, Unsupported. split; [apply last_snoc|].
      split; [constructor | done].
    + auto.
Qed.

(** ** What a whole run does *)

Lemma main_run w args fs0 :
  exists rc st1,
    check_prerequisites w (arg_platform args) {| fs := fs0; trace := [] |} = (rc, st1) /\
    CheckFacts w (arg_platform args) (fs st1) (trace st1) rc /\
    ((rc <> Val true /\ run_main w args fs0 = (exit_of rc, st1)) \/
     (rc = Val true /\ exists rp st2 evs,
        build_project w (arg_platform args) (arg_arch args) (arg_clean args)
          (arg_verbose args) (arg_build_type args) st1 = (rp, st2) /\
        trace st2 = trace st1 ++ evs /\
        ProjectFacts w (default_to (arg_platform args) (detect_platform w)) (arg_arch args)
          (arg_clean args) (arg_verbose args) (arg_build_type args) evs rp /\
        run_main w args fs0 = (exit_of rp, st2))).
Proof.
  unfold run_main, main, bind, sys_exit, raise.
  destruct (check_prerequisites _ _ _) as [rc st1] eqn:Hc.
  exists rc, st1. split; [done|].
  apply check_prerequisites_facts in Hc as (evs & Htr & Hfacts). cbn in Htr. subst evs.
  split; [done|].
  destruct rc as [[]|e]; cbn [negb exit_of].
  - right. split; [done|].
    destruct (build_project w (arg_platform args) (arg_arch args) (arg_clean args)
                (arg_verbose args) (arg_build_type args) st1) as [rp st2] eqn:Hp.
    destruct (build_project_facts _ _ _ _ _ _ _ _ _ Hp) as (evs & Htr & Hfp).
    exists rp, st2, evs. split; [done|]. split; [done|]. split; [done|].
    by destruct rp as [[]|].
  - by left.
  - by left.
Qed.

Lemma new_events_eq {A} (m : M A) st evs :
  trace (m st).2 = trace st ++ evs -> new_events m st = evs.
Proof. unfold new_events. intros ->. apply drop_app_length. Qed.

(** The exit status after [check_prerequisites] failed is not 0. *)
Lemma exit_of_check_nonzero w tp f evs rc :
  CheckFacts w tp f evs rc -> rc <> Val true -> exit_status (exit_of rc) <> 0.
Proof.
  intros Hcf Hne. destruct rc as [[]|e]; [done..|].
  by destruct (cf_result _ _ _ _ _ Hcf) as [->|[e' ->]].
Qed.

Lemma exit_of_check_one w tp f evs rc :
  CheckFacts w tp f evs rc -> rc <> Val true -> exit_status (exit_of rc) = 1.
Proof.
  intros Hcf Hne. destruct rc as [[]|e]; [done..|].
  by destruct (cf_result _ _ _ _ _ Hcf) as [->|[e' ->]].
Qed.

(** The exit status after [build_project] is 0 exactly when it gave [True]. *)
Lemma exit_of_project_zero w target arch clean verbose build_type evs rp :
  ProjectFacts w target arch clean verbose build_type evs rp ->
  exit_status (exit_of rp) = 0 -> rp = Val true.
Proof.
  intros Hpf Hex. by destruct (pf_result _ _ _ _ _ _ _ _ Hpf) as [->|[->|[e ->]]].
Qed.

Lemma exit_of_project_one w target arch clean verbose build_type evs rp :
  ProjectFacts w target arch clean verbose build_type evs rp ->
  rp <> Val true -> exit_status (exit_of rp) = 1.
Proof.
  intros Hpf Hne. by destruct (pf_result _ _ _ _ _ _ _ _ Hpf) as [->|[->|[e ->]]].
Qed.

(** * The claims *)

(** ** The events of a build function *)

Lemma build_for_run w t project_root conan_dir build_dir build_type arch verbose st :
  BuildRun w t project_root conan_dir build_dir build_type arch verbose
    (new_events (build_for w t project_root conan_dir build_dir build_type arch verbose) st)
    (build_for w t project_root conan_dir build_dir build_type arch verbose st).1.
Proof.
  destruct (build_for w t project_root conan_dir build_dir build_type arch verbose st)
    as [r st'] eqn:H.
  pose proof H as H'. apply build_for_BuildRun in H' as (evs & Htr & Hrun).
  erewrite new_events_eq; [exact Hrun|]. by rewrite H.
Qed.

(** ** C10: do the commands of a build function short-circuit? *)

(** C10: in each of the four build functions, the commands run in the
    order install, configure, compile, and after a command that returned a
    code other than zero no further command is run and the function
    returns [False]. *)
Theorem C10_build_short_circuits w t project_root conan_dir build_dir build_type
    arch verbose st :
  let m := build_for w t project_root conan_dir build_dir build_type arch verbose in
  let a := default_to arch (default_arch t) in
  let s := setting_of w conan_dir verbose in
  commands (new_events m st) `prefix_of`
    [install_command t a s; configure_command t a build_type s;
     compile_command t build_type s] /\
  forall pre cmd cwd capture result post,
    new_events m st = pre ++ ERun cmd cwd capture (Completed result) :: post ->
    returncode result <> 0 ->
    commands post = [] /\ (m st).1 = Val false.
Proof.
  intros m a s. pose proof (build_for_run w t project_root conan_dir build_dir build_type
                              arch verbose st) as Hrun. fold m in Hrun.
  split.
  - destruct (BuildRun_commands Hrun) as [Hpre _]. cbv zeta in Hpre.
    unfold command_table in Hpre. fold a s in Hpre.
    destruct (arch_accepted t a); [done|].
    apply prefix_nil_inv in Hpre. rewrite Hpre. apply prefix_nil.
  - intros pre cmd cwd capture result post Heq Hne.
    apply (BuildRun_short_circuit Hrun _ _ _ _ _ _ Heq Hne).
Qed.

(** A build in which the configure command returns 1: the compile command
    is not run. *)
Lemma C10_build_short_circuits_witness :
  commands [EPrint "Error: CMake configuration failed"] = [] /\
  (build_for (posix_host "Linux" ∅ 8 (starts_with ["cmake"; "-S"])) Linux
     (mkPath "/" ["proj"]) (mkPath "/" ["proj"; "conan"]) (mkPath "/" ["proj"; "build"])
     "Release" None false start).1 = Val false.
Proof.
  refine (proj2 (C10_build_short_circuits
                   (posix_host "Linux" ∅ 8 (starts_with ["cmake"; "-S"])) Linux
                   (mkPath "/" ["proj"]) (mkPath "/" ["proj"; "conan"])
                   (mkPath "/" ["proj"; "build"]) "Release" None false start)
            [EPrint "Building Linux version...";
             ERun (install_command Linux "x86_64"
                     (setting_of (posix_host "Linux" ∅ 8 none)
                        (mkPath "/" ["proj"; "conan"]) false))
               (Some "/proj") false
               (Completed {| returncode := 0; stdout := "cmake version 3.28.1" |})]
            (configure_command Linux "x86_64" "Release"
               (setting_of (posix_host "Linux" ∅ 8 none)
                  (mkPath "/" ["proj"; "conan"]) false))
            (Some "/proj") false {| returncode := 1; stdout := "cmake version 3.28.1" |}
            [EPrint "Error: CMake configuration failed"] _ _).
  - vm_compute. reflexivity.
  - vm_compute. discriminate.
Defined.

(** ** C4: what platforms are detected? *)

(** C4, as stated, fails: on a host whose system is Darwin the detected
    platform is "macos", which is none of the four build targets. *)
Lemma C4_darwin_is_no_target :
  detect_platform (posix_host "Darwin" ∅ 8 none) = "macos" /\
  "macos" ∉ target_name <$> [Windows; Linux; Android; QNX].
Proof. split; [by vm_compute|]. intros H. invert_elem H. Qed.

(** C4, amended: the platform-detection function maps the lower-cased
    name of the host's system to "windows", "linux", "macos" (for darwin)
    or "unknown" (for any other name); of the four build targets it detects
    only windows and linux, never android or qnx. *)
Theorem C4_detect_platform w :
  detect_platform w ∈ ["windows"; "linux"; "macos"; "unknown"] /\
  (forall t, detect_platform w = target_name t -> t = Windows \/ t = Linux) /\
  (detect_platform w = "windows" <-> lower (platform_system w) = "windows") /\
  (detect_platform w = "linux" <-> lower (platform_system w) = "linux") /\
  (detect_platform w = "macos" <-> lower (platform_system w) = "darwin") /\
  (detect_platform w = "unknown" <->
   lower (platform_system w) ∉ ["windows"; "linux"; "darwin"]).
Proof.
  unfold detect_platform. cbv zeta. generalize (lower (platform_system w)) as system.
  intros system.
  destruct (decide (system = "windows")) as [->|?]; [|
  destruct (decide (system = "linux")) as [->|?]; [|
  destruct (decide (system = "darwin")) as [->|?]]];
    rewrite ?(bool_decide_eq_false_2 (system = "windows")),
            ?(bool_decide_eq_false_2 (system = "linux")),
            ?(bool_decide_eq_false_2 (system = "darwin")) by done; cbn.
  all: split; [find_elem|].
  all: split; [intros [] Ht; try discriminate Ht; auto|].
  all: repeat split; try done.
  all: try (intros Hin; exfalso; first [apply Hin; find_elem | invert_elem Hin; done]).
  intros _ Hin. invert_elem Hin; done.
Qed.

(** A host C4's second part speaks of: its platform is detected as a
    build target. *)
Lemma C4_detect_platform_witness : Linux = Windows \/ Linux = Linux.
Proof.
  apply (proj1 (proj2 (C4_detect_platform (posix_host "Linux" ∅ 8 none))) Linux).
  vm_compute. reflexivity.
Defined.

(** ** The commands of a trace *)

Lemma run_in_commands cmd cwd capture r evs :
  ERun cmd cwd capture r ∈ evs -> cmd ∈ commands evs.
Proof. intros Hin. apply list_elem_of_omap. by exists (ERun cmd cwd capture r). Qed.


(** ** C6: the prerequisite check comes first *)

Lemma table_no_probe t arch build_type s cmd :
  cmd ∈ command_table t arch build_type s -> cmd ∉ probes.
Proof.
  unfold command_table, install_command, configure_command, compile_command,
    append_verbose, probes.
  intros Hin Hp. destruct (arch_accepted t arch); [|by invert_elem Hin].
  destruct t, (set_verbose s); cbn in Hin; invert_elem Hin; invert_elem Hp.
Qed.

Lemma check_commands_probes w tp f evs rc cmd :
  CheckFacts w tp f evs rc -> cmd ∈ commands evs -> cmd ∈ probes.
Proof.
  intros Hcf Hin. destruct (cf_commands _ _ _ _ _ Hcf) as [Heq|Heq];
    rewrite Heq in Hin; [|done].
  cbn in Hin. apply list_elem_of_singleton in Hin as ->. unfold probes. find_elem.
Qed.

Lemma project_commands_no_probe w target arch clean verbose build_type evs rp cmd :
  ProjectFacts w target arch clean verbose build_type evs rp ->
  cmd ∈ commands evs ->
  (cmd ∉ probes) /\ exists t, target = target_name t.
Proof.
  intros Hpf Hin. destruct (target_name_cases target) as [[t Ht]|Hn].
  - split; [|by exists t].
    destruct (pf_commands _ _ _ _ _ _ _ _ Hpf t Ht) as [[k Hk] _].
    eapply table_no_probe. rewrite Hk. apply elem_of_app. by left.
  - destruct (pf_unsupported _ _ _ _ _ _ _ _ Hpf Hn) as [Heq _].
    rewrite Heq in Hin. by apply elem_of_nil in Hin.
Qed.

(** C6: in every run, if the prerequisite check does not succeed then
    nothing but version probes is ever run; and any other command, that is
    any dependency-install, configure or compile command, is run only after
    the prerequisite check has completed with success, both probes having
    returned zero, and only for a target platform, given or detected, that
    is one of the four. *)
Theorem C6_check_before_build w args fs0 :
  let st0 := {| fs := fs0; trace := [] |} in
  let checked := check_prerequisites w (arg_platform args) st0 in
  let tr := trace (run_main w args fs0).2 in
  (checked.1 <> Val true ->
   tr = trace checked.2 /\ forall cmd, cmd ∈ commands tr -> cmd ∈ probes) /\
  (forall pre cmd cwd capture r post,
     tr = pre ++ ERun cmd cwd capture r :: post ->
     cmd ∉ probes ->
     checked.1 = Val true /\
     trace checked.2 `prefix_of` pre /\
     commands (trace checked.2) = probes /\
     Forall run_ok (trace checked.2) /\
     exists t, default_to (arg_platform args) (detect_platform w) = target_name t).
Proof.
  intros st0 checked tr. unfold tr, checked.
  destruct (main_run w args fs0)
    as (rc & st1 & Hc & Hcf & [[Hne ->]|(-> & rp & st2 & evs & Hp & Htr & Hpf & ->)]);
    fold st0 in Hc; rewrite Hc; cbn [fst snd].
  - split.
    + intros _. split; [done|]. intros cmd. apply (check_commands_probes _ _ _ _ _ _ Hcf).
    + intros pre cmd cwd capture r post Heq Hnp. exfalso. apply Hnp.
      apply (check_commands_probes _ _ _ _ _ _ Hcf).
      apply (run_in_commands _ cwd capture r). rewrite Heq. apply elem_of_app.
      right. left.
  - split; [done|].
    intros pre cmd cwd capture r post Heq Hnp. split; [done|].
    destruct (proj1 (cf_true _ _ _ _ _ Hcf) eq_refl) as (Hcp & Hok & _ & _).
    assert (Hev : trace st1 `prefix_of` pre /\ ERun cmd cwd capture r ∈ evs).
    { rewrite Htr in Heq. apply app_eq_inv in Heq as [(k & Hk1 & Hk2)|(k & Hk1 & Hk2)].
      - destruct k as [|e k].
        + cbn in Hk2. rewrite app_nil_r in Hk1. split; [by rewrite Hk1|].
          rewrite <- Hk2. left.
        + exfalso. injection Hk2 as <- _. apply Hnp.
          apply (check_commands_probes _ _ _ _ _ _ Hcf).
          apply (run_in_commands _ cwd capture r). rewrite Hk1. apply elem_of_app.
          right. left.
      - split; [by exists k|]. rewrite Hk2. apply elem_of_app. right. left. }
    destruct Hev as [Hpre Hin]. repeat split; try done.
    apply run_in_commands in Hin.
    by destruct (project_commands_no_probe _ _ _ _ _ _ _ _ _ Hpf Hin).
Qed.

(** A run in which the install command is run: the check has succeeded
    before it. *)
Lemma C6_check_before_build_witness :
  (check_prerequisites (posix_host "Linux" ∅ 8 (starts_with ["conan"; "install"]))
     (Some "linux") start).1 = Val true.
Proof.
  refine (proj1 (proj2 (C6_check_before_build
            (posix_host "Linux" ∅ 8 (starts_with ["conan"; "install"]))
            (linux_release false) disk)
          (firstn 18 (trace (run_main
             (posix_host "Linux" ∅ 8 (starts_with ["conan"; "install"]))
             (linux_release false) disk).2))
          (install_command Linux "x86_64"
             (setting_of (posix_host "Linux" ∅ 8 none) (mkPath "/" ["proj"; "conan"]) false))
          (Some "/proj") false
          (Completed {| returncode := 1; stdout := "cmake version 3.28.1" |})
          [EPrint "Error: Conan installation failed"] _ _)).
  - vm_compute. reflexivity.
  - vm_compute. intros H. invert_elem H.
Defined.

(** ** C8: what the script does to the file system *)

(** C8, as stated, fails: with --clean, an existing build directory is
    removed with everything in it. *)
Lemma C8_clean_removes_build_directory :
  ERmtree "/proj/build"
    ∈ trace (run_main (posix_host "Linux" ∅ 8 none) (linux_release true) disk).2 /\
  disk !! "/proj/build/old.o" = Some File /\
  fs (run_main (posix_host "Linux" ∅ 8 none) (linux_release true) disk).2
    !! "/proj/build/old.o" = None.
Proof. vm_compute. split; [find_elem | done]. Qed.

(** C8, amended: the script itself changes the file system only by
    creating the directories build, conan, build/android and build/qnx
    below its own directory, which leaves every existing entry as it is,
    and, only when --clean is given, by removing the trees of build and
    conan. *)
Theorem C8_filesystem_effects w args fs0 :
  let tr := trace (run_main w args fs0).2 in
  Forall (fs_allowed w (arg_clean args)) tr /\
  (forall p, EMkdir p ∈ tr -> p ∈ own_dirs w) /\
  (forall p, ERmtree p ∈ tr -> arg_clean args = true /\ p ∈ cleaned_dirs w) /\
  (forall sep p st q k, fs st !! q = Some k -> fs (mkdir sep p st).2 !! q = Some k).
Proof.
  intros tr.
  assert (Hall : Forall (fs_allowed w (arg_clean args)) tr).
  { unfold tr.
    destruct (main_run w args fs0)
      as (rc & st1 & Hc & Hcf & [[Hne ->]|(-> & rp & st2 & evs & Hp & Htr & Hpf & ->)]);
      cbn [fst snd].
    - eapply Forall_impl; [apply (cf_no_fs _ _ _ _ _ Hcf)|]. by intros [].
    - rewrite Htr. apply Forall_app. split; [|apply (pf_fs _ _ _ _ _ _ _ _ Hpf)].
      eapply Forall_impl; [apply (cf_no_fs _ _ _ _ _ Hcf)|]. by intros []. }
  split; [done|]. split; [|split].
  - intros p Hin. by apply (proj1 (Forall_forall _ _) Hall) in Hin.
  - intros p Hin. by apply (proj1 (Forall_forall _ _) Hall) in Hin.
  - intros sep p st q k Hq. unfold mkdir.
    destruct (fs st !! path_str sep p) as [[]|] eqn:Hp; cbn; [done..|].
    destruct (fs st !! path_str sep (parent p)) as [[]|]; cbn; [done| |done].
    rewrite lookup_insert_ne; [done|]. intros <-. congruence.
Qed.

(** A run without --clean that creates its build directory. *)
Lemma C8_filesystem_effects_witness :
  "/proj/build" ∈ own_dirs (posix_host "Linux" ∅ 8 none).
Proof.
  apply (proj1 (proj2 (C8_filesystem_effects (posix_host "Linux" ∅ 8 none)
                         (linux_release false) disk)) "/proj/build").
  vm_compute. find_elem.
Defined.

(** * Further properties of the script *)

(** ** The platform checks *)

(** X1: [check_android_prerequisites] never raises, runs no program,
    leaves the file system alone and prints exactly one line. It gives
    [True] exactly when ANDROID_NDK_HOME is set, not empty, and names
    something that exists; a variable that is set to the empty string is
    reported like one that is not set. *)
Theorem check_android_prerequisites_spec w st :
  let r := check_android_prerequisites w st in
  let home := environ w !! "ANDROID_NDK_HOME" in
  fs r.2 = fs st /\
  (r.1 = Val true <-> exists p, home = Some p /\ p <> "" /\ is_Some (fs st !! p)) /\
  (home = None \/ home = Some "" ->
   r.1 = Val false /\
   trace r.2 = trace st ++ [EPrint "Error: Please set ANDROID_NDK_HOME environment variable"]) /\
  (forall p, home = Some p -> p <> "" -> fs st !! p = None ->
   r.1 = Val false /\
   trace r.2 = trace st ++ [EPrint "Error: ANDROID_NDK_HOME path does not exist"]) /\
  (forall p, home = Some p -> p <> "" -> is_Some (fs st !! p) ->
   trace r.2 = trace st ++ [EPrint ("Android NDK path: " +:+ p)]).
Proof.
  unfold check_android_prerequisites, environ_get, truthy, bind, print, emit, ret,
    path_exists. cbv zeta.
  destruct (environ w !! "ANDROID_NDK_HOME") as [p|] eqn:Hh; [destruct (decide (p = "")) as [->|Hp]|];
    rewrite ?(bool_decide_eq_false_2 (p = "")) by done; cbn.
  2: destruct (fs st !! p) as [k|] eqn:Hk;
       [rewrite bool_decide_eq_true_2 by eauto
       |rewrite bool_decide_eq_false_2 by (by intros [? ?])]; cbn.
  all: split; [done|]; split; [|split; [|split]].
  all: try (intros [?|?]; simplify_eq; done).
  all: try (intros q ? ? ?; simplify_eq; done).
  all: try (intros q ? ? [? ?]; simplify_eq; done).
  all: split; intros; simplify_eq; try done.
  all: try (destruct H as (q & ? & ? & [? ?]); simplify_eq; done).
  exists p. eauto.
Qed.

(** A host on which ANDROID_NDK_HOME is set to the empty string. *)
Lemma check_android_prerequisites_spec_witness :
  (check_android_prerequisites (posix_host "Linux" {[ "ANDROID_NDK_HOME" := "" ]} 8 none)
     start).1 = Val false /\
  trace (check_android_prerequisites
           (posix_host "Linux" {[ "ANDROID_NDK_HOME" := "" ]} 8 none) start).2 =
  trace start ++ [EPrint "Error: Please set ANDROID_NDK_HOME environment variable"].
Proof.
  apply (check_android_prerequisites_spec
           (posix_host "Linux" {[ "ANDROID_NDK_HOME" := "" ]} 8 none) start).
  right. vm_compute. reflexivity.
Defined.

(** X2: [check_qnx_prerequisites] never raises, runs no program, leaves
    the file system alone and prints exactly one line. It gives [True]
    exactly when QNX_SDP_HOME is set, not empty, and names something that
    exists; the empty string is reported like a variable that is not
    set. *)
Theorem check_qnx_prerequisites_spec w st :
  let r := check_qnx_prerequisites w st in
  let home := environ w !! "QNX_SDP_HOME" in
  fs r.2 = fs st /\
  (r.1 = Val true <-> exists p, home = Some p /\ p <> "" /\ is_Some (fs st !! p)) /\
  (home = None \/ home = Some "" ->
   r.1 = Val false /\
   trace r.2 = trace st ++ [EPrint "Error: Please set QNX_SDP_HOME environment variable"]) /\
  (forall p, home = Some p -> p <> "" -> fs st !! p = None ->
   r.1 = Val false /\
   trace r.2 = trace st ++ [EPrint "Error: QNX_SDP_HOME path does not exist"]) /\
  (forall p, home = Some p -> p <> "" -> is_Some (fs st !! p) ->
   trace r.2 = trace st ++ [EPrint ("QNX SDP path: " +:+ p)]).
Proof.
  unfold check_qnx_prerequisites, environ_get, truthy, bind, print, emit, ret,
    path_exists. cbv zeta.
  destruct (environ w !! "QNX_SDP_HOME") as [p|] eqn:Hh; [destruct (decide (p = "")) as [->|Hp]|];
    rewrite ?(bool_decide_eq_false_2 (p = "")) by done; cbn.
  2: destruct (fs st !! p) as [k|] eqn:Hk;
       [rewrite bool_decide_eq_true_2 by eauto
       |rewrite bool_decide_eq_false_2 by (by intros [? ?])]; cbn.
  all: split; [done|]; split; [|split; [|split]].
  all: try (intros [?|?]; simplify_eq; done).
  all: try (intros q ? ? ?; simplify_eq; done).
  all: try (intros q ? ? [? ?]; simplify_eq; done).
  all: split; intros; simplify_eq; try done.
  all: try (destruct H as (q & ? & ? & [? ?]); simplify_eq; done).
  exists p. eauto.
Qed.

(** A host on which QNX_SDP_HOME names a path that does not exist. *)
Lemma check_qnx_prerequisites_spec_witness :
  (check_qnx_prerequisites (posix_host "Linux" {[ "QNX_SDP_HOME" := "/opt/qnx" ]} 8 none)
     start).1 = Val false /\
  trace (check_qnx_prerequisites
           (posix_host "Linux" {[ "QNX_SDP_HOME" := "/opt/qnx" ]} 8 none) start).2 =
  trace start ++ [EPrint "Error: QNX_SDP_HOME path does not exist"].
Proof.
  apply (proj1 (proj2 (proj2 (proj2 (check_qnx_prerequisites_spec
           (posix_host "Linux" {[ "QNX_SDP_HOME" := "/opt/qnx" ]} 8 none) start))))
         "/opt/qnx").
  - vm_compute. reflexivity.
  - discriminate.
  - vm_compute. reflexivity.
Defined.

(** ** Probes that cannot be run *)

Lemma main_check_failed w args fs0 rc st1 :
  check_prerequisites w (arg_platform args) {| fs := fs0; trace := [] |} = (rc, st1) ->
  rc <> Val true ->
  run_main w args fs0 = (exit_of rc, st1).
Proof.
  intros Hc Hne. unfold run_main, main, bind. rewrite Hc.
  destruct rc as [[]|e]; done.
Qed.

(** X3: when Conan is not found ([FileNotFoundError]), the run prints
    that Conan is not installed, attempts nothing else and exits with 1.
    Any other error of the operating system on running the probe is not
    caught: it ends the run right after the attempt, with no message of
    the script. *)
Theorem conan_probe_cannot_run w args fs0 e :
  probe_gives w ["conan"; "--version"] (fun r => r = Failed e) ->
  let run := run_main w args fs0 in
  let attempt := [EPrint "Checking build prerequisites...";
                  ERun ["conan"; "--version"] None true (Failed e)] in
  (e = FileNotFoundError ->
   run.1 = Raise (SystemExit 1) /\
   trace run.2 = attempt ++ [EPrint "Error: Conan not installed"]) /\
  (e <> FileNotFoundError ->
   run.1 = Raise (OSErr e) /\ trace run.2 = attempt).
Proof.
  intros Hprobe run attempt. unfold run.
  destruct (check_prerequisites w (arg_platform args) {| fs := fs0; trace := [] |})
    as [rc st1] eqn:Hc.
  pose proof Hc as Hc'.
  unfold check_prerequisites, try_except, bind, subprocess_run, print, emit, ret in Hc'.
  cbn in Hc'.
  specialize (Hprobe {| fs := fs0; trace := [EPrint "Checking build prerequisites..."] |}).
  destruct (proc w _ ["conan"; "--version"] None) as [r f]. cbn in Hprobe. subst r.
  split; intros He.
  - subst e. cbn in Hc'. simplify_eq.
    by rewrite (main_check_failed _ _ _ _ _ Hc).
  - assert (is_FileNotFoundError (OSErr e) = false) as Hf by by destruct e.
    cbn in Hc'. cbn in Hf. rewrite Hf in Hc'. simplify_eq.
    by rewrite (main_check_failed _ _ _ _ _ Hc).
Qed.

(** A host on which running Conan is not permitted. *)
Lemma conan_probe_cannot_run_witness :
  (run_main (faulty_host (starts_with ["conan"]) PermissionError)
     (linux_release false) disk).1 = Raise (OSErr PermissionError) /\
  trace (run_main (faulty_host (starts_with ["conan"]) PermissionError)
           (linux_release false) disk).2 =
  [EPrint "Checking build prerequisites...";
   ERun ["conan"; "--version"] None true (Failed PermissionError)].
Proof.
  apply (conan_probe_cannot_run (faulty_host (starts_with ["conan"]) PermissionError)
           (linux_release false) disk PermissionError).
  - intros st. reflexivity.
  - discriminate.
Defined.

(** X4: when Conan answers its probe with 0 and CMake is not found, the
    run prints that CMake is not installed and exits with 1, having run
    the two probes and nothing else; any other error of the operating
    system on running CMake's probe ends the run uncaught. *)
Theorem cmake_probe_cannot_run w args fs0 e :
  probe_gives w ["conan"; "--version"] probe_succeeds ->
  probe_gives w ["cmake"; "--version"] (fun r => r = Failed e) ->
  let run := run_main w args fs0 in
  commands (trace run.2) = probes /\
  (e = FileNotFoundError ->
   run.1 = Raise (SystemExit 1) /\
   last (trace run.2) = Some (EPrint "Error: CMake not installed")) /\
  (e <> FileNotFoundError ->
   run.1 = Raise (OSErr e) /\
   last (trace run.2) = Some (ERun ["cmake"; "--version"] None true (Failed e))).
Proof.
  intros Hconan Hcmake run. unfold run.
  destruct (check_prerequisites w (arg_platform args) {| fs := fs0; trace := [] |})
    as [rc st1] eqn:Hc.
  pose proof Hc as Hc'.
  unfold check_prerequisites, try_except, bind, subprocess_run, print, emit, ret in Hc'.
  cbn in Hc'.
  pose proof (Hconan {| fs := fs0; trace := [EPrint "Checking build prerequisites..."] |})
    as (result & Hr & Hz).
  destruct (proc w _ ["conan"; "--version"] None) as [r f]. cbn in Hr. subst r.
  rewrite Hz in Hc'. cbn in Hc'.
  match type of Hc' with context [proc w ?s ["cmake"; "--version"] None] =>
    pose proof (Hcmake s) as Hr; destruct (proc w s ["cmake"; "--version"] None) as [r f']
  end.
  cbn in Hr. subst r.
  assert (e = FileNotFoundError \/ e <> FileNotFoundError) as [->|He]
    by (destruct e; auto).
  - cbn in Hc'. simplify_eq. rewrite (main_check_failed _ _ _ _ _ Hc) by done.
    cbn. repeat split; done.
  - assert (is_FileNotFoundError (OSErr e) = false) as Hf by by destruct e.
    cbn in Hc'. cbn in Hf. rewrite Hf in Hc'. simplify_eq.
    rewrite (main_check_failed _ _ _ _ _ Hc) by done.
    cbn. repeat split; done.
Qed.

(** A host on which CMake is not found. *)
Lemma cmake_probe_cannot_run_witness :
  (run_main (faulty_host (starts_with ["cmake"]) FileNotFoundError)
     (linux_release false) disk).1 = Raise (SystemExit 1) /\
  last (trace (run_main (faulty_host (starts_with ["cmake"]) FileNotFoundError)
                 (linux_release false) disk).2) =
  Some (EPrint "Error: CMake not installed").
Proof.
  apply (cmake_probe_cannot_run (faulty_host (starts_with ["cmake"]) FileNotFoundError)
           (linux_release false) disk FileNotFoundError).
  - intros st. eexists. split; reflexivity.
  - intros st. reflexivity.
  - reflexivity.
Defined.

(** ** The version in CMake's output *)

Lemma split_space_length s : length (split_space s) = S (count_spaces s).
Proof.
  induction s as [|c r IH]; [done|]. cbn [split_space count_spaces].
  case_bool_decide; cbn [length].
  - by rewrite IH.
  - destruct (split_space r); [done|]. cbn [length] in *. lia.
Qed.

Lemma split_space_third s :
  split_space s !! 2%nat = None <-> (count_spaces s < 2)%nat.
Proof. rewrite lookup_ge_None, split_space_length. lia. Qed.

Lemma check_after_probes w tp st rc st1 (P : string -> Prop) :
  probe_gives w ["conan"; "--version"] probe_succeeds ->
  probe_gives w ["cmake"; "--version"]
    (fun r => exists result, r = Completed result /\ returncode result = 0 /\
                             P (stdout result)) ->
  check_prerequisites w tp st = (rc, st1) ->
  exists c1 c2, P (stdout c2) /\
    ((split_space (stdout c2) !! 2%nat = None /\ rc = Raise IndexError /\
      trace st1 = trace st ++
        [EPrint "Checking build prerequisites...";
         ERun ["conan"; "--version"] None true (Completed c1);
         EPrint ("Conan version: " +:+ strip (stdout c1));
         ERun ["cmake"; "--version"] None true (Completed c2)]) \/
     (is_Some (split_space (stdout c2) !! 2%nat) /\ (rc = Val true \/ rc = Val false))).
Proof.
  intros Hconan Hcmake Hc.
  unfold check_prerequisites, check_android_prerequisites, check_qnx_prerequisites,
    try_except, bind, subprocess_run, print, emit, ret, index, raise, path_exists,
    environ_get in Hc.
  cbn in Hc.
  match type of Hc with context [proc w ?s ["conan"; "--version"] None] =>
    pose proof (Hconan s) as (c1 & Hr & Hz);
    destruct (proc w s ["conan"; "--version"] None) as [r f]
  end.
  cbn in Hr. subst r. rewrite Hz in Hc. cbn in Hc.
  match type of Hc with context [proc w ?s ["cmake"; "--version"] None] =>
    pose proof (Hcmake s) as (c2 & Hr & Hz2 & HP);
    destruct (proc w s ["cmake"; "--version"] None) as [r f']
  end.
  cbn in Hr. subst r. rewrite Hz2 in Hc. cbn in Hc.
  exists c1, c2. split; [done|].
  destruct (split_space (stdout c2) !! 2%nat) as [v|] eqn:Hv; cbn in Hc.
  - right. split; [eauto|]. exec_all Hc; auto.
  - left. simplify_eq. split; [done|]. split; [done|]. cbn. by rewrite <- !app_assoc.
Qed.

(** X5: the version of CMake is read from the third field of its output,
    fields being separated by single spaces. When both probes return 0 but
    CMake's output has fewer than two spaces, the run ends with an
    [IndexError] that nothing catches, right after the probe and without a
    message of the script: the interpreter exits with 1. With two spaces or
    more there is no [IndexError]. *)
Theorem cmake_output_without_version w args fs0 :
  probe_gives w ["conan"; "--version"] probe_succeeds ->
  let run := run_main w args fs0 in
  (probe_gives w ["cmake"; "--version"]
     (fun r => exists result, r = Completed result /\ returncode result = 0 /\
                              (count_spaces (stdout result) < 2)%nat) ->
   run.1 = Raise IndexError /\ exit_status run.1 = 1 /\
   commands (trace run.2) = probes /\
   exists result, last (trace run.2) =
                  Some (ERun ["cmake"; "--version"] None true (Completed result))) /\
  (probe_gives w ["cmake"; "--version"]
     (fun r => exists result, r = Completed result /\ returncode result = 0 /\
                              (2 <= count_spaces (stdout result))%nat) ->
   run.1 <> Raise IndexError).
Proof.
  intros Hconan run. unfold run.
  destruct (check_prerequisites w (arg_platform args) {| fs := fs0; trace := [] |})
    as [rc st1] eqn:Hc.
  split; intros Hcmake.
  - destruct (check_after_probes _ _ _ _ _ (fun s => (count_spaces s < 2)%nat)
                Hconan Hcmake Hc)
      as (c1 & c2 & HP & [(Hv & -> & Htr)|([v Hv] & _)]).
    + rewrite (main_check_failed _ _ _ _ _ Hc) by done. cbn [fst snd exit_of].
      rewrite Htr. cbn. eauto.
    + apply split_space_third in HP. congruence.
  - destruct (check_after_probes _ _ _ _ _ (fun s => (2 <= count_spaces s)%nat)
                Hconan Hcmake Hc)
      as (c1 & c2 & HP & [(Hv & -> & Htr)|(_ & Hrc)]).
    + apply split_space_third in Hv. lia.
    + destruct (main_run w args fs0)
        as (rc' & st1' & Hc' & Hcf & [[Hne ->]|(_ & rp & st2 & evs & Hp & _ & Hpf & ->)]).
      * rewrite Hc in Hc'. simplify_eq. by destruct Hrc as [-> | ->].
      * by destruct (pf_result _ _ _ _ _ _ _ _ Hpf) as [->|[->|[e ->]]].
Qed.

(** A host whose CMake prints its version alone. *)
Lemma cmake_output_without_version_witness :
  (run_main (terse_host "3.28.1") (linux_release false) disk).1 = Raise IndexError.
Proof.
  apply (proj1 (cmake_output_without_version (terse_host "3.28.1") (linux_release false) disk
                  (fun st => ex_intro _ _ (conj eq_refl eq_refl)))).
  intros st. eexists. split; [reflexivity|]. split; [reflexivity|]. vm_compute. lia.
Defined.

(** ** The shape of the events *)

Lemma check_prerequisites_shape w tp st r st' :
  check_prerequisites w tp st = (r, st') ->
  exists evs, trace st' = trace st ++ evs /\ Forall check_event evs /\
              (read_only w -> fs st' = fs st).
Proof.
  unfold check_prerequisites, check_android_prerequisites, check_qnx_prerequisites,
    try_except, bind, subprocess_run, print, emit, ret, index, raise, path_exists,
    environ_get.
  intros H. exec_all H.
  all: cbn; rewrite <- ?app_assoc; eexists; split; [reflexivity|]; cbn [app].
  all: split.
  all: try (repeat (apply Forall_cons; split); try apply Forall_nil; cbn;
            first [ exact I | other_line | split; [unfold probes; find_elem | done] ]).
  all: intros Hro;
       repeat match goal with
              | Hp : proc _ ?s ?c ?d = _ |- _ =>
                  apply (f_equal snd) in Hp; rewrite (Hro s c d) in Hp; cbn in Hp; subst
              end; done.
Qed.

Lemma Steps_shape cwd l evs r :
  Steps cwd l evs r -> Forall (step_event cwd l.*2) evs.
Proof.
  induction 1 as [|cmd err l e|cmd err l result Hz|cmd err l result evs r Hz Hs IH].
  - apply Forall_nil. done.
  - apply Forall_singleton. by cbn.
  - apply Forall_cons. split; [by cbn|]. apply Forall_singleton. cbn. left.
  - apply Forall_cons. split; [by cbn|].
    eapply Forall_impl; [exact IH|]. intros [] He; cbn in *; try done. by right.
Qed.

Lemma step_errors_other t line : line ∈ step_errors t -> line <> success_line.
Proof. intros Hin. destruct t; cbn in Hin; invert_elem Hin; other_line. Qed.

Lemma BuildRun_shape w t conan_dir build_dir build_type arch verbose evs r :
  BuildRun w t (script_dir w) conan_dir build_dir build_type arch verbose evs r ->
  Forall (build_event w) evs.
Proof.
  assert (Hh : Forall (build_event w) (header w t conan_dir build_dir)).
  { destruct t; repeat (apply Forall_cons; split); try apply Forall_nil; cbn;
      first [exact I | other_line]. }
  intros [e Ht|Ha|evs' r' Ha Hs]; [done|..]; apply Forall_app; (split; [done|]).
  - apply Forall_singleton. cbn. other_line.
  - apply Steps_shape in Hs. eapply Forall_impl; [exact Hs|].
    intros [] He; cbn in *; try done.
    eapply step_errors_other, steps_of_errors, He.
Qed.

Lemma filter_under_None sep p (m : FS) q :
  under sep p q = true ->
  filter (fun kv : string * EntryKind => under sep p kv.1 = false) m !! q = None.
Proof.
  intros Hu. apply map_lookup_filter_None. right. intros x _. cbn. congruence.
Qed.

Lemma filter_None_mono (P : string * EntryKind -> Prop) `{forall kv, Decision (P kv)}
    (m : FS) q :
  m !! q = None -> filter P m !! q = None.
Proof. intros Hq. apply map_lookup_filter_None. by left. Qed.

Lemma prepare_shape w target arch clean build_type k st r st' :
  prepare w target arch clean build_type k st = (r, st') ->
  exists evs, Forall prepare_event evs /\
    banner w target arch build_type `prefix_of` evs /\
    ((exists e, r = Raise (OSErr e) /\ trace st' = trace st ++ evs /\
                (clean = false -> fs st ⊆ fs st') /\
                (forall p, last evs = Some (ERmtree p) -> e = NotADirectoryError)) \/
     (exists st1, trace st1 = trace st ++ evs /\ k st1 = (r, st') /\
                  Prepared w clean (fs st) (fs st1) evs)).
Proof.
  unfold prepare, bind, print, emit, ret, path_exists, rmtree, mkdir.
  intros H. exec H. all: cbn in H; exec_end H.
  all: cbn; rewrite <- ?app_assoc; eexists.
  all: split; [|split];
       [| | first [ left; eexists; split; [reflexivity|]; split; [reflexivity|]; split
                  | right; eexists; split; [|split; [exact H|]]; cbn;
                    [rewrite <- ?app_assoc; reflexivity|] ] ].
  all: cbn [app].
  all: try (repeat (apply Forall_cons; split); try apply Forall_nil; cbn;
            first [exact I | other_line]).
  all: try (unfold banner; eexists; cbn [app]; reflexivity).
  all: try (intros Hc; first [ congruence
              | repeat first [ reflexivity
                             | etrans; [|apply insert_subseteq; eassumption] ] ]; fail).
  all: try (intros p Hl; cbn in Hl;
            first [ discriminate Hl | reflexivity
                  | exfalso; unfold str_path in *;
                    repeat match goal with Hi : is_Some _ |- _ => destruct Hi end;
                    congruence ];
            fail).
  all: split; unfold str_path in *; cbn.
  (* the two directories exist *)
  all: try (first [ eassumption
                  | repeat (rewrite lookup_insert; case_decide);
                    first [done | congruence | eassumption] ]).
  (* they were asked for *)
  all: try (find_elem; fail).
  (* without --clean *)
  all: try (intros Hc; first [ congruence
              | repeat first [ reflexivity
                             | etrans; [|apply insert_subseteq; eassumption] ] ]; fail).
  (* with --clean *)
  all: try (intros Hc Hex q Hu Hnb Hnc; first [congruence | done | idtac];
    rewrite ?lookup_insert_ne by congruence;
    first [ apply filter_under_None; assumption
             | apply filter_None_mono, filter_under_None; assumption ]; fail).
Qed.


Lemma prepare_build_event w e : prepare_event e -> build_event w e.
Proof. by destruct e. Qed.

Lemma prepare_no_commands evs : Forall prepare_event evs -> commands evs = [].
Proof.
  induction 1 as [|e evs He _ IH]; [done|].
  destruct e; cbn in *; try done.
Qed.

Lemma finish_fs build st r st' st1 :
  finish build st = (r, st') -> build st = (r, st1) -> fs st' = fs st1.
Proof.
  unfold finish, bind, print, emit, ret. intros H Hb. rewrite Hb in H.
  destruct r as [[]|e]; cbn in H; by simplify_eq.
Qed.

(** What [build_project] does, stage by stage: either a directory could
    not be removed or created, or the platform-specific build function was
    called in a prepared state, or the platform was rejected in one. *)
Lemma build_project_shape w target_platform arch clean verbose build_type st r st' :
  build_project w target_platform arch clean verbose build_type st = (r, st') ->
  let target := default_to target_platform (detect_platform w) in
  exists body,
    Forall (build_event w) body /\
    banner w target (resolved_arch target arch) build_type `prefix_of` body /\
    ((r = Val true /\ trace st' = trace st ++ body ++ success_banner) \/
     (r <> Val true /\ trace st' = trace st ++ body)) /\
    ((exists e, r = Raise (OSErr e) /\ commands body = [] /\
                (forall p, last body = Some (ERmtree p) -> e = NotADirectoryError)) \/
     exists st1 evs1,
       Prepared w clean (fs st) (fs st1) evs1 /\ evs1 `prefix_of` body /\
       commands evs1 = [] /\
       ((exists t st2 evsb, target = target_name t /\
           build_for w t (script_dir w) (script_dir w // "conan") (script_dir w // "build")
             build_type (resolved_arch target arch) verbose st1 = (r, st2) /\
           fs st' = fs st2 /\ body = evs1 ++ evsb /\
           BuildRun w t (script_dir w) (script_dir w // "conan") (script_dir w // "build")
             build_type (resolved_arch target arch) verbose evsb r) \/
        ((forall t, target <> target_name t) /\ r = Val false /\ fs st' = fs st1 /\
         body = evs1 ++ [EPrint ("Error: Unsupported platform: " +:+ target)]))).
Proof.
  rewrite build_project_stages. cbv zeta.
  set (target := default_to target_platform (detect_platform w)).
  intros H.
  apply prepare_shape in H
    as (evs1 & Hev1 & Hban & [(e & -> & Htr & _ & Hrm)|(st1 & Htr1 & H & Hprep)]).
  { exists evs1. split; [eapply Forall_impl; [done | apply prepare_build_event]|].
    split; [done|]. split; [by right|]. left. exists e. split; [done|].
    split; [by apply prepare_no_commands | done]. }
  assert (Hb1 : Forall (build_event w) evs1)
    by (eapply Forall_impl; [done | apply prepare_build_event]).
  pose proof (prepare_no_commands _ Hev1) as Hc1.
  destruct (target_name_cases target) as [[t Ht]|Hn].
  - rewrite Ht, dispatch_supported in H.
    pose proof H as Hfs.
    apply finish_facts in H as (st2 & Hb & Hfin).
    apply (finish_fs _ _ _ _ st2) in Hfs; [|done].
    pose proof Hb as Hb'. apply build_for_BuildRun in Hb' as (evsb & Htr2 & Hrun).
    pose proof (BuildRun_shape _ _ _ _ _ _ _ _ _ Hrun) as Hshape.
    exists (evs1 ++ evsb). split; [by apply Forall_app|].
    split; [by apply prefix_app_r|]. split.
    + destruct Hfin as [[-> Htr3]|[Hnt ->]]; [left|right]; (split; [done|]).
      * by rewrite Htr3, Htr2, Htr1, <- !app_assoc.
      * by rewrite Htr2, Htr1, <- !app_assoc.
    + right. exists st1, evs1. split; [done|]. split; [by exists evsb|]. split; [done|].
      left. exists t, st2, evsb. by rewrite Ht.
  - rewrite dispatch_unsupported in H by done.
    unfold bind, print, emit, ret in H. cbn in H. inversion H; subst; clear H. cbn.
    exists (evs1 ++ [EPrint ("Error: Unsupported platform: " +:+ target)]).
    split; [apply Forall_app; split; [done|]; apply Forall_singleton; cbn; other_line|].
    split; [by apply prefix_app_r|].
    split; [right; split; [done|]; by rewrite Htr1, <- app_assoc|].
    right. exists st1, evs1. split; [done|]. split; [by eexists|]. split; [done|].
    by right.
Qed.

(** ** What is left of the file system *)

Lemma run_steps_fs w cwd l st r st' :
  read_only w -> run_steps w cwd l st = (r, st') -> fs st' = fs st.
Proof.
  intros Hro. revert st. induction l as [|[cmd err] l IH]; intros st H; cbn in H.
  - by inversion H.
  - unfold step, bind, subprocess_run, print, emit, ret in H.
    pose proof (Hro st cmd cwd) as Hfs.
    destruct (proc w st cmd cwd) as [[result|e] f]; cbn in Hfs; subst f.
    + destruct (Z.eqb_spec (returncode result) 0); cbn in H.
      * by apply IH in H.
      * by inversion H.
    + by inversion H.
Qed.

Lemma build_for_keeps w t project_root conan_dir build_dir build_type arch verbose
    st r st' :
  read_only w ->
  build_for w t project_root conan_dir build_dir build_type arch verbose st = (r, st') ->
  fs st ⊆ fs st'.
Proof.
  intros Hro H. destruct t; unfold build_for in H.
  - rewrite windows_steps in H. unfold bind, print, emit in H.
    apply (run_steps_fs _ _ _ _ _ _ Hro) in H. by rewrite H.
  - rewrite linux_steps in H. unfold bind, print, emit in H.
    apply (run_steps_fs _ _ _ _ _ _ Hro) in H. by rewrite H.
  - rewrite android_steps in H. unfold bind, print, emit, mkdir, ret in H.
    remember (run_steps _ _ _) as k eqn:Hk.
    destruct (arch_accepted Android (default_to arch "armv8")); exec H.
    all: cbn in H; exec_end H; cbn; try done.
    all: try (by apply insert_subseteq).
    all: subst k; apply (run_steps_fs _ _ _ _ _ _ Hro) in H; rewrite H; cbn; try done.
    all: by apply insert_subseteq.
  - rewrite qnx_steps in H. unfold bind, print, emit, mkdir, ret in H.
    remember (run_steps _ _ _) as k eqn:Hk. exec H.
    all: cbn in H; exec_end H; cbn; try done.
    all: subst k; apply (run_steps_fs _ _ _ _ _ _ Hro) in H; rewrite H; cbn; try done.
    all: by apply insert_subseteq.
Qed.

Lemma build_project_keeps w target_platform arch verbose build_type st r st' :
  read_only w ->
  build_project w target_platform arch false verbose build_type st = (r, st') ->
  fs st ⊆ fs st'.
Proof.
  intros Hro H. rewrite build_project_stages in H. cbv zeta in H.
  apply prepare_shape in H
    as (evs1 & _ & _ & [(e & _ & _ & Hk & _)|(st1 & _ & H & Hprep)]);
    [by apply Hk|].
  etrans; [by apply (prep_keep _ _ _ _ _ Hprep)|].
  destruct (target_name_cases (default_to target_platform (detect_platform w)))
    as [[t Ht]|Hn].
  - rewrite Ht, dispatch_supported in H.
    pose proof H as Hf. apply finish_facts in Hf as (st2 & Hb & _).
    rewrite (finish_fs _ _ _ _ st2 H Hb). by eapply build_for_keeps.
  - rewrite dispatch_unsupported in H by done.
    unfold bind, print, emit, ret in H. cbn in H. by inversion H.
Qed.

(** X6: without [--clean], and with external programs that leave the
    file system alone, a run never removes or alters an entry: whatever
    existed before the run exists unchanged after it, however the run
    ends. *)
Theorem run_without_clean_keeps_files w args fs0 :
  read_only w ->
  arg_clean args = false ->
  fs0 ⊆ fs (run_main w args fs0).2.
Proof.
  intros Hro Hclean.
  destruct (main_run w args fs0)
    as (rc & st1 & Hc & Hcf & [[Hne ->]|(-> & rp & st2 & evs & Hp & Htr & Hpf & ->)]);
    cbn [fst snd].
  - apply check_prerequisites_shape in Hc as (evs & _ & _ & Hfs).
    by rewrite (Hfs Hro).
  - apply check_prerequisites_shape in Hc as (evsc & _ & _ & Hfs).
    rewrite Hclean in Hp. apply (build_project_keeps _ _ _ _ _ _ _ _ Hro) in Hp.
    by rewrite (Hfs Hro) in Hp.
Qed.

(** A run that keeps the object file of an earlier build. *)
Lemma run_without_clean_keeps_files_witness :
  fs (run_main (posix_host "Linux" ∅ 8 none) (linux_release false) disk).2
    !! "/proj/build/old.o" = Some File.
Proof.
  apply (lookup_weaken disk).
  - reflexivity.
  - apply (run_without_clean_keeps_files (posix_host "Linux" ∅ 8 none) (linux_release false)
             disk); [intros st cmd cwd|]; reflexivity.
Defined.

(** X7: when the prerequisite check does not succeed, the script changes
    nothing: it neither creates nor removes a directory, all it runs are
    version probes, and, the probes leaving the file system alone, the file
    system is after the run what it was before. *)
Theorem failed_check_changes_nothing w args fs0 :
  (check_prerequisites w (arg_platform args) {| fs := fs0; trace := [] |}).1 <> Val true ->
  Forall (fun e => ~ changes_fs e) (trace (run_main w args fs0).2) /\
  Forall check_event (trace (run_main w args fs0).2) /\
  (read_only w -> fs (run_main w args fs0).2 = fs0).
Proof.
  intros Hne.
  destruct (check_prerequisites w (arg_platform args) {| fs := fs0; trace := [] |})
    as [rc st1] eqn:Hc.
  rewrite (main_check_failed _ _ _ _ _ Hc Hne). cbn [snd].
  destruct (check_prerequisites_facts _ _ _ _ _ Hc) as (evs & Htr & Hcf).
  destruct (check_prerequisites_shape _ _ _ _ _ Hc) as (evs' & Htr' & Hev & Hfs).
  cbn in Htr, Htr'. split; [rewrite Htr; apply (cf_no_fs _ _ _ _ _ Hcf)|].
  split; [by rewrite Htr'|done].
Qed.

(** A run on a host without Conan. *)
Lemma failed_check_changes_nothing_witness :
  fs (run_main (faulty_host (starts_with ["conan"]) FileNotFoundError)
        (linux_release true) disk).2 = disk.
Proof.
  refine (proj2 (proj2 (failed_check_changes_nothing
            (faulty_host (starts_with ["conan"]) FileNotFoundError)
            (linux_release true) disk _)) _).
  - vm_compute. discriminate.
  - intros st cmd cwd. reflexivity.
Defined.

(** ** The stages of a build *)

Lemma build_project_new_events w target_platform arch clean verbose build_type st evs :
  trace (build_project w target_platform arch clean verbose build_type st).2 =
    trace st ++ evs ->
  new_events (build_project w target_platform arch clean verbose build_type) st = evs.
Proof. apply new_events_eq. Qed.

(** X8: a platform that is none of the four is rejected only after the
    directories have been prepared: unless a directory could not be
    removed or created, [build_project] returns [False] with the message of
    the unsupported platform as its last line, has run no program, and
    leaves the build and conan directories behind. *)
Theorem unsupported_platform_after_preparing w target_platform arch clean verbose
    build_type st :
  let target := default_to target_platform (detect_platform w) in
  let m := build_project w target_platform arch clean verbose build_type in
  (forall t, target <> target_name t) ->
  commands (new_events m st) = [] /\
  ((exists e, (m st).1 = Raise (OSErr e)) \/
   ((m st).1 = Val false /\
    last (new_events m st) = Some (EPrint ("Error: Unsupported platform: " +:+ target)) /\
    EMkdir (str_path w (script_dir w // "build")) ∈ new_events m st /\
    EMkdir (str_path w (script_dir w // "conan")) ∈ new_events m st /\
    fs (m st).2 !! str_path w (script_dir w // "build") = Some Dir /\
    fs (m st).2 !! str_path w (script_dir w // "conan") = Some Dir)).
Proof.
  intros target m Hn. unfold m.
  destruct (build_project w target_platform arch clean verbose build_type st)
    as [r st'] eqn:H.
  destruct (build_project_shape _ _ _ _ _ _ _ _ _ H)
    as (body & Hev & _ & Htr &
        [(e & -> & Hc & _)|(st1 & evs1 & Hprep & Hpre & Hc1 & Hcase)]).
  - destruct Htr as [[? _]|[_ Htr]]; [done|].
    rewrite (build_project_new_events _ _ _ _ _ _ _ body) by by rewrite H.
    cbn [fst snd]. eauto.
  - destruct Hcase as [(t & st2 & evsb & Ht & _)|(_ & -> & Hfs & ->)];
      [by destruct (Hn t)|].
    destruct Htr as [[? _]|[_ Htr]]; [done|].
    rewrite (build_project_new_events _ _ _ _ _ _ _ _) by (rewrite H; exact Htr).
    cbn [fst snd]. split; [by rewrite commands_app, Hc1|]. right.
    split; [done|]. split; [apply last_snoc|]. rewrite Hfs, !elem_of_app.
    split; [left; apply (prep_mkdir_build _ _ _ _ _ Hprep)|].
    split; [left; apply (prep_mkdir_conan _ _ _ _ _ Hprep)|].
    split; [apply (prep_build _ _ _ _ _ Hprep) | apply (prep_conan _ _ _ _ _ Hprep)].
Qed.

(** A host whose platform is detected as macos. *)
Lemma unsupported_platform_after_preparing_witness :
  commands (new_events (build_project (posix_host "Darwin" ∅ 8 none) None None false false
                          "Release") start) = [].
Proof.
  apply (unsupported_platform_after_preparing (posix_host "Darwin" ∅ 8 none) None None
           false false "Release" start).
  intros []; vm_compute; discriminate.
Defined.

(** X9: on one of the four platforms, unless a directory could not be
    removed or created (and then no program is run), [build_project] calls
    the build function of the platform, and gives what it gives, in a state
    in which the build and conan directories exist. Without [--clean]
    every entry that existed is still there; with [--clean] nothing is
    left of what lay below an existing build directory. *)
Theorem build_function_called_prepared w t target_platform arch clean verbose
    build_type st :
  default_to target_platform (detect_platform w) = target_name t ->
  let m := build_project w target_platform arch clean verbose build_type in
  let build := str_path w (script_dir w // "build") in
  let conan := str_path w (script_dir w // "conan") in
  (exists e, (m st).1 = Raise (OSErr e) /\ commands (new_events m st) = []) \/
  exists st1 st2,
    build_for w t (script_dir w) (script_dir w // "conan") (script_dir w // "build")
      build_type (resolved_arch (target_name t) arch) verbose st1 = ((m st).1, st2) /\
    fs st1 !! build = Some Dir /\ fs st1 !! conan = Some Dir /\
    (clean = false -> fs st ⊆ fs st1) /\
    (clean = true -> is_Some (fs st !! build) ->
     forall q, under (os_sep w) build q = true -> q <> build -> q <> conan ->
               fs st1 !! q = None).
Proof.
  intros Ht m build conan. unfold m.
  destruct (build_project w target_platform arch clean verbose build_type st)
    as [r st'] eqn:H.
  destruct (build_project_shape _ _ _ _ _ _ _ _ _ H)
    as (body & Hev & _ & Htr &
        [(e & -> & Hc & _)|(st1 & evs1 & Hprep & Hpre & Hc1 & Hcase)]).
  - left. destruct Htr as [[? _]|[_ Htr]]; [done|].
    rewrite (build_project_new_events _ _ _ _ _ _ _ body) by by rewrite H.
    cbn [fst snd]. eauto.
  - right. destruct Hcase as [(t' & st2 & evsb & Ht' & Hb & _)|(Hn & _)];
      [|by destruct (Hn t)].
    rewrite Ht in Ht', Hb. assert (t' = t) as -> by by destruct t, t'.
    exists st1, st2. cbn [fst]. split; [done|].
    split; [apply (prep_build _ _ _ _ _ Hprep)|].
    split; [apply (prep_conan _ _ _ _ _ Hprep)|].
    split; [apply (prep_keep _ _ _ _ _ Hprep) | apply (prep_clean _ _ _ _ _ Hprep)].
Qed.

(** A build with [--clean] on a disk with an old object file. *)
Lemma build_function_called_prepared_witness :
  (exists e, (build_project (posix_host "Linux" ∅ 8 none) (Some "linux") None true false
                "Release" start).1 = Raise (OSErr e) /\
             commands (new_events (build_project (posix_host "Linux" ∅ 8 none)
                                     (Some "linux") None true false "Release") start) = []) \/
  exists st1 st2,
    build_for (posix_host "Linux" ∅ 8 none) Linux (mkPath "/" ["proj"])
      (mkPath "/" ["proj"; "conan"]) (mkPath "/" ["proj"; "build"]) "Release"
      (resolved_arch "linux" None) false st1 =
      ((build_project (posix_host "Linux" ∅ 8 none) (Some "linux") None true false
          "Release" start).1, st2) /\
    fs st1 !! "/proj/build" = Some Dir /\ fs st1 !! "/proj/conan" = Some Dir /\
    (true = false -> disk ⊆ fs st1) /\
    (true = true -> is_Some (disk !! "/proj/build") ->
     forall q, under "/" "/proj/build" q = true -> q <> "/proj/build" ->
               q <> "/proj/conan" -> fs st1 !! q = None).
Proof.
  apply (build_function_called_prepared (posix_host "Linux" ∅ 8 none) Linux (Some "linux")
           None true false "Release" start).
  reflexivity.
Defined.

(** ** The lines of success *)






(** ** Where the programs are run *)

(** X11: every program a run starts is either one of the two version
    probes, run in the working directory of the caller with its output
    captured, or a command of the build, run in the directory of the script
    with its output not captured. *)
Theorem commands_run_in_script_directory w args fs0 cmd cwd capture r :
  ERun cmd cwd capture r ∈ trace (run_main w args fs0).2 ->
  (cmd ∈ probes /\ cwd = None /\ capture = true) \/
  ((cmd ∉ probes) /\ cwd = Some (str_path w (script_dir w)) /\ capture = false).
Proof.
  intros Hin.
  destruct (main_run w args fs0)
    as (rc & st1 & Hc & Hcf & [[Hne Heq]|(-> & rp & st2 & evs & Hp & Htr & Hpf & Heq)]);
    rewrite Heq in Hin; cbn [fst snd] in Hin;
    apply check_prerequisites_shape in Hc as (evsc & Htrc & Hevc & _); cbn in Htrc.
  - left. rewrite Htrc in Hin. by apply (proj1 (Forall_forall _ _) Hevc) in Hin.
  - rewrite Htr, elem_of_app in Hin. destruct Hin as [Hin|Hin].
    + left. rewrite Htrc in Hin. by apply (proj1 (Forall_forall _ _) Hevc) in Hin.
    + right.
      destruct (project_commands_no_probe _ _ _ _ _ _ _ _ _ Hpf
                  (run_in_commands _ _ _ _ _ Hin)) as [Hnp _].
      split; [done|].
      destruct (build_project_shape _ _ _ _ _ _ _ _ _ Hp) as (body & Hev & _ & Hcase & _).
      assert (Hb : ERun cmd cwd capture r ∈ body).
      { destruct Hcase as [[_ Htr']|[_ Htr']]; rewrite Htr in Htr';
          apply app_inv_head in Htr'; rewrite Htr' in Hin; [|done].
        apply elem_of_app in Hin as [Hin|Hin]; [done|].
        unfold success_banner in Hin. invert_elem Hin. }
      by apply (proj1 (Forall_forall _ _) Hev) in Hb.
Qed.

(** The install command of a build on Linux. *)
Lemma commands_run_in_script_directory_witness :
  (install_command Linux "x86_64"
     (setting_of (posix_host "Linux" ∅ 8 none) (mkPath "/" ["proj"; "conan"]) false)
     ∈ probes /\ Some "/proj" = None /\ false = true) \/
  ((install_command Linux "x86_64"
      (setting_of (posix_host "Linux" ∅ 8 none) (mkPath "/" ["proj"; "conan"]) false)
      ∉ probes) /\ Some "/proj" = Some "/proj" /\ false = false).
Proof.
  apply (commands_run_in_script_directory (posix_host "Linux" ∅ 8 none)
           (linux_release false) disk _ _ _
           (Completed {| returncode := 0; stdout := "cmake version 3.28.1" |})).
  vm_compute. find_elem.
Defined.

(** ** The build functions on their own *)

Lemma arch_accepted_abi a :
  arch_accepted Android a = bool_decide (is_Some (arch_to_abi !! a)).
Proof.
  unfold arch_accepted. cbn [arch_flags assoc]. by_arch a; try done.
  unfold arch_to_abi. cbn [list_to_map foldr uncurry].
  rewrite !lookup_insert_ne by done. rewrite lookup_empty.
  by rewrite !bool_decide_eq_false_2 by (by intros [? ?]).
Qed.

Lemma arch_to_abi_None a :
  arch_to_abi !! a = None <-> a ∉ ["armv7"; "armv8"; "x86"; "x86_64"].
Proof.
  split.
  - intros Hn Hin. invert_elem Hin; vm_compute in Hn; discriminate.
  - intros Hn. unfold arch_to_abi. cbn [list_to_map foldr uncurry].
    rewrite !lookup_insert_ne; [apply lookup_empty|..];
      intros <-; apply Hn; find_elem.
Qed.

Lemma parent_path_div p name : parent (p // name) = p.
Proof.
  destruct p as [a ps]. unfold parent, path_div. cbn. by rewrite removelast_last.
Qed.

(** X13: the build functions of android and qnx create their directory
    below the build directory without creating the build directory itself.
    Called where the build directory does not exist they raise
    [FileNotFoundError]; where it is a file, an error of the operating
    system too; where their own directory is a file, [FileExistsError]; in
    each case before any program is run and with the file system
    unchanged. *)
Theorem platform_directory_needs_build_directory w t d project_root conan_dir build_dir
    build_type arch verbose st :
  platform_subdir t = Some d ->
  let m := build_for w t project_root conan_dir build_dir build_type arch verbose in
  let own := fs st !! str_path w (build_dir // d) in
  let above := fs st !! str_path w build_dir in
  (own = Some File -> (m st).1 = Raise (OSErr FileExistsError)) /\
  (own = None -> above = None -> (m st).1 = Raise (OSErr FileNotFoundError)) /\
  (own = None -> above = Some File -> exists e, (m st).1 = Raise (OSErr e)) /\
  (own = Some File \/ (own = None /\ above <> Some Dir) ->
   commands (new_events m st) = [] /\ fs (m st).2 = fs st).
Proof.
  intros Hd m own above. unfold m, own, above, str_path.
  destruct t; try discriminate; injection Hd as <-; unfold build_for;
    [rewrite android_steps | rewrite qnx_steps];
    unfold bind, print, emit, mkdir, new_events; cbn;
    rewrite parent_path_div;
    destruct (fs st !! path_str (os_sep w) (build_dir // _)) as [[]|];
    cbn; try (repeat split; intros; try done; intuition congruence).
  all: destruct (fs st !! path_str (os_sep w) build_dir) as [[]|];
    cbn; try (repeat split; intros; try done; intuition congruence).
  all: repeat split; intros; try done; try (intuition congruence); eauto.
  all: rewrite <- ?app_assoc, drop_app_length; done.
Qed.

(** The Android build called on a disk without a build directory. *)
Lemma platform_directory_needs_build_directory_witness :
  (build_for (posix_host "Linux" ∅ 8 none) Android (mkPath "/" ["proj"])
     (mkPath "/" ["proj"; "conan"]) (mkPath "/" ["proj"; "output"])
     "Release" None false start).1 = Raise (OSErr FileNotFoundError).
Proof.
  apply (proj1 (proj2 (platform_directory_needs_build_directory
           (posix_host "Linux" ∅ 8 none) Android "android" (mkPath "/" ["proj"])
           (mkPath "/" ["proj"; "conan"]) (mkPath "/" ["proj"; "output"])
           "Release" None false start eq_refl))); reflexivity.
Defined.

Lemma Steps_false_run cwd l evs :
  Steps cwd l evs (Val false) ->
  exists cmd result,
    ERun cmd cwd false (Completed result) ∈ evs /\ returncode result <> 0.
Proof.
  remember (Val false) as r eqn:Hr. induction 1 as [| |cmd err l result Hz
                                                    |cmd err l result evs r Hz Hs IH];
    try discriminate.
  - exists cmd, result. split; [left | done].
  - destruct (IH Hr) as (cmd' & result' & Hin & Hnz). exists cmd', result'.
    split; [by right | done].
Qed.

(** X15: a build function returns [False] for one of two reasons only: a
    command it ran returned a code other than zero, or, in
    [build_for_android], the architecture is none of the four of its
    table. No architecture makes the functions of windows, linux or qnx
    return [False] by itself. *)
Theorem build_false_has_a_cause w t project_root conan_dir build_dir build_type arch
    verbose st :
  let m := build_for w t project_root conan_dir build_dir build_type arch verbose in
  (m st).1 = Val false ->
  (t = Android /\ (default_to arch "armv8" ∉ ["armv7"; "armv8"; "x86"; "x86_64"]) /\
   commands (new_events m st) = []) \/
  exists cmd cwd capture result,
    ERun cmd cwd capture (Completed result) ∈ new_events m st /\ returncode result <> 0.
Proof.
  intros m Hr.
  pose proof (build_for_run w t project_root conan_dir build_dir build_type arch verbose st)
    as Hrun. fold m in Hrun. rewrite Hr in Hrun.
  inversion Hrun as [|Hacc Hevs|evs r Hacc Hs Hevs].
  - left. assert (t = Android) as -> by (by destruct t). split; [done|]. split; [|done].
    apply arch_to_abi_None. rewrite arch_accepted_abi in Hacc.
    apply bool_decide_eq_false in Hacc.
    change (default_arch Android) with "armv8" in Hacc.
    destruct (arch_to_abi !! default_to arch "armv8") eqn:Ha; [|done].
    destruct Hacc. eauto.
  - right. apply Steps_false_run in Hs as (cmd & result & Hin & Hnz).
    exists cmd, (Some (str_path w project_root)), false, result.
    split; [|done]. apply elem_of_app. by right.
Qed.

(** A build in which the configure command returns 1. *)
Lemma build_false_has_a_cause_witness :
  (Linux = Android /\ (default_to None "armv8" ∉ ["armv7"; "armv8"; "x86"; "x86_64"]) /\
   commands (new_events
               (build_for (posix_host "Linux" ∅ 8 (starts_with ["cmake"; "-S"])) Linux
                  (mkPath "/" ["proj"]) (mkPath "/" ["proj"; "conan"])
                  (mkPath "/" ["proj"; "build"]) "Release" None false) start) = []) \/
  exists cmd cwd capture result,
    ERun cmd cwd capture (Completed result)
      ∈ new_events
          (build_for (posix_host "Linux" ∅ 8 (starts_with ["cmake"; "-S"])) Linux
             (mkPath "/" ["proj"]) (mkPath "/" ["proj"; "conan"])
             (mkPath "/" ["proj"; "build"]) "Release" None false) start /\
    returncode result <> 0.
Proof.
  apply (build_false_has_a_cause (posix_host "Linux" ∅ 8 (starts_with ["cmake"; "-S"]))
           Linux (mkPath "/" ["proj"]) (mkPath "/" ["proj"; "conan"])
           (mkPath "/" ["proj"; "build"]) "Release" None false start).
  vm_compute. reflexivity.
Defined.

(** ** The header of a build *)

(** X16: whatever happens afterwards, [build_project] first prints its
    header: the title between two rules, the target platform, given or
    detected, the architecture, given or the default of that platform (and
    [None] when there is neither), the build type, the build and Conan
    directories below the directory of the script, and a rule.  Nothing is
    removed, created or run before these nine lines. *)
Theorem header_printed_first w target_platform arch clean verbose build_type st :
  banner w (default_to target_platform (detect_platform w))
    (resolved_arch (default_to target_platform (detect_platform w)) arch) build_type
    `prefix_of`
    new_events (build_project w target_platform arch clean verbose build_type) st.
Proof.
  destruct (build_project w target_platform arch clean verbose build_type st)
    as [r st'] eqn:H.
  destruct (build_project_shape _ _ _ _ _ _ _ _ _ H) as (body & _ & Hban & Hcase & _).
  destruct Hcase as [[_ Htr]|[_ Htr]].
  - rewrite (build_project_new_events _ _ _ _ _ _ _ (body ++ success_banner))
      by by rewrite H.
    by apply prefix_app_r.
  - by rewrite (build_project_new_events _ _ _ _ _ _ _ body) by by rewrite H.
Qed.

(** ** The toolchain of a cross build *)

(** X17: in a run of the script for Android or QNX, a command of the build
    is only started when the variable of that platform, [ANDROID_NDK_HOME]
    or [QNX_SDP_HOME], is set and not empty. *)
Theorem toolchain_variable_set_when_building w args fs0 name cmd cwd capture r :
  platform_variable (arg_platform args) = Some name ->
  ERun cmd cwd capture r ∈ trace (run_main w args fs0).2 ->
  cmd ∉ probes ->
  exists p, environ w !! name = Some p /\ p <> "".
Proof.
  intros Hname Hin Hnp.
  destruct (main_run w args fs0)
    as (rc & st1 & Hc & Hcf & [[Hne Heq]|(-> & rp & st2 & evs & Hp & Htr & Hpf & Heq)]);
    rewrite Heq in Hin; cbn [fst snd] in Hin.
  - exfalso. apply Hnp. apply (check_commands_probes _ _ _ _ _ _ Hcf).
    by apply (run_in_commands _ cwd capture r).
  - destruct (proj1 (cf_true _ _ _ _ _ Hcf) eq_refl) as (_ & _ & _ & Henv).
    unfold env_ok in Henv. rewrite Hname in Henv. destruct Henv as (p & Hp' & Hne & _).
    by exists p.
Qed.

(** A build for Android with the NDK in [/opt]. *)
Lemma toolchain_variable_set_when_building_witness :
  exists p, environ (posix_host "Linux" {[ "ANDROID_NDK_HOME" := "/opt" ]} 8 none)
              !! "ANDROID_NDK_HOME" = Some p /\ p <> "".
Proof.
  apply (toolchain_variable_set_when_building
           (posix_host "Linux" {[ "ANDROID_NDK_HOME" := "/opt" ]} 8 none)
           {| arg_platform := Some "android"; arg_arch := None;
              arg_build_type := "Release"; arg_verbose := false; arg_clean := false |}
           disk "ANDROID_NDK_HOME"
           (compile_command Android "Release"
              (setting_of (posix_host "Linux" {[ "ANDROID_NDK_HOME" := "/opt" ]} 8 none)
                 (mkPath "/" ["proj"; "conan"]) false))
           (Some "/proj") false
           (Completed {| returncode := 0; stdout := "cmake version 3.28.1" |})).
  - reflexivity.
  - vm_compute. find_elem.
  - vm_compute. intros H. invert_elem H.
Defined.

(** * The command lines of a run *)

(** ** Where a sequence of steps stops *)

Lemma Steps_first cwd l evs r : Steps cwd l evs r -> commands evs = [] -> l = [].
Proof. by destruct 1. Qed.

Lemma Steps_failed_last cwd l evs r pre cmd cwd' capture res post :
  Steps cwd l evs r ->
  evs = pre ++ ERun cmd cwd' capture res :: post ->
  failed res ->
  commands post = [] /\ r <> Val true.
Proof.
  intros Hs. revert pre.
  induction Hs as [|c err l e|c err l result0 Hz|c err l result0 evs r Hz Hs IH];
    intros pre Heq Hf.
  - by destruct pre.
  - destruct pre as [|? [|? ?]]; try discriminate. by injection Heq as <- <- <- <- <-.
  - destruct pre as [|? [|? [|? ?]]]; try discriminate.
    by injection Heq as <- <- <- <- <-.
  - destruct pre as [|? pre]; injection Heq as ? Heq; simplify_eq; [by cbn in Hf | eauto].
Qed.

Lemma Steps_ok_last cwd l evs r pre cmd cwd' capture res post :
  Steps cwd l evs r ->
  evs = pre ++ ERun cmd cwd' capture res :: post ->
  ~ failed res ->
  commands post = [] ->
  commands evs = l.*1.
Proof.
  intros Hs. revert pre.
  induction Hs as [|c err l e|c err l result0 Hz|c err l result0 evs r Hz Hs IH];
    intros pre Heq Hok Hpost.
  - by destruct pre.
  - destruct pre as [|? [|? ?]]; try discriminate.
    injection Heq as <- <- <- <- <-. by destruct Hok.
  - destruct pre as [|? [|? [|? ?]]]; try discriminate.
    injection Heq as <- <- <- <- <-. by destruct Hok.
  - rewrite commands_run, fmap_cons. f_equal.
    destruct pre as [|? pre]; injection Heq as ? Heq; simplify_eq.
    + rewrite Hpost. by rewrite (Steps_first _ _ _ _ Hs Hpost).
    + eauto.
Qed.

Lemma Steps_all cwd l evs r :
  Steps cwd l evs r -> commands evs = l.*1 -> Forall run_ok evs -> r = Val true.
Proof.
  induction 1 as [|c err l e|c err l result0 Hz|c err l result0 evs r Hz Hs IH];
    intros Hc Hok.
  - done.
  - apply Forall_cons in Hok as [Hok _]. by destruct Hok.
  - apply Forall_cons in Hok as [Hok _]. by destruct Hok.
  - rewrite commands_run, fmap_cons in Hc. injection Hc as Hc.
    apply Forall_cons in Hok as [_ Hok]. auto.
Qed.

(** A program of a build function is run after its header. *)
Lemma header_split w t conan_dir build_dir evs pre cmd cwd capture res post :
  header w t conan_dir build_dir ++ evs = pre ++ ERun cmd cwd capture res :: post ->
  exists pre', evs = pre' ++ ERun cmd cwd capture res :: post.
Proof.
  destruct t; cbn; intros Heq.
  1,2: destruct pre as [|? pre]; [discriminate|]; injection Heq as _ Heq; eauto.
  1,2: destruct pre as [|? [|? pre]]; try discriminate; injection Heq as _ _ Heq; eauto.
Qed.

Lemma header_no_run w t conan_dir build_dir pre cmd cwd capture res post :
  header w t conan_dir build_dir <> pre ++ ERun cmd cwd capture res :: post.
Proof.
  intros Heq. apply (f_equal commands) in Heq.
  rewrite header_commands, commands_app, commands_run in Heq. by destruct (commands pre).
Qed.

Lemma arch_accepted_four t a :
  arch_accepted t a = false <-> t = Android /\ (a ∉ ["armv7"; "armv8"; "x86"; "x86_64"]).
Proof.
  destruct t; try (cbn; split; [done | by intros [? _]]).
  rewrite <- arch_to_abi_None, arch_accepted_abi. split.
  - intros H. split; [done|]. apply bool_decide_eq_false in H.
    destruct (arch_to_abi !! a); [destruct H; eauto | done].
  - intros [_ H]. rewrite H. apply bool_decide_eq_false_2. by intros [? ?].
Qed.

(** The three command lines of a build. *)
Lemma command_table_accepted t a build_type s :
  arch_accepted t a = true ->
  command_table t a build_type s =
    [install_command t a s; configure_command t a build_type s;
     compile_command t build_type s].
Proof. unfold command_table. by intros ->. Qed.

Section BuildRunCut.

Context {w : World} {t : Target} {project_root conan_dir build_dir : Path}
  {build_type : string} {arch : option string} {verbose : bool}
  {evs : list Event} {r : Res bool}.
Hypothesis Hrun :
  BuildRun w t project_root conan_dir build_dir build_type arch verbose evs r.

Let a := default_to arch (default_arch t).
Let s := setting_of w conan_dir verbose.
Let table := [install_command t a s; configure_command t a build_type s;
              compile_command t build_type s].

Lemma BuildRun_prefix : commands evs `prefix_of` table.
Proof.
  destruct (BuildRun_commands Hrun) as [Hp _]. cbv zeta in Hp.
  unfold command_table in Hp. fold a s in Hp.
  destruct (arch_accepted t a); [done|]. apply prefix_nil_inv in Hp. rewrite Hp.
  apply prefix_nil.
Qed.

Lemma BuildRun_none :
  commands evs = [] ->
  (t = Android /\ (a ∉ ["armv7"; "armv8"; "x86"; "x86_64"]) /\ r = Val false) \/
  ((t = Android \/ t = QNX) /\ exists e, r = Raise (OSErr e)).
Proof.
  intros Hc. destruct Hrun as [e Ht|Ha|evs' r' Ha Hs].
  - right. eauto.
  - left. apply arch_accepted_four in Ha as [-> Ha]. done.
  - exfalso. rewrite commands_app, header_commands in Hc. cbn in Hc.
    apply (Steps_first _ _ _ _ Hs) in Hc. apply (f_equal (fmap fst)) in Hc.
    rewrite steps_of_commands, command_table_accepted in Hc by done. done.
Qed.

Lemma BuildRun_failed_last pre cmd cwd capture res post :
  evs = pre ++ ERun cmd cwd capture res :: post ->
  failed res ->
  commands post = [] /\ r <> Val true.
Proof.
  intros Heq Hf. destruct Hrun as [e Ht|Ha|evs' r' Ha Hs].
  - by apply header_no_run in Heq.
  - exfalso. apply (f_equal commands) in Heq.
    rewrite !commands_app, header_commands, commands_run in Heq.
    by destruct (commands pre).
  - apply header_split in Heq as (pre' & Heq). by eapply Steps_failed_last.
Qed.

Lemma BuildRun_ok_last pre cmd cwd capture res post :
  evs = pre ++ ERun cmd cwd capture res :: post ->
  ~ failed res ->
  commands post = [] ->
  commands evs = table.
Proof.
  intros Heq Hok Hpost. destruct Hrun as [e Ht|Ha|evs' r' Ha Hs].
  - by apply header_no_run in Heq.
  - exfalso. apply (f_equal commands) in Heq.
    rewrite !commands_app, header_commands, commands_run in Heq.
    by destruct (commands pre).
  - apply header_split in Heq as (pre' & Heq).
    rewrite commands_app, header_commands. cbn [app].
    rewrite (Steps_ok_last _ _ _ _ _ _ _ _ _ _ Hs Heq Hok Hpost).
    rewrite steps_of_commands. by apply command_table_accepted.
Qed.

Lemma BuildRun_all : r = Val true <-> commands evs = table /\ Forall run_ok evs.
Proof.
  split.
  - intros Hr. split; [|by apply (BuildRun_true Hrun)].
    destruct (BuildRun_commands Hrun) as [_ Heq]. rewrite (Heq Hr).
    apply command_table_accepted. rewrite Hr in Hrun. by inversion Hrun.
  - intros [Hc Hok]. destruct Hrun as [e Ht|Ha|evs' r' Ha Hs].
    + by rewrite header_commands in Hc.
    + by rewrite commands_app, header_commands in Hc.
    + rewrite commands_app, header_commands in Hc. cbn [app] in Hc.
      apply Forall_app in Hok as [_ Hok].
      apply (Steps_all _ _ _ _ Hs); [|done].
      rewrite steps_of_commands. by rewrite command_table_accepted.
Qed.

End BuildRunCut.

(** ** C2: does a build function run exactly two external commands? *)

(** C2, as stated, fails: a build of the Linux target in which every
    command succeeds runs three external commands, not two. *)
Lemma C2_linux_build_runs_three_commands :
  length (commands (new_events
            (build_for_linux (posix_host "Linux" ∅ 8 none) (mkPath "/" ["proj"])
               (mkPath "/" ["proj"; "conan"]) (mkPath "/" ["proj"; "build"])
               "Release" (Some "x86_64") false)
            start)) <> 2%nat.
Proof. vm_compute. discriminate. Qed.

(** C2, amended: each of the four build functions runs up to three
    external commands, in this order: the dependency install (conan), the
    configure (cmake) and the compile (cmake --build), with the words of
    the table for its target and architecture. It runs none only when the
    architecture is none of the four of Android or when its directory
    could not be created (android, qnx). A command that fails, because it
    cannot be started or returns a code other than zero, is the last one
    run, and the function does not return [True]; a command that returns
    zero is the last one run only if it is the third. The function returns
    [True] exactly when it has run all three and each returned zero. *)
Theorem C2_build_runs_three_commands w t project_root conan_dir build_dir build_type
    arch verbose st :
  let m := build_for w t project_root conan_dir build_dir build_type arch verbose in
  let a := default_to arch (default_arch t) in
  let s := setting_of w conan_dir verbose in
  let table := [install_command t a s; configure_command t a build_type s;
                compile_command t build_type s] in
  let evs := new_events m st in
  commands evs `prefix_of` table /\
  (commands evs = [] ->
   (t = Android /\ (a ∉ ["armv7"; "armv8"; "x86"; "x86_64"]) /\ (m st).1 = Val false) \/
   ((t = Android \/ t = QNX) /\ exists e, (m st).1 = Raise (OSErr e))) /\
  (forall pre cmd cwd capture res post,
     evs = pre ++ ERun cmd cwd capture res :: post ->
     (failed res -> commands post = [] /\ (m st).1 <> Val true) /\
     (~ failed res -> commands post = [] -> commands evs = table)) /\
  ((m st).1 = Val true <-> commands evs = table /\ Forall run_ok evs) /\
  ((m st).1 = Val true ->
   head <$> commands evs = [Some "conan"; Some "cmake"; Some "cmake"]).
Proof.
  intros m a s table evs.
  pose proof (build_for_run w t project_root conan_dir build_dir build_type
                arch verbose st) as Hrun. fold m evs in Hrun.
  split; [apply (BuildRun_prefix Hrun)|].
  split; [apply (BuildRun_none Hrun)|].
  split; [|split].
  - intros pre cmd cwd capture res post Heq. split.
    + by apply (BuildRun_failed_last Hrun _ _ _ _ _ _ Heq).
    + by apply (BuildRun_ok_last Hrun _ _ _ _ _ _ Heq).
  - apply (BuildRun_all Hrun).
  - intros Hr. apply (BuildRun_all Hrun) in Hr as [-> _].
    unfold table, install_command, configure_command, compile_command, append_verbose.
    by destruct t, verbose.
Qed.

(** A build for QNX in which every command returns zero. *)
Lemma C2_build_runs_three_commands_witness :
  head <$> commands (new_events
              (build_for (posix_host "Linux" ∅ 8 none) QNX (mkPath "/" ["proj"])
                 (mkPath "/" ["proj"; "conan"]) (mkPath "/" ["proj"; "build"])
                 "Debug" None true) start) =
    [Some "conan"; Some "cmake"; Some "cmake"].
Proof.
  apply (C2_build_runs_three_commands (posix_host "Linux" ∅ 8 none) QNX (mkPath "/" ["proj"])
           (mkPath "/" ["proj"; "conan"]) (mkPath "/" ["proj"; "build"]) "Debug" None true
           start).
  vm_compute. reflexivity.
Defined.

(** ** Where the prerequisite check stops *)

Lemma check_prerequisites_cut w tp st r st' :
  check_prerequisites w tp st = (r, st') ->
  exists evs, trace st' = trace st ++ evs /\
    take 1 probes `prefix_of` commands evs /\
    (forall pre cmd cwd capture res post,
       evs = pre ++ ERun cmd cwd capture res :: post ->
       (failed res -> commands post = [] /\ r <> Val true) /\
       (~ failed res -> commands post = [] -> commands evs = probes)).
Proof.
  unfold check_prerequisites, check_android_prerequisites, check_qnx_prerequisites,
    try_except, bind, subprocess_run, print, emit, ret, index, raise, path_exists,
    environ_get.
  intros H. exec_all H.
  all: cbn; rewrite <- ?app_assoc; eexists; split; [reflexivity|]; cbn [app].
  all: split; [apply prefix_cons, prefix_nil|].
  all: intros pre cmd cwd capture res post Heq.
  all: repeat (destruct pre as [|? pre]; simplify_eq/=).
  all: split; [intros Hf | intros Hok Hpost]; cbn in *; try done; try (by destruct Hok).
Qed.

(** ** Where [build_project] stops *)

Lemma app_split_at {A} (l1 l2 pre : list A) x post :
  l1 ++ l2 = pre ++ x :: post ->
  (exists post1, l1 = pre ++ x :: post1 /\ post = post1 ++ l2) \/
  (exists pre2, pre = l1 ++ pre2 /\ l2 = pre2 ++ x :: post).
Proof.
  intros Heq. apply app_eq_inv in Heq as [(k & -> & Hk)|(k & -> & ->)]; [|eauto].
  destruct k as [|y k]; cbn in Hk.
  - right. exists []. rewrite !app_nil_r. by subst.
  - left. injection Hk as <- ->. eauto.
Qed.

Lemma no_commands_no_run l pre cmd cwd capture res post :
  commands l = [] -> l <> pre ++ ERun cmd cwd capture res :: post.
Proof.
  intros Hc Heq. rewrite Heq, commands_app, commands_run in Hc. by destruct (commands pre).
Qed.

Lemma no_commands_run_ok l : commands l = [] -> Forall run_ok l.
Proof.
  induction l as [|e l IH]; intros Hc; [apply Forall_nil; done|].
  destruct e; try done; apply Forall_cons; split; auto; done.
Qed.

Lemma target_name_inj t t' : target_name t = target_name t' -> t = t'.
Proof. by destruct t, t'. Qed.

Lemma build_project_cut w target_platform arch clean verbose build_type st r st' t :
  build_project w target_platform arch clean verbose build_type st = (r, st') ->
  default_to target_platform (detect_platform w) = target_name t ->
  let a := default_to arch (default_arch t) in
  let s := setting_of w (script_dir w // "conan") verbose in
  let table := [install_command t a s; configure_command t a build_type s;
                compile_command t build_type s] in
  exists evs, trace st' = trace st ++ evs /\
    commands evs `prefix_of` table /\
    (commands evs = [] ->
     (t = Android /\ (a ∉ ["armv7"; "armv8"; "x86"; "x86_64"]) /\ r = Val false) \/
     exists e, r = Raise (OSErr e)) /\
    (forall pre cmd cwd capture res post,
       evs = pre ++ ERun cmd cwd capture res :: post ->
       (failed res -> commands post = [] /\ r <> Val true) /\
       (~ failed res -> commands post = [] -> commands evs = table)) /\
    (r = Val true <-> commands evs = table /\ Forall run_ok evs).
Proof.
  intros H Ht a s table.
  destruct (build_project_shape _ _ _ _ _ _ _ _ _ H)
    as (body & _ & _ & Hcase & Hstage). cbv zeta in Hstage. rewrite Ht in Hstage.
  assert (Hend : exists tail, trace st' = trace st ++ body ++ tail /\
                   commands tail = [] /\ Forall run_ok tail /\
                   (r <> Val true -> tail = [])).
  { destruct Hcase as [[-> Htr]|[Hne Htr]].
    - exists success_banner. split; [done|]. split; [done|].
      split; [repeat constructor | done].
    - exists []. by rewrite app_nil_r. }
  destruct Hend as (tail & Htr & Htc & Htok & Hnt).
  exists (body ++ tail). split; [done|]. rewrite commands_app, Htc, app_nil_r.
  destruct Hstage as [(e & -> & Hc & _)|(st1 & evs1 & _ & _ & Hc1 & Hbuild)].
  { rewrite Hc. split; [apply prefix_nil|]. split; [eauto|]. split.
    - intros pre cmd cwd capture res post Heq. exfalso.
      apply (no_commands_no_run (body ++ tail) pre cmd cwd capture res post); [|done].
      by rewrite commands_app, Hc, Htc.
    - split; [done | by intros [? _]]. }
  destruct Hbuild as [(t' & st2 & evsb & Ht' & _ & _ & -> & Hrun)|(Hn & _)];
    [|by destruct (Hn t)].
  apply target_name_inj in Ht' as <-.
  pose proof (BuildRun_prefix Hrun) as Hpre.
  pose proof (BuildRun_none Hrun) as Hnone.
  pose proof (BuildRun_all Hrun) as Hall.
  cbv zeta in Hpre, Hnone, Hall. rewrite resolved_arch_default in Hpre, Hnone, Hall.
  fold a s table in Hpre, Hnone, Hall.
  rewrite commands_app, Hc1. cbn [app].
  split; [done|]. split; [|split].
  - intros Hc. destruct (Hnone Hc) as [?|[_ ?]]; auto.
  - intros pre cmd cwd capture res post Heq.
    rewrite <- app_assoc in Heq.
    apply app_split_at in Heq as [(post1 & Heq & _)|(pre2 & -> & Heq)];
      [by apply no_commands_no_run in Heq|].
    apply app_split_at in Heq as [(post1 & Heq & ->)|(pre3 & -> & Heq)];
      [|by apply no_commands_no_run in Heq].
    rewrite commands_app, Htc, app_nil_r.
    pose proof (BuildRun_failed_last Hrun _ _ _ _ _ _ Heq) as Hfl.
    pose proof (BuildRun_ok_last Hrun _ _ _ _ _ _ Heq) as Hol.
    cbv zeta in Hol. rewrite resolved_arch_default in Hol. fold a s table in Hol.
    split; [done | auto].
  - rewrite Hall. rewrite !Forall_app. split.
    + intros [Hc Hok]. split; [done|]. split; [|done]. split; [|done].
      by apply no_commands_run_ok.
    + intros [Hc [[_ Hok] _]]. done.
Qed.

(** ** C1: are the command lines a function of (platform, arch, build-type)? *)

(** C1, as stated, fails: with the same platform, architecture and build
    type, a host with 4 CPUs and a host with 8 CPUs are given different
    command lines. *)
Lemma C1_commands_depend_on_cpu_count :
  commands (trace (run_main (posix_host "Linux" ∅ 4 none) (linux_release false) disk).2) <>
  commands (trace (run_main (posix_host "Linux" ∅ 8 none) (linux_release false) disk).2).
Proof. vm_compute. intros H. discriminate H. Qed.

(** C1, amended: for every target platform of the four, given or
    detected, every architecture and every build type, the external
    command lines of a run are the two version probes followed by the
    three lines of a fixed table (install, configure, compile), cut
    short in two ways only. A command that fails, because it cannot be
    started or returns a code other than zero, is the last one run, and
    the run exits with 1. And a run in which no command fails stops after
    the two probes, without a command of the build, when the version
    cannot be read from CMake's output, the variable of the platform is
    not set to a path that exists, a directory cannot be removed or
    created, or the architecture is none of the four of Android. In every
    other run all five lines are run, and the run exits with 0 exactly
    when it has run all five and each returned zero. The table is keyed by
    the platform, the architecture and the build type, and besides by the
    verbose flag, the directory of the script, the CPU count of the host
    (linux) and the variables ANDROID_NDK_HOME (android) and QNX_SDP_HOME
    (qnx). *)
Theorem C1_commands_from_table w args fs0 t :
  default_to (arg_platform args) (detect_platform w) = target_name t ->
  let run := run_main w args fs0 in
  let a := default_to (arg_arch args) (default_arch t) in
  let s := setting_of w (script_dir w // "conan") (arg_verbose args) in
  let build := [install_command t a s; configure_command t a (arg_build_type args) s;
                compile_command t (arg_build_type args) s] in
  let cmds := commands (trace run.2) in
  cmds `prefix_of` probes ++ build /\
  take 1 probes `prefix_of` cmds /\
  (forall pre cmd cwd capture res post,
     trace run.2 = pre ++ ERun cmd cwd capture res :: post ->
     (failed res -> commands post = [] /\ exit_status run.1 = 1) /\
     (~ failed res -> commands post = [] -> cmds = probes ++ build \/ cmds = probes)) /\
  (cmds = probes -> Forall run_ok (trace run.2) ->
   run.1 = Raise IndexError \/
   ~ env_ok w (arg_platform args) (fs run.2) \/
   (exists e, run.1 = Raise (OSErr e)) \/
   (t = Android /\ a ∉ ["armv7"; "armv8"; "x86"; "x86_64"])) /\
  (exit_status run.1 = 0 <-> cmds = probes ++ build /\ Forall run_ok (trace run.2)).
Proof.
  intros Ht run a s build cmds. unfold cmds, run.
  destruct (main_run w args fs0)
    as (rc & st1 & Hc & Hcf & [[Hne ->]|(-> & rp & st2 & evs & Hp & Htr & Hpf & ->)]);
    cbn [fst snd];
    destruct (check_prerequisites_cut _ _ _ _ _ Hc) as (evsc & Htrc & Hfirst & Hcut);
    cbn in Htrc; rewrite Htrc in *.
  - assert (Hshort : commands evsc <> probes ++ build).
    { destruct (cf_commands _ _ _ _ _ Hcf) as [-> | ->]; discriminate. }
    split; [|split; [done|split; [|split]]].
    + destruct (cf_commands _ _ _ _ _ Hcf) as [-> | ->].
      * by apply prefix_cons, prefix_nil.
      * by apply prefix_app_r.
    + intros pre cmd cwd capture res post Heq.
      destruct (Hcut _ _ _ _ _ _ Heq) as [Hf Hok]. split.
      * intros Hfail. split; [by apply Hf|]. by apply (exit_of_check_one _ _ _ _ _ Hcf).
      * intros Hnf Hpost. right. by apply Hok.
    + intros Hcp Hok. destruct rc as [[]|[e| |code]]; try done.
      * right. left. intros Henv. by apply Hne, (cf_true _ _ _ _ _ Hcf).
      * right. right. left. by exists e.
      * by left.
      * by destruct (cf_result _ _ _ _ _ Hcf) as [?|[e ?]].
    + split; [|by intros [? _]].
      intros Hex. by destruct (exit_of_check_nonzero _ _ _ _ _ Hcf Hne).
  - assert (Hcp : commands evsc = probes) by by apply (cf_true _ _ _ _ _ Hcf).
    assert (Hokc : Forall run_ok evsc) by by apply (cf_true _ _ _ _ _ Hcf).
    destruct (build_project_cut _ _ _ _ _ _ _ _ _ t Hp Ht)
      as (evs' & Htr' & Hpre & Hnone & Hcutb & Hall).
    rewrite Htr, Htrc in Htr'. apply app_inv_head in Htr' as <-.
    fold a s build in Hpre, Hnone, Hcutb, Hall.
    rewrite Htr, commands_app, Hcp.
    split; [by apply prefix_app|]. split; [apply prefix_app_r, prefix_cons, prefix_nil|].
    split; [|split].
    + intros pre cmd cwd capture res post Heq.
      apply app_split_at in Heq as [(post1 & Heq & ->)|(pre2 & -> & Heq)].
      * split.
        -- intros Hf. exfalso. rewrite Heq in Hokc.
           apply Forall_app in Hokc as [_ Hokc]. apply Forall_cons in Hokc as [Hokc _].
           by apply Hokc.
        -- intros _ Hpost. right. rewrite commands_app in Hpost.
           apply app_eq_nil in Hpost as [_ ->]. by rewrite app_nil_r.
      * destruct (Hcutb _ _ _ _ _ _ Heq) as [Hf Hok]. split.
        -- intros Hfail. destruct (Hf Hfail) as [Hpost Hnt]. split; [done|].
           by apply (exit_of_project_one _ _ _ _ _ _ _ _ Hpf).
        -- intros Hnf Hpost. left. f_equal. by apply Hok.
    + intros Heq _.
      assert (Hnil : commands evs = []).
      { apply (app_inv_head probes). by rewrite app_nil_r. }
      destruct (Hnone Hnil) as [(-> & Ha & _)|[e ->]].
      * right. right. right. done.
      * right. right. left. by exists e.
    + rewrite Forall_app. split.
      * intros Hex. apply (exit_of_project_zero _ _ _ _ _ _ _ _ Hpf) in Hex.
        apply Hall in Hex as [-> Hok]. done.
      * intros [Heq [_ Hok]]. apply app_inv_head in Heq.
        assert (Hr : rp = Val true) by by apply Hall. by rewrite Hr.
Qed.

(** A build for Linux in which every command returns zero. *)
Lemma C1_commands_from_table_witness :
  commands (trace (run_main (posix_host "Linux" ∅ 8 none) (linux_release false) disk).2) =
    probes ++ [install_command Linux "x86_64"
                 (setting_of (posix_host "Linux" ∅ 8 none)
                    (mkPath "/" ["proj"; "conan"]) false);
               configure_command Linux "x86_64" "Release"
                 (setting_of (posix_host "Linux" ∅ 8 none)
                    (mkPath "/" ["proj"; "conan"]) false);
               compile_command Linux "Release"
                 (setting_of (posix_host "Linux" ∅ 8 none)
                    (mkPath "/" ["proj"; "conan"]) false)] /\
  Forall run_ok (trace (run_main (posix_host "Linux" ∅ 8 none) (linux_release false) disk).2).
Proof.
  apply (proj2 (proj2 (proj2 (proj2
           (C1_commands_from_table (posix_host "Linux" ∅ 8 none) (linux_release false)
              disk Linux eq_refl))))).
  vm_compute. reflexivity.
Defined.

(** ** C9: the default architecture *)

(** C9: when no architecture is given, [build_project] selects x86_64
    for windows and linux, armv8 for android and armv7 for qnx: it prints
    this architecture in the fifth line of its header, it behaves in every
    respect as if it had been given it, and, unless a directory cannot be
    removed or created, it runs the dependency install with [arch=] this
    architecture; every command line it runs is one of the table for this
    architecture. *)
Theorem C9_default_arch w t target_platform clean verbose build_type st :
  default_to target_platform (detect_platform w) = target_name t ->
  let d := match t with
           | Windows | Linux => "x86_64"
           | Android => "armv8"
           | QNX => "armv7"
           end in
  let m := build_project w target_platform None clean verbose build_type in
  let s := setting_of w (script_dir w // "conan") verbose in
  let evs := new_events m st in
  evs !! 4%nat = Some (EPrint ("Target architecture: " +:+ d)) /\
  m st = build_project w target_platform (Some d) clean verbose build_type st /\
  commands evs `prefix_of`
    [install_command t d s; configure_command t d build_type s;
     compile_command t build_type s] /\
  ((exists e, (m st).1 = Raise (OSErr e) /\ commands evs = []) \/
   exists cmd rest, commands evs = cmd :: rest /\ cmd = install_command t d s /\
                    ("arch=" +:+ d) ∈ cmd).
Proof.
  intros Ht d m s evs.
  assert (Hd : d = default_arch t) by by destruct t.
  destruct (m st) as [r st'] eqn:H. unfold m in H.
  assert (Hev : exists body tail, evs = body ++ tail /\
            banner w (target_name t) (Some d) build_type `prefix_of` body).
  { destruct (build_project_shape _ _ _ _ _ _ _ _ _ H) as (body & _ & Hban & Hcase & _).
    cbv zeta in Hban. rewrite Ht in Hban.
    replace (resolved_arch (target_name t) None) with (Some d) in Hban by by destruct t.
    destruct Hcase as [[_ Htr]|[_ Htr]].
    - exists body, success_banner. split; [|done].
      unfold evs, m. apply new_events_eq. by rewrite H.
    - exists body, []. split; [|done]. rewrite app_nil_r.
      unfold evs, m. apply new_events_eq. by rewrite H. }
  destruct Hev as (body & tail & Hevs & [k Hban]).
  destruct (build_project_cut _ _ _ _ _ _ _ _ _ t H Ht)
    as (evs' & Htr' & Hpre & Hnone & _ & _).
  assert (Hevs' : evs = evs').
  { unfold evs, m. apply new_events_eq. by rewrite H. }
  rewrite <- Hevs' in Hpre, Hnone. cbn [default_to] in Hpre, Hnone.
  rewrite <- Hd in Hpre, Hnone. fold s in Hpre.
  split; [by rewrite Hevs, Hban|].
  split.
  { rewrite <- H. unfold m. rewrite !build_project_stages. cbv zeta. rewrite Ht.
    by destruct t. }
  split; [done|].
  destruct (commands evs) as [|cmd rest] eqn:Hc.
  - left. destruct (Hnone eq_refl) as [(-> & Ha & _)|[e ->]].
    + exfalso. apply Ha. find_elem.
    + by exists e.
  - right. exists cmd, rest. split; [done|].
    assert (cmd = install_command t d s) as ->.
    { destruct Hpre as [k' Hk]. by injection Hk as -> _. }
    split; [done|]. unfold install_command, append_verbose.
    destruct (conan_settings t) as [[os compiler] version].
    destruct (set_verbose s); find_elem.
Qed.

(** A host on which the platform is detected and no architecture given. *)
Lemma C9_default_arch_witness :
  new_events
    (build_project (posix_host "Linux" ∅ 8 none) None None false false "Release") start
    !! 4%nat = Some (EPrint "Target architecture: x86_64").
Proof.
  apply (C9_default_arch (posix_host "Linux" ∅ 8 none) Linux None false false "Release"
           start).
  vm_compute. reflexivity.
Defined.

(** ** C5: what the prerequisite check does *)

Lemma check_prerequisites_true w tp st r st' :
  check_prerequisites w tp st = (r, st') ->
  exists evs, trace st' = trace st ++ evs /\
    (r = Val true <->
     exists conan cmake version,
       ERun ["conan"; "--version"] None true (Completed conan) ∈ evs /\
       returncode conan = 0 /\
       ERun ["cmake"; "--version"] None true (Completed cmake) ∈ evs /\
       returncode cmake = 0 /\
       split_space (stdout cmake) !! 2%nat = Some version /\
       env_ok w tp (fs st')) /\
    (forall cmake version,
       ERun ["cmake"; "--version"] None true (Completed cmake) ∈ evs ->
       returncode cmake = 0 ->
       split_space (stdout cmake) !! 2%nat = Some version ->
       EPrint ("CMake version: " +:+ strip version) ∈ evs).
Proof.
  unfold check_prerequisites, check_android_prerequisites, check_qnx_prerequisites,
    try_except, bind, subprocess_run, print, emit, ret, index, raise, path_exists,
    environ_get.
  intros H. exec_all H.
  all: cbn; rewrite <- ?app_assoc; eexists; split; [reflexivity|]; cbn [app].
  all: split.
  all: try (intros cmake version Hin Hz Hv; invert_elem Hin;
            first [ done | congruence | simplify_eq; find_elem ]; fail).
  all: try (split; [ intros _ | done ]; eexists _, _, _;
            split; [find_elem|]; split; [done|]; split; [find_elem|]; split; [done|];
            split; [eassumption|];
            unfold env_ok, platform_variable; repeat case_bool_decide; simplify_eq; eauto;
            fail).
  all: split; [ first [discriminate | congruence] | ].
  all: intros (conan & cmake & version & Hin1 & Hz1 & Hin2 & Hz2 & Hv & He); exfalso.
  all: invert_elem Hin1; invert_elem Hin2; try done; try congruence.
  all: unfold env_ok, platform_variable in He; repeat case_bool_decide; simplify_eq;
       destruct He as (p & Hp & Hne & Hs); simplify_eq; try done.
Qed.

(** C5, as stated, fails twice. When the Conan probe returns 1, it is the
    only probe that is run. And when the target is android and
    ANDROID_NDK_HOME names a regular file, the check succeeds. *)
Lemma C5_one_probe_and_no_directory_check :
  commands (new_events
              (check_prerequisites (posix_host "Linux" ∅ 8 (starts_with ["conan"])) None)
              start) = [["conan"; "--version"]] /\
  (disk !! "/opt/ndk.zip" = Some File /\
   (check_prerequisites
      (posix_host "Linux" {[ "ANDROID_NDK_HOME" := "/opt/ndk.zip" ]} 8 none)
      (Some "android") start).1 = Val true).
Proof. by vm_compute. Qed.

(** C5, amended: the prerequisite check runs the Conan version probe and,
    only if that returned zero, the CMake version probe, at most these two.
    It succeeds exactly when both probes ran and returned zero, CMake's
    output has a third field when split at single spaces (the version,
    which the check prints), and, when and only when the target is android
    or qnx, the target's variable (ANDROID_NDK_HOME, QNX_SDP_HOME) is set,
    not empty, and names something that exists, be it a directory or a
    file. *)
Theorem C5_check_prerequisites w tp st :
  let m := check_prerequisites w tp in
  let evs := new_events m st in
  (commands evs = [["conan"; "--version"]] \/
   commands evs = [["conan"; "--version"]; ["cmake"; "--version"]]) /\
  (commands evs = [["conan"; "--version"]; ["cmake"; "--version"]] <->
   exists result, ERun ["conan"; "--version"] None true (Completed result) ∈ evs /\
                  returncode result = 0) /\
  ((m st).1 = Val true <->
   exists conan cmake version,
     ERun ["conan"; "--version"] None true (Completed conan) ∈ evs /\
     returncode conan = 0 /\
     ERun ["cmake"; "--version"] None true (Completed cmake) ∈ evs /\
     returncode cmake = 0 /\
     split_space (stdout cmake) !! 2%nat = Some version /\
     env_ok w tp (fs (m st).2)) /\
  (forall cmake version,
     ERun ["cmake"; "--version"] None true (Completed cmake) ∈ evs ->
     returncode cmake = 0 ->
     split_space (stdout cmake) !! 2%nat = Some version ->
     EPrint ("CMake version: " +:+ strip version) ∈ evs) /\
  (forall f, env_ok w (Some "android") f <->
     exists p, environ w !! "ANDROID_NDK_HOME" = Some p /\ p <> "" /\ is_Some (f !! p)) /\
  (forall f, env_ok w (Some "qnx") f <->
     exists p, environ w !! "QNX_SDP_HOME" = Some p /\ p <> "" /\ is_Some (f !! p)) /\
  (tp <> Some "android" -> tp <> Some "qnx" -> forall f, env_ok w tp f).
Proof.
  intros m evs. unfold evs, m.
  destruct (check_prerequisites w tp st) as [r st'] eqn:H.
  destruct (check_prerequisites_facts _ _ _ _ _ H) as (evs' & Htr & Hcf).
  destruct (check_prerequisites_true _ _ _ _ _ H) as (evs'' & Htr' & Htrue & Hprint).
  rewrite Htr in Htr'. apply app_inv_head in Htr' as <-.
  erewrite new_events_eq; [|by rewrite H]. cbn [fst snd].
  split; [apply (cf_commands _ _ _ _ _ Hcf)|].
  split; [apply (cf_second _ _ _ _ _ Hcf)|].
  split; [done|]. split; [done|].
  split; [done|]. split; [done|].
  intros Ha Hq f. unfold env_ok, platform_variable.
  by rewrite !bool_decide_eq_false_2.
Qed.

(** A check for Android on a host with the NDK in [/opt]: it succeeds. *)
Lemma C5_check_prerequisites_witness :
  exists conan cmake version,
    ERun ["conan"; "--version"] None true (Completed conan) ∈
      new_events
        (check_prerequisites (posix_host "Linux" {[ "ANDROID_NDK_HOME" := "/opt" ]} 8 none)
           (Some "android")) start /\
    returncode conan = 0 /\
    ERun ["cmake"; "--version"] None true (Completed cmake) ∈
      new_events
        (check_prerequisites (posix_host "Linux" {[ "ANDROID_NDK_HOME" := "/opt" ]} 8 none)
           (Some "android")) start /\
    returncode cmake = 0 /\
    split_space (stdout cmake) !! 2%nat = Some version /\
    env_ok (posix_host "Linux" {[ "ANDROID_NDK_HOME" := "/opt" ]} 8 none) (Some "android")
      (fs (check_prerequisites
             (posix_host "Linux" {[ "ANDROID_NDK_HOME" := "/opt" ]} 8 none)
             (Some "android") start).2).
Proof.
  apply (proj1 (proj1 (proj2 (proj2
           (C5_check_prerequisites
              (posix_host "Linux" {[ "ANDROID_NDK_HOME" := "/opt" ]} 8 none)
              (Some "android") start))))).
  vm_compute. reflexivity.
Defined.

(** ** C7: how a run fails *)

(** C7, as stated, fails twice. A run on a host whose CMake prints its
    version alone ends with an [IndexError] that nothing catches: the
    exit status is 1 and no line the script has printed is an error
    message. And a run on a host detected as macos ends with the message
    of an unsupported platform, which reports neither a missing
    prerequisite nor a command that returned a code other than zero. *)
Lemma C7_failure_without_error_message :
  (exit_status (run_main (terse_host "3.28.1") (linux_release false) disk).1 = 1 /\
   forall line,
     EPrint line ∈ trace (run_main (terse_host "3.28.1") (linux_release false) disk).2 ->
     String.prefix "Error" line = false) /\
  (last (trace (run_main (posix_host "Darwin" ∅ 8 none)
                  {| arg_platform := None; arg_arch := None; arg_build_type := "Release";
                     arg_verbose := false; arg_clean := false |} disk).2) =
     Some (EPrint "Error: Unsupported platform: macos") /\
   ("Error: Unsupported platform: macos" ∉ prerequisite_errors) /\
   forall t, "Error: Unsupported platform: macos" ∉ step_errors t).
Proof.
  split; [split|split; [|split]].
  - vm_compute. reflexivity.
  - intros line Hin. vm_compute in Hin. invert_elem Hin; reflexivity.
  - vm_compute. reflexivity.
  - intros Hin. invert_elem Hin.
  - intros [] Hin; invert_elem Hin.
Qed.

(** C7, amended: a run ends in one of three ways: [sys.exit(0)];
    [sys.exit(1)] right after printing an error message, which reports a
    missing prerequisite, an unsupported platform or architecture, or a
    command that returned a code other than zero; or an exception of the
    host that nothing catches ([IndexError] on CMake's output, [OSError]
    on starting a program or on removing or creating a directory), on
    which the interpreter exits with 1 and the script prints no message.
    Every failure the script detects is of the second way: a failed
    prerequisite check, a command that returned a code other than zero,
    and (unless the host raises) an unsupported target platform all end
    the run with status 1. *)
Theorem C7_failures w args fs0 :
  let st0 := {| fs := fs0; trace := [] |} in
  let run := run_main w args fs0 in
  (run.1 = Raise (SystemExit 0) \/
   (run.1 = Raise (SystemExit 1) /\
    exists msg kind, last (trace run.2) = Some (EPrint msg) /\ ErrorMessage kind msg) \/
   ((run.1 = Raise IndexError \/ exists e, run.1 = Raise (OSErr e)) /\
    exit_status run.1 = 1)) /\
  ((check_prerequisites w (arg_platform args) st0).1 = Val false ->
   run.1 = Raise (SystemExit 1)) /\
  (forall cmd cwd capture result,
     ERun cmd cwd capture (Completed result) ∈ trace run.2 ->
     returncode result <> 0 ->
     run.1 = Raise (SystemExit 1)) /\
  ((forall t, default_to (arg_platform args) (detect_platform w) <> target_name t) ->
   exit_status run.1 = 1).
Proof.
  intros st0 run. unfold run.
  destruct (main_run w args fs0)
    as (rc & st1 & Hc & Hcf & [[Hne ->]|(-> & rp & st2 & evs & Hp & Htr & Hpf & ->)]);
    fold st0 in Hc; rewrite Hc; cbn [fst snd].
  - split; [|split; [|split]].
    + destruct rc as [[]|e]; [done|..].
      * right. left. split; [done|].
        destruct (cf_false _ _ _ _ _ Hcf eq_refl) as (msg & Hl & Hin).
        exists msg, PrerequisiteMissing. split; [done | by constructor].
      * right. right.
        destruct (cf_result _ _ _ _ _ Hcf) as [->|[e' ->]]; try done; eauto.
    + by intros ->.
    + intros cmd cwd capture result Hin Hnz.
      by rewrite (cf_nonzero _ _ _ _ _ Hcf _ _ _ _ Hin Hnz).
    + intros _. by apply (exit_of_check_one _ _ _ _ _ Hcf).
  - split; [|split; [|split]].
    + destruct (pf_result _ _ _ _ _ _ _ _ Hpf) as [->|[->|[e ->]]].
      * by left.
      * right. left. split; [done|].
        destruct (pf_false _ _ _ _ _ _ _ _ Hpf eq_refl) as (msg & kind & Hl & Hm & _).
        exists msg, kind. split; [|done]. rewrite Htr. by apply last_app_last.
      * right. right. eauto.
    + done.
    + intros cmd cwd capture result Hin Hnz.
      rewrite Htr, elem_of_app in Hin. destruct Hin as [Hin|Hin].
      * by pose proof (cf_nonzero _ _ _ _ _ Hcf _ _ _ _ Hin Hnz).
      * by rewrite (pf_nonzero _ _ _ _ _ _ _ _ Hpf _ _ _ _ Hin Hnz).
    + intros Hn. apply (exit_of_project_one _ _ _ _ _ _ _ _ Hpf).
      by destruct (pf_unsupported _ _ _ _ _ _ _ _ Hpf Hn).
Qed.

(** A run on a host whose platform is detected as macos. *)
Lemma C7_failures_witness :
  exit_status (run_main (posix_host "Darwin" ∅ 8 none)
                 {| arg_platform := None; arg_arch := None; arg_build_type := "Release";
                    arg_verbose := false; arg_clean := false |} disk).1 = 1.
Proof.
  refine (proj2 (proj2 (proj2 (C7_failures (posix_host "Darwin" ∅ 8 none)
            {| arg_platform := None; arg_arch := None; arg_build_type := "Release";
               arg_verbose := false; arg_clean := false |} disk))) _).
  intros []; vm_compute; discriminate.
Defined.

(** * Further properties of the build functions *)

(** ** The architectures of Android *)

Lemma Steps_head cwd cmd err l evs r :
  Steps cwd ((cmd, err) :: l) evs r ->
  exists res rest, evs = ERun cmd cwd false res :: rest.
Proof. inversion 1; subst; eauto. Qed.

(** X12: [build_for_android] accepts the architectures armv7, armv8, x86
    and x86_64 (armv8 when none is given) and no other. It creates the
    directory build/android in either case. For one of the four, unless
    the directory could not be created, it runs the dependency install for
    this architecture and does not print that the architecture is not
    supported. For any other it runs no program and, unless the directory
    could not be created, returns [False] with the message of the
    unsupported architecture as its last line. *)
Theorem android_accepts_exactly_four w project_root conan_dir build_dir
    build_type arch verbose st :
  let a := default_to arch "armv8" in
  let m := build_for_android w project_root conan_dir build_dir build_type arch verbose in
  let evs := new_events m st in
  let rejected := EPrint ("Error: Unsupported Android architecture: " +:+ a) in
  EMkdir (str_path w (build_dir // "android")) ∈ evs /\
  (a ∈ ["armv7"; "armv8"; "x86"; "x86_64"] ->
   (rejected ∉ evs) /\
   ((exists e, (m st).1 = Raise (OSErr e) /\ commands evs = []) \/
    exists rest,
      commands evs = install_command Android a (setting_of w conan_dir verbose) :: rest)) /\
  ((a ∉ ["armv7"; "armv8"; "x86"; "x86_64"]) ->
   commands evs = [] /\
   ((exists e, (m st).1 = Raise (OSErr e)) \/
    ((m st).1 = Val false /\ last evs = Some rejected))).
Proof.
  intros a m evs rejected.
  pose proof (build_for_run w Android project_root conan_dir build_dir build_type arch
                verbose st) as Hrun.
  change (build_for w Android project_root conan_dir build_dir build_type arch verbose)
    with m in Hrun. fold evs in Hrun.
  change (default_arch Android) with "armv8" in Hrun.
  pose proof (arch_accepted_four Android a) as Hfour.
  inversion Hrun as [e Ht Hevs Hr|Hacc Hevs Hr|evs' r Hacc Hs Hevs Hr].
  - split; [cbn; find_elem|]. split.
    + intros _. split; [|left; eauto].
      intros Hin. cbn in Hin. invert_elem Hin.
    + intros _. split; [done | eauto].
  - change (default_to arch (default_arch Android)) with a in Hacc.
    apply Hfour in Hacc as [_ Hacc].
    split; [cbn; find_elem|]. split; [done|].
    intros _. split; [done|]. right. split; [done|]. reflexivity.
  - change (default_to arch (default_arch Android)) with a in Hacc, Hs.
    split; [cbn; find_elem|]. split.
    + intros _. split.
      * intros Hin.
        apply elem_of_cons in Hin as [Hin|Hin]; [discriminate|].
        apply elem_of_cons in Hin as [Hin|Hin]; [discriminate|].
        apply Steps_shape in Hs.
        apply (proj1 (Forall_forall _ _) Hs) in Hin. cbn in Hin.
        apply steps_of_errors in Hin. cbn in Hin. invert_elem Hin.
      * right. unfold steps_of in Hs. rewrite command_table_accepted in Hs by done.
        cbn [zip zip_with step_errors] in Hs.
        apply Steps_head in Hs as (res & rest & ->).
        by exists (commands rest).
    + intros Hn. exfalso. assert (arch_accepted Android a = false) by by apply Hfour.
      congruence.
Qed.

(** A build for x86, an architecture of the table. *)
Lemma android_accepts_exactly_four_witness :
  (EPrint ("Error: Unsupported Android architecture: " +:+ "x86") ∉
     new_events
       (build_for_android (posix_host "Linux" ∅ 8 none) (mkPath "/" ["proj"])
          (mkPath "/" ["proj"; "conan"]) (mkPath "/" ["proj"; "build"])
          "Release" (Some "x86") false) start) /\
  ((exists e,
      (build_for_android (posix_host "Linux" ∅ 8 none) (mkPath "/" ["proj"])
         (mkPath "/" ["proj"; "conan"]) (mkPath "/" ["proj"; "build"])
         "Release" (Some "x86") false start).1 = Raise (OSErr e) /\
      commands (new_events
                  (build_for_android (posix_host "Linux" ∅ 8 none) (mkPath "/" ["proj"])
                     (mkPath "/" ["proj"; "conan"]) (mkPath "/" ["proj"; "build"])
                     "Release" (Some "x86") false) start) = []) \/
   exists rest,
     commands (new_events
                 (build_for_android (posix_host "Linux" ∅ 8 none) (mkPath "/" ["proj"])
                    (mkPath "/" ["proj"; "conan"]) (mkPath "/" ["proj"; "build"])
                    "Release" (Some "x86") false) start) =
       install_command Android "x86"
         (setting_of (posix_host "Linux" ∅ 8 none) (mkPath "/" ["proj"; "conan"]) false)
       :: rest).
Proof.
  apply (proj1 (proj2 (android_accepts_exactly_four (posix_host "Linux" ∅ 8 none)
           (mkPath "/" ["proj"]) (mkPath "/" ["proj"; "conan"])
           (mkPath "/" ["proj"; "build"]) "Release" (Some "x86") false start))).
  find_elem.
Defined.

(** ** The verbose flag *)

Lemma verbose_table w t a build_type conan_dir :
  [install_command t a (setting_of w conan_dir true);
   configure_command t a build_type (setting_of w conan_dir true);
   compile_command t build_type (setting_of w conan_dir true)] =
  (fun cmd => cmd ++ ["--verbose"])
    <$> [install_command t a (setting_of w conan_dir false);
         configure_command t a build_type (setting_of w conan_dir false);
         compile_command t build_type (setting_of w conan_dir false)].
Proof.
  unfold install_command, configure_command, compile_command, append_verbose, setting_of.
  cbn [set_verbose]. by destruct t.
Qed.

(** X14: a build function run with the verbose flag and the same
    function run without it are given the same command lines, but that
    each line of the verbose run ends with one more word, [--verbose]:
    the n-th command of the one is the n-th command of the other with
    [--verbose] appended, and when both return [True] each has run three
    commands. The verbose run runs no command only when the architecture
    is none of the four of Android or its directory could not be
    created. *)
Theorem verbose_appends_flag w t project_root conan_dir build_dir build_type arch
    st st' :
  let a := default_to arch (default_arch t) in
  let verbose_run :=
    build_for w t project_root conan_dir build_dir build_type arch true in
  let quiet_run :=
    build_for w t project_root conan_dir build_dir build_type arch false in
  let cv := commands (new_events verbose_run st) in
  let cq := commands (new_events quiet_run st') in
  Forall (fun cmd => last cmd = Some "--verbose") cv /\
  (forall i v q, cv !! i = Some v -> cq !! i = Some q -> v = q ++ ["--verbose"]) /\
  ((verbose_run st).1 = Val true -> (quiet_run st').1 = Val true ->
   length cv = 3%nat /\ cv = (fun cmd => cmd ++ ["--verbose"]) <$> cq) /\
  (cv = [] ->
   (t = Android /\ a ∉ ["armv7"; "armv8"; "x86"; "x86_64"]) \/
   exists e, (verbose_run st).1 = Raise (OSErr e)).
Proof.
  intros a verbose_run quiet_run cv cq.
  pose proof (build_for_run w t project_root conan_dir build_dir build_type arch true st)
    as Hv.
  pose proof (build_for_run w t project_root conan_dir build_dir build_type arch false st')
    as Hq.
  fold verbose_run in Hv. fold quiet_run in Hq.
  pose proof (BuildRun_prefix Hv) as Hpv. pose proof (BuildRun_prefix Hq) as Hpq.
  pose proof (BuildRun_all Hv) as Hav. pose proof (BuildRun_all Hq) as Haq.
  pose proof (BuildRun_none Hv) as Hnv.
  cbv zeta in Hpv, Hpq, Hav, Haq, Hnv. fold a cv in Hpv, Hav, Hnv. fold a cq in Hpq, Haq.
  rewrite verbose_table in Hpv, Hav.
  split; [|split; [|split]].
  - destruct Hpv as [k Hk].
    assert (Hall : Forall (fun cmd => last cmd = Some "--verbose") (cv ++ k)).
    { rewrite <- Hk. apply Forall_fmap, Forall_forall. intros cmd _. apply last_snoc. }
    by apply Forall_app in Hall as [Hall _].
  - intros i v q Hiv Hiq.
    apply (prefix_lookup_Some _ _ _ _ Hiv) in Hpv.
    apply (prefix_lookup_Some _ _ _ _ Hiq) in Hpq.
    rewrite list_lookup_fmap, Hpq in Hpv. by injection Hpv as <-.
  - intros Hrv Hrq. apply Hav in Hrv as [Hcv _]. apply Haq in Hrq as [Hcq _].
    by rewrite Hcv, Hcq.
  - intros Hc. destruct (Hnv Hc) as [(? & ? & _)|[_ ?]]; auto.
Qed.

(** A build for Linux, verbose and quiet, in which every command returns
    zero. *)
Lemma verbose_appends_flag_witness :
  length (commands (new_events
            (build_for (posix_host "Linux" ∅ 8 none) Linux (mkPath "/" ["proj"])
               (mkPath "/" ["proj"; "conan"]) (mkPath "/" ["proj"; "build"])
               "Release" None true) start)) = 3%nat /\
  commands (new_events
              (build_for (posix_host "Linux" ∅ 8 none) Linux (mkPath "/" ["proj"])
                 (mkPath "/" ["proj"; "conan"]) (mkPath "/" ["proj"; "build"])
                 "Release" None true) start) =
    (fun cmd => cmd ++ ["--verbose"])
      <$> commands (new_events
                      (build_for (posix_host "Linux" ∅ 8 none) Linux (mkPath "/" ["proj"])
                         (mkPath "/" ["proj"; "conan"]) (mkPath "/" ["proj"; "build"])
                         "Release" None false) start).
Proof.
  apply (proj1 (proj2 (proj2 (verbose_appends_flag (posix_host "Linux" ∅ 8 none) Linux
           (mkPath "/" ["proj"]) (mkPath "/" ["proj"; "conan"])
           (mkPath "/" ["proj"; "build"]) "Release" None start start)))).
  - vm_compute. reflexivity.
  - vm_compute. reflexivity.
Defined.

(** * The command line *)

(** ** The words of the command line *)






(** ** What the parser of [main] accepts *)














(** ** C3: the command line and the exit status *)




